(** * BewlyCat: scroll-activity detection, frame sampling and DPR mitigation

    A shallow embedding of
    - [src/utils/performanceDiagnostics.ts], the class
      [PerformanceDiagnostics] (frame sampler and diagnostics controller);
    - [src/composables/useGlobalScrollState.ts], the reference-counted
      scroll-activity singleton;
    - [src/composables/useDPRPerformanceFix.ts], the DPR stylesheet
      controller and the scrolling-marker hook, in its current version
      (one class on [<body>]); of the earlier version (one attribute per
      card) the module [Legacy] keeps the rule set and [markScrolling];
    followed by the properties of the specification that concern them.

    Conventions.  A JavaScript [number] that holds a time, a ratio or a
    pixel quantity is a binary64 float ([PrimFloat.float]).  Counters that
    the code only ever initialises to 0 and moves by one ([frameCount],
    [droppedFrames], [frameCountInSecond], [listenerCount]) are [Z]: on
    such values binary64 arithmetic is exact below 2^53.  Handles returned
    by [setTimeout] and [requestAnimationFrame] are positive integers.
    The browser is modelled by the part of it the code talks to: a
    console, a table of pending timers against a millisecond clock, the
    pending animation-frame requests, and the fragment of the DOM that is
    read or written.  Each module has a type [event] of what the page can
    do to it and a function [run] that plays a list of events. *)

From Stdlib Require Import ZArith Lia List Bool Floats Uint63.
From stdpp Require Import base list gmap strings.

(** ** JavaScript numbers *)

Module JS.

Abbreviation number := float.

(** [x] used as a condition: false for [0], [-0] and [NaN]. *)
Definition truthy (x : number) : bool :=
  negb (PrimFloat.eqb x 0%float) && negb (PrimFloat.is_nan x).

(** [a || b] on numbers. *)
Definition or_else (a b : number) : number := if truthy a then a else b.

(** An array length as a number (exact below 2^53). *)
Definition of_nat (n : nat) : number :=
  PrimFloat.of_uint63 (Uint63.of_Z (Z.of_nat n)).

Definition is_finite (x : number) : bool :=
  negb (PrimFloat.is_nan x) && negb (PrimFloat.is_infinity x).

Definition Math_abs (x : number) : number := PrimFloat.abs x.

(** [Math.max(a, b)]: NaN is contagious and [+0] is larger than [-0]. *)
Definition max2 (a b : number) : number :=
  if PrimFloat.is_nan a || PrimFloat.is_nan b then nan
  else if PrimFloat.ltb a b then b
  else if PrimFloat.ltb b a then a
  else if PrimFloat.get_sign a then b else a.

Definition min2 (a b : number) : number :=
  if PrimFloat.is_nan a || PrimFloat.is_nan b then nan
  else if PrimFloat.ltb a b then a
  else if PrimFloat.ltb b a then b
  else if PrimFloat.get_sign a then a else b.

(** [Math.max(...xs)] and [Math.min(...xs)]; on no argument they are
    [-Infinity] and [+Infinity]. *)
Definition Math_max (xs : list number) : number :=
  fold_left max2 xs neg_infinity.

Definition Math_min (xs : list number) : number :=
  fold_left min2 xs infinity.

(** [xs.reduce((a, b) => a + b, 0)] *)
Definition sum (xs : list number) : number :=
  fold_left PrimFloat.add xs 0%float.

Definition two52 : number := 4503599627370496%float.

Definition Math_floor (x : number) : number :=
  if PrimFloat.is_nan x || PrimFloat.is_infinity x || PrimFloat.eqb x 0%float
  then x
  else if PrimFloat.leb two52 (PrimFloat.abs x) then x
  else
    let r := if PrimFloat.ltb 0%float x
             then ((x + two52) - two52)%float
             else ((x - two52) + two52)%float in
    if PrimFloat.ltb x r then (r - 1)%float else r.

(** [Math.round(x)]: the nearest integer, ties towards +Infinity. *)
Definition Math_round (x : number) : number :=
  if PrimFloat.is_nan x || PrimFloat.is_infinity x || PrimFloat.eqb x 0%float
  then x
  else if PrimFloat.leb (-0.5)%float x && PrimFloat.ltb x 0%float
  then (-0)%float
  else
    let r := Math_floor x in
    if PrimFloat.leb 0.5%float (x - r)%float then (r + 1)%float else r.

End JS.

(** ** The host: console, timers *)

Inductive level := Log | Warn.

(** Pending timers: handle ↦ deadline on the millisecond clock. *)
Abbreviation timer_table := (gmap nat Z).

(** The timers that are due at time [t], and those that are not. *)
Definition due (t : Z) (tm : timer_table) : timer_table :=
  filter (λ kv, (kv.2 <=? t)%Z = true) tm.

Definition not_due (t : Z) (tm : timer_table) : timer_table :=
  filter (λ kv, (kv.2 <=? t)%Z = false) tm.

(** ** The diagnostics object ([performanceDiagnostics.ts]) *)

Module PerformanceDiagnostics.

Record FrameMetrics := {
  timestamp : JS.number;
  frameTime : JS.number;
  scrollTop : JS.number;
  fps : JS.number
}.

Record PerformanceReport := {
  r_devicePixelRatio : JS.number;
  r_screenWidth : JS.number;
  r_screenHeight : JS.number;
  r_windowWidth : JS.number;
  r_windowHeight : JS.number;
  r_chromeZoom : JS.number;
  r_userAgent : string;
  r_avgFps : JS.number;
  r_minFps : JS.number;
  r_maxFps : JS.number;
  r_droppedFrames : Z;
  r_totalFrames : Z;
  r_avgFrameTime : JS.number;
  r_maxFrameTime : JS.number;
  r_cardCount : JS.number;
  r_columnCount : JS.number
}.

(** What the code reads from [window], [window.screen] and [navigator]. *)
Record Window := {
  devicePixelRatio : JS.number;
  screen_width : JS.number;
  screen_height : JS.number;
  innerWidth : JS.number;
  innerHeight : JS.number;
  outerWidth : JS.number;
  userAgent : string
}.

(** What [getScrollTop] reads from the document: the [scrollTop] of the
    element matching [[data-overlayscrollbars-viewport]], if there is
    one, and those of [documentElement] and [body]. *)
Record Document := {
  osViewport : option JS.number;
  documentElement_scrollTop : JS.number;
  body_scrollTop : JS.number
}.

Record SystemInfo := {
  i_devicePixelRatio : JS.number;
  i_screenWidth : JS.number;
  i_screenHeight : JS.number;
  i_windowWidth : JS.number;
  i_windowHeight : JS.number;
  i_chromeZoom : JS.number;
  i_userAgent : string
}.

(** One constructor per [console.log] / [console.warn] call site; the
    numbers that the template strings interpolate are kept as
    arguments. *)
Inductive message :=
| MsgSystemInfo (info : SystemInfo)
| MsgDevicePixelRatio (dpr : JS.number)
| MsgScreenSize (w h : JS.number)
| MsgWindowSize (w h : JS.number)
| MsgEnabled
| MsgDisabled
| MsgScrollingFps (fps : Z) (frameTime : JS.number)
| MsgDroppedFrame (fps : Z)
| MsgLongFrame (frameTime : JS.number)
| MsgScrollStart
| MsgScrollEnd
| MsgGridInfo (cardCount columnCount : JS.number)
| MsgReportHeader
| MsgReportSamples (n : nat)
| MsgReportAvgFrameTime (x : JS.number)
| MsgReportMaxFrameTime (x : JS.number)
| MsgReportAvgFps (x : JS.number)
| MsgReportMinFps (x : JS.number)
| MsgReportGrid (cardCount columnCount : JS.number)
| MsgReportFooter.

Record state := {
  (* fields of the object *)
  enabled : bool;
  frameMetrics : list FrameMetrics;
  frameCount : Z;
  droppedFrames : Z;
  rafId : option nat;
  isScrolling : bool;
  scrollTimeout : option nat;
  cardCount : JS.number;
  columnCount : JS.number;
  (* local variables of startFrameMonitoring, captured by measureFrame *)
  lastTime : JS.number;
  frameCountInSecond : Z;
  secondStart : JS.number;
  (* the host: console output (oldest first), pending timers, the clock,
     the next timer handle, the pending animation-frame request and the
     next request handle *)
  console : list (level * message);
  timers : timer_table;
  now : Z;
  nextTimer : nat;
  frameRequest : option nat;
  nextFrame : nat
}.

Definition set_enabled (v : bool) (s : state) : state :=
  Build_state v (frameMetrics s) (frameCount s) (droppedFrames s)
    (rafId s) (isScrolling s) (scrollTimeout s) (cardCount s)
    (columnCount s) (lastTime s) (frameCountInSecond s) (secondStart s)
    (console s) (timers s) (now s) (nextTimer s) (frameRequest s)
    (nextFrame s).

Definition set_frameMetrics (v : list FrameMetrics) (s : state) : state :=
  Build_state (enabled s) v (frameCount s) (droppedFrames s) (rafId s)
    (isScrolling s) (scrollTimeout s) (cardCount s) (columnCount s)
    (lastTime s) (frameCountInSecond s) (secondStart s) (console s)
    (timers s) (now s) (nextTimer s) (frameRequest s) (nextFrame s).

Definition set_frameCount (v : Z) (s : state) : state :=
  Build_state (enabled s) (frameMetrics s) v (droppedFrames s) (rafId s)
    (isScrolling s) (scrollTimeout s) (cardCount s) (columnCount s)
    (lastTime s) (frameCountInSecond s) (secondStart s) (console s)
    (timers s) (now s) (nextTimer s) (frameRequest s) (nextFrame s).

Definition set_droppedFrames (v : Z) (s : state) : state :=
  Build_state (enabled s) (frameMetrics s) (frameCount s) v (rafId s)
    (isScrolling s) (scrollTimeout s) (cardCount s) (columnCount s)
    (lastTime s) (frameCountInSecond s) (secondStart s) (console s)
    (timers s) (now s) (nextTimer s) (frameRequest s) (nextFrame s).

Definition set_rafId (v : option nat) (s : state) : state :=
  Build_state (enabled s) (frameMetrics s) (frameCount s)
    (droppedFrames s) v (isScrolling s) (scrollTimeout s) (cardCount s)
    (columnCount s) (lastTime s) (frameCountInSecond s) (secondStart s)
    (console s) (timers s) (now s) (nextTimer s) (frameRequest s)
    (nextFrame s).

Definition set_isScrolling (v : bool) (s : state) : state :=
  Build_state (enabled s) (frameMetrics s) (frameCount s)
    (droppedFrames s) (rafId s) v (scrollTimeout s) (cardCount s)
    (columnCount s) (lastTime s) (frameCountInSecond s) (secondStart s)
    (console s) (timers s) (now s) (nextTimer s) (frameRequest s)
    (nextFrame s).

Definition set_scrollTimeout (v : option nat) (s : state) : state :=
  Build_state (enabled s) (frameMetrics s) (frameCount s)
    (droppedFrames s) (rafId s) (isScrolling s) v (cardCount s)
    (columnCount s) (lastTime s) (frameCountInSecond s) (secondStart s)
    (console s) (timers s) (now s) (nextTimer s) (frameRequest s)
    (nextFrame s).

Definition set_cardCount (v : JS.number) (s : state) : state :=
  Build_state (enabled s) (frameMetrics s) (frameCount s)
    (droppedFrames s) (rafId s) (isScrolling s) (scrollTimeout s) v
    (columnCount s) (lastTime s) (frameCountInSecond s) (secondStart s)
    (console s) (timers s) (now s) (nextTimer s) (frameRequest s)
    (nextFrame s).

Definition set_columnCount (v : JS.number) (s : state) : state :=
  Build_state (enabled s) (frameMetrics s) (frameCount s)
    (droppedFrames s) (rafId s) (isScrolling s) (scrollTimeout s)
    (cardCount s) v (lastTime s) (frameCountInSecond s) (secondStart s)
    (console s) (timers s) (now s) (nextTimer s) (frameRequest s)
    (nextFrame s).

Definition set_lastTime (v : JS.number) (s : state) : state :=
  Build_state (enabled s) (frameMetrics s) (frameCount s)
    (droppedFrames s) (rafId s) (isScrolling s) (scrollTimeout s)
    (cardCount s) (columnCount s) v (frameCountInSecond s) (secondStart s)
    (console s) (timers s) (now s) (nextTimer s) (frameRequest s)
    (nextFrame s).

Definition set_frameCountInSecond (v : Z) (s : state) : state :=
  Build_state (enabled s) (frameMetrics s) (frameCount s)
    (droppedFrames s) (rafId s) (isScrolling s) (scrollTimeout s)
    (cardCount s) (columnCount s) (lastTime s) v (secondStart s)
    (console s) (timers s) (now s) (nextTimer s) (frameRequest s)
    (nextFrame s).

Definition set_secondStart (v : JS.number) (s : state) : state :=
  Build_state (enabled s) (frameMetrics s) (frameCount s)
    (droppedFrames s) (rafId s) (isScrolling s) (scrollTimeout s)
    (cardCount s) (columnCount s) (lastTime s) (frameCountInSecond s) v
    (console s) (timers s) (now s) (nextTimer s) (frameRequest s)
    (nextFrame s).

Definition set_console (v : list (level * message)) (s : state) : state :=
  Build_state (enabled s) (frameMetrics s) (frameCount s)
    (droppedFrames s) (rafId s) (isScrolling s) (scrollTimeout s)
    (cardCount s) (columnCount s) (lastTime s) (frameCountInSecond s)
    (secondStart s) v (timers s) (now s) (nextTimer s) (frameRequest s)
    (nextFrame s).

Definition set_timers (v : timer_table) (s : state) : state :=
  Build_state (enabled s) (frameMetrics s) (frameCount s)
    (droppedFrames s) (rafId s) (isScrolling s) (scrollTimeout s)
    (cardCount s) (columnCount s) (lastTime s) (frameCountInSecond s)
    (secondStart s) (console s) v (now s) (nextTimer s) (frameRequest s)
    (nextFrame s).

Definition set_now (v : Z) (s : state) : state :=
  Build_state (enabled s) (frameMetrics s) (frameCount s)
    (droppedFrames s) (rafId s) (isScrolling s) (scrollTimeout s)
    (cardCount s) (columnCount s) (lastTime s) (frameCountInSecond s)
    (secondStart s) (console s) (timers s) v (nextTimer s)
    (frameRequest s) (nextFrame s).

Definition set_nextTimer (v : nat) (s : state) : state :=
  Build_state (enabled s) (frameMetrics s) (frameCount s)
    (droppedFrames s) (rafId s) (isScrolling s) (scrollTimeout s)
    (cardCount s) (columnCount s) (lastTime s) (frameCountInSecond s)
    (secondStart s) (console s) (timers s) (now s) v (frameRequest s)
    (nextFrame s).

Definition set_frameRequest (v : option nat) (s : state) : state :=
  Build_state (enabled s) (frameMetrics s) (frameCount s)
    (droppedFrames s) (rafId s) (isScrolling s) (scrollTimeout s)
    (cardCount s) (columnCount s) (lastTime s) (frameCountInSecond s)
    (secondStart s) (console s) (timers s) (now s) (nextTimer s) v
    (nextFrame s).

Definition set_nextFrame (v : nat) (s : state) : state :=
  Build_state (enabled s) (frameMetrics s) (frameCount s)
    (droppedFrames s) (rafId s) (isScrolling s) (scrollTimeout s)
    (cardCount s) (columnCount s) (lastTime s) (frameCountInSecond s)
    (secondStart s) (console s) (timers s) (now s) (nextTimer s)
    (frameRequest s) v.

(** *** Host primitives *)

Definition console_log (m : message) (s : state) : state :=
  set_console (console s ++ [(Log, m)]) s.

Definition console_warn (m : message) (s : state) : state :=
  set_console (console s ++ [(Warn, m)]) s.

(** [requestAnimationFrame(measureFrame)] returns a fresh handle. *)
Definition requestAnimationFrame (s : state) : nat * state :=
  (nextFrame s,
   set_nextFrame (S (nextFrame s)) (set_frameRequest (Some (nextFrame s)) s)).

Definition cancelAnimationFrame (id : nat) (s : state) : state :=
  if decide (frameRequest s = Some id) then set_frameRequest None s else s.

(** [setTimeout(cb, delay)]: the only callback this object ever passes is
    the one of [onScrollEnd], so a timer is its handle and its deadline. *)
Definition setTimeout (delay : Z) (s : state) : nat * state :=
  (nextTimer s,
   set_nextTimer (S (nextTimer s))
     (set_timers (<[nextTimer s := (now s + delay)%Z]> (timers s)) s)).

Definition clearTimeout (id : nat) (s : state) : state :=
  set_timers (delete id (timers s)) s.

(** A handle used as a condition: [null] and [0] are falsy. *)
Definition handle_truthy (h : option nat) : bool :=
  match h with
  | Some (S _) => true
  | _ => false
  end.

(** [if (this.scrollTimeout) clearTimeout(this.scrollTimeout)] *)
Definition clear_scrollTimeout (s : state) : state :=
  match scrollTimeout s with
  | Some id => if handle_truthy (Some id) then clearTimeout id s else s
  | None => s
  end.

(** *** Methods *)

(** [Math.round((window.outerWidth / window.innerWidth) * 100) / 100] *)
Definition chromeZoom (w : Window) : JS.number :=
  (JS.Math_round ((outerWidth w / innerWidth w) * 100) / 100)%float.

Definition logSystemInfo (w : Window) (s : state) : state :=
  let info := {| i_devicePixelRatio := devicePixelRatio w;
                 i_screenWidth := screen_width w;
                 i_screenHeight := screen_height w;
                 i_windowWidth := innerWidth w;
                 i_windowHeight := innerHeight w;
                 i_chromeZoom := chromeZoom w;
                 i_userAgent := userAgent w |} in
  let s := console_log (MsgSystemInfo info) s in
  let s := console_log (MsgDevicePixelRatio (i_devicePixelRatio info)) s in
  let s := console_log (MsgScreenSize (i_screenWidth info) (i_screenHeight info)) s in
  console_log (MsgWindowSize (i_windowWidth info) (i_windowHeight info)) s.

Definition getScrollTop (d : Document) : JS.number :=
  match osViewport d with
  | Some top => top
  | None => JS.or_else (documentElement_scrollTop d) (body_scrollTop d)
  end.

(** The once-per-second block of [measureFrame] (source lines 98-112);
    [frameCountInSecond] has already been incremented. *)
Definition fpsWindow (currentTime frameTime : JS.number) (s : state) : state :=
  if PrimFloat.leb 1000%float (currentTime - secondStart s)%float then
    let fps := frameCountInSecond s in
    let s :=
      if isScrolling s then
        let s := console_log (MsgScrollingFps fps frameTime) s in
        if (fps <? 30)%Z then
          console_warn (MsgDroppedFrame fps)
            (set_droppedFrames (droppedFrames s + 1)%Z s)
        else s
      else s in
    set_secondStart currentTime (set_frameCountInSecond 0%Z s)
  else s.

(** The sample that [measureFrame] pushes. *)
Definition sample (currentTime frameTime : JS.number) (d : Document)
  : FrameMetrics :=
  {| timestamp := currentTime;
     frameTime := frameTime;
     scrollTop := getScrollTop d;
     fps := (1000 / frameTime)%float |}.

(** [push] followed by the capacity check and [shift] (lines 116-126). *)
Definition pushBounded (m : FrameMetrics) (buf : list FrameMetrics)
  : list FrameMetrics :=
  let buf := buf ++ [m] in
  if (100 <? length buf)%nat then tail buf else buf.

(** The sampling block of [measureFrame] (source lines 114-132). *)
Definition recordFrame (currentTime frameTime : JS.number) (d : Document)
    (s : state) : state :=
  if isScrolling s && PrimFloat.ltb 0%float frameTime then
    let s :=
      set_frameMetrics
        (pushBounded (sample currentTime frameTime d) (frameMetrics s)) s in
    if PrimFloat.ltb 50%float frameTime then
      console_warn (MsgLongFrame frameTime) s
    else s
  else s.

(** The frame callback, called by the host with the frame's timestamp. *)
Definition measureFrame (currentTime : JS.number) (d : Document) (s : state)
  : state :=
  if negb (enabled s) then s
  else
    let frameTime := (currentTime - lastTime s)%float in
    let s := set_lastTime currentTime s in
    let s := set_frameCountInSecond (frameCountInSecond s + 1)%Z s in
    let s := fpsWindow currentTime frameTime s in
    let s := recordFrame currentTime frameTime d s in
    let s := set_frameCount (frameCount s + 1)%Z s in
    let '(id, s) := requestAnimationFrame s in
    set_rafId (Some id) s.

(** [performance.now()] is the argument [t]. *)
Definition startFrameMonitoring (t : JS.number) (s : state) : state :=
  let s := set_lastTime t s in
  let s := set_frameCountInSecond 0%Z s in
  let s := set_secondStart t s in
  let '(id, s) := requestAnimationFrame s in
  set_rafId (Some id) s.

Definition enable (t : JS.number) (w : Window) (s : state) : state :=
  if enabled s then s
  else
    let s := set_enabled true s in
    let s := logSystemInfo w s in
    let s := startFrameMonitoring t s in
    console_log MsgEnabled s.

Definition disable (s : state) : state :=
  if negb (enabled s) then s
  else
    let s := set_enabled false s in
    let s :=
      match rafId s with
      | Some id => set_rafId None (cancelAnimationFrame id s)
      | None => s
      end in
    console_log MsgDisabled s.

Definition printScrollReport (s : state) : state :=
  if (length (frameMetrics s) =? 0)%nat then s
  else
    let frameTimes := map frameTime (frameMetrics s) in
    let fpsList := map fps (frameMetrics s) in
    let avgFrameTime :=
      (JS.sum frameTimes / JS.of_nat (length frameTimes))%float in
    let maxFrameTime := JS.Math_max frameTimes in
    let avgFps := (JS.sum fpsList / JS.of_nat (length fpsList))%float in
    let minFps := JS.Math_min fpsList in
    let s := console_log MsgReportHeader s in
    let s := console_log (MsgReportSamples (length (frameMetrics s))) s in
    let s := console_log (MsgReportAvgFrameTime avgFrameTime) s in
    let s := console_log (MsgReportMaxFrameTime maxFrameTime) s in
    let s := console_log (MsgReportAvgFps avgFps) s in
    let s := console_log (MsgReportMinFps minFps) s in
    let s := console_log (MsgReportGrid (cardCount s) (columnCount s)) s in
    let s := console_log MsgReportFooter s in
    set_frameMetrics [] s.

Definition onScrollStart (s : state) : state :=
  if negb (enabled s) then s
  else
    let s := set_isScrolling true s in
    let s := console_log MsgScrollStart s in
    clear_scrollTimeout s.

(** The callback that [onScrollEnd] hands to [setTimeout]. *)
Definition scrollEndTimeout (s : state) : state :=
  let s := set_isScrolling false s in
  let s := console_log MsgScrollEnd s in
  printScrollReport s.

Definition onScrollEnd (s : state) : state :=
  if negb (enabled s) then s
  else
    let s := clear_scrollTimeout s in
    let '(id, s) := setTimeout 200 s in
    set_scrollTimeout (Some id) s.

Definition updateGridInfo (c k : JS.number) (s : state) : state :=
  let s := set_cardCount c s in
  let s := set_columnCount k s in
  if enabled s then console_log (MsgGridInfo c k) s else s.

Definition generateReport (w : Window) (s : state) : PerformanceReport :=
  let frameTimes := map frameTime (frameMetrics s) in
  let fpsList := map fps (frameMetrics s) in
  {| r_devicePixelRatio := devicePixelRatio w;
     r_screenWidth := screen_width w;
     r_screenHeight := screen_height w;
     r_windowWidth := innerWidth w;
     r_windowHeight := innerHeight w;
     r_chromeZoom := chromeZoom w;
     r_userAgent := userAgent w;
     r_avgFps :=
       if (0 <? length fpsList)%nat
       then (JS.sum fpsList / JS.of_nat (length fpsList))%float
       else 0%float;
     r_minFps :=
       if (0 <? length fpsList)%nat then JS.Math_min fpsList else 0%float;
     r_maxFps :=
       if (0 <? length fpsList)%nat then JS.Math_max fpsList else 0%float;
     r_droppedFrames := droppedFrames s;
     r_totalFrames := frameCount s;
     r_avgFrameTime :=
       if (0 <? length frameTimes)%nat
       then (JS.sum frameTimes / JS.of_nat (length frameTimes))%float
       else 0%float;
     r_maxFrameTime :=
       if (0 <? length frameTimes)%nat
       then JS.Math_max frameTimes else 0%float;
     r_cardCount := cardCount s;
     r_columnCount := columnCount s |}.

(** The report that [generateReport] returns on an empty buffer. *)
Definition empty_buffer_report (w : Window) (s : state) : PerformanceReport :=
  {| r_devicePixelRatio := devicePixelRatio w;
     r_screenWidth := screen_width w;
     r_screenHeight := screen_height w;
     r_windowWidth := innerWidth w;
     r_windowHeight := innerHeight w;
     r_chromeZoom := chromeZoom w;
     r_userAgent := userAgent w;
     r_avgFps := 0%float; r_minFps := 0%float; r_maxFps := 0%float;
     r_droppedFrames := droppedFrames s;
     r_totalFrames := frameCount s;
     r_avgFrameTime := 0%float; r_maxFrameTime := 0%float;
     r_cardCount := cardCount s;
     r_columnCount := columnCount s |}.

(** *** The page's task queue *)

Inductive event :=
| Enable (t : JS.number) (w : Window)
| Disable
| AnimationFrame (t : JS.number) (d : Document)
| ScrollStart
| ScrollEnd
| UpdateGridInfo (c k : JS.number)
| Elapse (dt : N).

(** The host runs the pending frame callback, if a request is pending. *)
Definition animationFrame (t : JS.number) (d : Document) (s : state) : state :=
  match frameRequest s with
  | Some _ => measureFrame t d (set_frameRequest None s)
  | None => s
  end.

(** The clock advances by [dt] ms; every timer that is due by then fires
    and leaves the table. *)
Definition elapse (dt : N) (s : state) : state :=
  let t := (now s + Z.of_N dt)%Z in
  let fired := size (due t (timers s)) in
  Nat.iter fired scrollEndTimeout
    (set_now t (set_timers (not_due t (timers s)) s)).

Definition step (s : state) (e : event) : state :=
  match e with
  | Enable t w => enable t w s
  | Disable => disable s
  | AnimationFrame t d => animationFrame t d s
  | ScrollStart => onScrollStart s
  | ScrollEnd => onScrollEnd s
  | UpdateGridInfo c k => updateGridInfo c k s
  | Elapse dt => elapse dt s
  end.

Definition run (s : state) (es : list event) : state := fold_left step es s.

(** [new PerformanceDiagnostics()] in a fresh page. *)
Definition init : state :=
  {| enabled := false; frameMetrics := []; frameCount := 0; droppedFrames := 0;
     rafId := None; isScrolling := false; scrollTimeout := None;
     cardCount := 0%float; columnCount := 0%float;
     lastTime := 0%float; frameCountInSecond := 0; secondStart := 0%float;
     console := []; timers := ∅; now := 0; nextTimer := 1;
     frameRequest := None; nextFrame := 1 |}.

(** *** Observations on a run *)

(** The reports printed: one per header line. *)
Definition is_report_header (e : level * message) : bool :=
  match e with
  | (Log, MsgReportHeader) => true
  | _ => false
  end.

Definition reports (c : list (level * message)) : nat :=
  length (List.filter is_report_header c).

(** The end-of-scroll timer callbacks that ran. *)
Definition is_scroll_end (e : level * message) : bool :=
  match e with
  | (Log, MsgScrollEnd) => true
  | _ => false
  end.

Definition scroll_ends (c : list (level * message)) : nat :=
  length (List.filter is_scroll_end c).

(** The dropped-frame warnings, with the FPS each one reports. *)
Definition dropped_warnings (c : list (level * message)) : list Z :=
  omap (λ e, match e with
             | (Warn, MsgDroppedFrame fps) => Some fps
             | _ => None
             end) c.

(** The messages of the once-per-second block. *)
Definition window_messages (closes scrolling : bool) (fps : Z)
    (ft : JS.number) : list (level * message) :=
  if closes && scrolling then
    (Log, MsgScrollingFps fps ft)
    :: (if (fps <? 30)%Z then [(Warn, MsgDroppedFrame fps)] else [])
  else [].

(** The message of the sampling block. *)
Definition sample_messages (scrolling : bool) (ft : JS.number)
  : list (level * message) :=
  if scrolling && PrimFloat.ltb 0%float ft && PrimFloat.ltb 50%float ft
  then [(Warn, MsgLongFrame ft)] else [].

(** Frames and the passing of time, with no call from the page. *)
Definition quiet (e : event) : bool :=
  match e with
  | AnimationFrame _ _ | Elapse _ => true
  | _ => false
  end.

(** The time that passes during a trace. *)
Definition elapsed (es : list event) : Z :=
  fold_right (λ e acc, match e with
                       | Elapse dt => (Z.of_N dt + acc)%Z
                       | _ => acc
                       end) 0%Z es.

(** The frame callbacks at the given timestamps. *)
Definition frames (fs : list (JS.number * Document)) : list event :=
  map (λ f, AnimationFrame f.1 f.2) fs.

(** Every pending timer is the one that [scrollTimeout] names, and the
    handles in use are positive. *)
Definition timers_tracked (s : state) : Prop :=
  (∀ id dl, timers s !! id = Some dl → scrollTimeout s = Some id)
  ∧ (∀ id, scrollTimeout s = Some id → 0 < id)
  ∧ 0 < nextTimer s.

(** What the end-of-scroll timer prints when it fires on buffer [buf]. *)
Definition reports_of (buf : list FrameMetrics) : nat :=
  match buf with
  | [] => 0
  | _ :: _ => 1
  end.

(** A page for the worked examples: a 1920x1080 screen at DPR 1 and a
    document scrolled to the top. *)
Definition desktop : Window :=
  {| devicePixelRatio := 1%float; screen_width := 1920%float;
     screen_height := 1080%float; innerWidth := 1920%float;
     innerHeight := 969%float; outerWidth := 1920%float;
     userAgent := "Mozilla/5.0" |}.

Definition at_top : Document :=
  {| osViewport := None; documentElement_scrollTop := 0%float;
     body_scrollTop := 0%float |}.

(** Diagnostics enabled at time 0 and a scroll gesture started. *)
Definition scrolling_page : state := run init [Enable 0%float desktop; ScrollStart].

(** [n] frames, [dt] ms apart, the first one at [dt]. *)
Definition steady_frames (n : nat) (dt : JS.number)
  : list (JS.number * Document) :=
  map (λ k, ((JS.of_nat k * dt)%float, at_top)) (seq 1 n).

(** Windows whose viewport has no width: a frame collapsed to nothing
    inside a browser window 1920 pixels wide, and a window that has not
    been laid out, all of whose dimensions are 0. *)
Definition collapsed_frame : Window :=
  {| devicePixelRatio := 1%float; screen_width := 1920%float;
     screen_height := 1080%float; innerWidth := 0%float;
     innerHeight := 0%float; outerWidth := 1920%float;
     userAgent := "Mozilla/5.0" |}.

Definition unrendered_window : Window :=
  {| devicePixelRatio := 1%float; screen_width := 0%float;
     screen_height := 0%float; innerWidth := 0%float;
     innerHeight := 0%float; outerWidth := 0%float;
     userAgent := "Mozilla/5.0" |}.

(** A scroll gesture long enough to fill the buffer: diagnostics enabled
    at time 0, the gesture started, and 100 frames one millisecond
    apart. *)
Definition full_buffer_trace : list event :=
  [Enable 0%float desktop; ScrollStart] ++ frames (steady_frames 100 1%float).

Definition full_buffer_page : state := run init full_buffer_trace.

(** *** Further observations *)

(** The frame loop is alive exactly while diagnostics is enabled: enabled,
    the request that [rafId] names is the one pending; disabled, none is
    pending. *)
Definition loop_consistent (s : state) : Prop :=
  (enabled s = true → ∃ id, rafId s = Some id ∧ frameRequest s = Some id)
  ∧ (enabled s = false → frameRequest s = None).

(** A sample as [measureFrame] records them: a positive frame time and the
    instantaneous rate computed from it. *)
Definition sample_wellformed (m : FrameMetrics) : Prop :=
  PrimFloat.ltb 0%float (frameTime m) = true
  ∧ fps m = (1000 / frameTime m)%float.

(** The long-frame warnings, with the frame time each one reports. *)
Definition long_frame_warnings (c : list (level * message))
  : list JS.number :=
  omap (λ e, match e with
             | (Warn, MsgLongFrame ft) => Some ft
             | _ => None
             end) c.

(** The calls and callbacks that do nothing while diagnostics is
    disabled. *)
Definition inert_when_disabled (e : event) : bool :=
  match e with
  | Disable | AnimationFrame _ _ | ScrollStart | ScrollEnd => true
  | _ => false
  end.

(** *** [measure] *)

(** What [measure] writes to the console: at most one line, with the name
    and the duration. *)
Inductive measure_line :=
| MeasureSlow (name : string) (duration : JS.number)   (* console.warn *)
| MeasureTimed (name : string) (duration : JS.number)  (* console.log *).

(** [measure(name, fn)].  The measured function is a thunk; the two
    arguments [start] and [stop] are what [performance.now()] returns
    before and after it.  The result is the value returned, the line
    written, if any, and the number of times the clock was read. *)
Definition measure {T : Type} (name : string) (fn : unit → T)
    (start stop : JS.number) (s : state)
  : T * option measure_line * nat :=
  if negb (enabled s) then (fn tt, None, 0)
  else
    let result := fn tt in
    let duration := (stop - start)%float in
    if PrimFloat.ltb 16%float duration then
      (result, Some (MeasureSlow name duration), 2)
    else if PrimFloat.ltb 5%float duration then
      (result, Some (MeasureTimed name duration), 2)
    else (result, None, 2).

End PerformanceDiagnostics.

(** ** The scroll-activity singleton ([useGlobalScrollState.ts]) *)

Module GlobalScrollState.

Record state := {
  (* module-level variables *)
  isScrolling : bool;
  scrollTimeout : option nat;
  listenerCount : Z;
  isListenerAttached : bool;
  scrollRAF : option nat;
  (* the host: whether [handleScrollEvent] is registered for 'scroll' on
     [window] (the DOM keeps one registration per listener function), how
     many times it is registered on the emitter, the pending timers, the
     pending animation-frame requests, the clock and the next handles *)
  windowScrollListener : bool;
  emitterHandlers : nat;
  timers : timer_table;
  frameRequests : gset nat;
  now : Z;
  nextTimer : nat;
  nextFrame : nat
}.

Definition set_isScrolling (v : bool) (s : state) : state :=
  Build_state v (scrollTimeout s) (listenerCount s) (isListenerAttached s)
    (scrollRAF s) (windowScrollListener s) (emitterHandlers s) (timers s)
    (frameRequests s) (now s) (nextTimer s) (nextFrame s).

Definition set_scrollTimeout (v : option nat) (s : state) : state :=
  Build_state (isScrolling s) v (listenerCount s) (isListenerAttached s)
    (scrollRAF s) (windowScrollListener s) (emitterHandlers s) (timers s)
    (frameRequests s) (now s) (nextTimer s) (nextFrame s).

Definition set_listenerCount (v : Z) (s : state) : state :=
  Build_state (isScrolling s) (scrollTimeout s) v (isListenerAttached s)
    (scrollRAF s) (windowScrollListener s) (emitterHandlers s) (timers s)
    (frameRequests s) (now s) (nextTimer s) (nextFrame s).

Definition set_isListenerAttached (v : bool) (s : state) : state :=
  Build_state (isScrolling s) (scrollTimeout s) (listenerCount s) v
    (scrollRAF s) (windowScrollListener s) (emitterHandlers s) (timers s)
    (frameRequests s) (now s) (nextTimer s) (nextFrame s).

Definition set_scrollRAF (v : option nat) (s : state) : state :=
  Build_state (isScrolling s) (scrollTimeout s) (listenerCount s)
    (isListenerAttached s) v (windowScrollListener s) (emitterHandlers s)
    (timers s) (frameRequests s) (now s) (nextTimer s) (nextFrame s).

Definition set_windowScrollListener (v : bool) (s : state) : state :=
  Build_state (isScrolling s) (scrollTimeout s) (listenerCount s)
    (isListenerAttached s) (scrollRAF s) v (emitterHandlers s) (timers s)
    (frameRequests s) (now s) (nextTimer s) (nextFrame s).

Definition set_emitterHandlers (v : nat) (s : state) : state :=
  Build_state (isScrolling s) (scrollTimeout s) (listenerCount s)
    (isListenerAttached s) (scrollRAF s) (windowScrollListener s) v
    (timers s) (frameRequests s) (now s) (nextTimer s) (nextFrame s).

Definition set_timers (v : timer_table) (s : state) : state :=
  Build_state (isScrolling s) (scrollTimeout s) (listenerCount s)
    (isListenerAttached s) (scrollRAF s) (windowScrollListener s)
    (emitterHandlers s) v (frameRequests s) (now s) (nextTimer s)
    (nextFrame s).

Definition set_frameRequests (v : gset nat) (s : state) : state :=
  Build_state (isScrolling s) (scrollTimeout s) (listenerCount s)
    (isListenerAttached s) (scrollRAF s) (windowScrollListener s)
    (emitterHandlers s) (timers s) v (now s) (nextTimer s) (nextFrame s).

Definition set_now (v : Z) (s : state) : state :=
  Build_state (isScrolling s) (scrollTimeout s) (listenerCount s)
    (isListenerAttached s) (scrollRAF s) (windowScrollListener s)
    (emitterHandlers s) (timers s) (frameRequests s) v (nextTimer s)
    (nextFrame s).

Definition set_nextTimer (v : nat) (s : state) : state :=
  Build_state (isScrolling s) (scrollTimeout s) (listenerCount s)
    (isListenerAttached s) (scrollRAF s) (windowScrollListener s)
    (emitterHandlers s) (timers s) (frameRequests s) (now s) v (nextFrame s).

Definition set_nextFrame (v : nat) (s : state) : state :=
  Build_state (isScrolling s) (scrollTimeout s) (listenerCount s)
    (isListenerAttached s) (scrollRAF s) (windowScrollListener s)
    (emitterHandlers s) (timers s) (frameRequests s) (now s) (nextTimer s) v.

(** *** Host primitives *)

Definition requestAnimationFrame (s : state) : nat * state :=
  (nextFrame s,
   set_nextFrame (S (nextFrame s))
     (set_frameRequests ({[nextFrame s]} ∪ frameRequests s) s)).

Definition cancelAnimationFrame (id : nat) (s : state) : state :=
  set_frameRequests (frameRequests s ∖ {[id]}) s.

Definition setTimeout (delay : Z) (s : state) : nat * state :=
  (nextTimer s,
   set_nextTimer (S (nextTimer s))
     (set_timers (<[nextTimer s := (now s + delay)%Z]> (timers s)) s)).

Definition clearTimeout (id : nat) (s : state) : state :=
  set_timers (delete id (timers s)) s.

Definition handle_truthy (h : option nat) : bool :=
  match h with
  | Some (S _) => true
  | _ => false
  end.

(** [window.addEventListener('scroll', handleScrollEvent, { passive: true })]
    and [window.removeEventListener('scroll', handleScrollEvent)] *)
Definition window_addEventListener (s : state) : state :=
  set_windowScrollListener true s.

Definition window_removeEventListener (s : state) : state :=
  set_windowScrollListener false s.

(** Modelled from the spec: the notification channel ([emitter], imported
    from [~/utils/mitt], with the event name [OVERLAY_SCROLL_BAR_SCROLL]
    from [~/constants/globalEvents]) is not among the sources.  The spec
    calls it a custom event-notification channel carrying a
    scroll-bar-library scrolled event, wired identically to native scroll
    events: [on] registers the handler once more, [off] takes one
    registration away, and emitting the event calls the handler once per
    registration. *)
Definition emitter_on (s : state) : state :=
  set_emitterHandlers (S (emitterHandlers s)) s.

Definition emitter_off (s : state) : state :=
  set_emitterHandlers (pred (emitterHandlers s)) s.

(** *** The module's functions *)

(** The callback handed to [requestAnimationFrame]. *)
Definition frameCallback (s : state) : state :=
  set_scrollRAF None (set_isScrolling true s).

(** The callback handed to [setTimeout]. *)
Definition idleTimeout (s : state) : state :=
  set_isScrolling false s.

Definition handleScrollEvent (s : state) : state :=
  match scrollRAF s with
  | Some _ => s
  | None =>
      let '(id, s) := requestAnimationFrame s in
      let s := set_scrollRAF (Some id) s in
      let s :=
        match scrollTimeout s with
        | Some t => if handle_truthy (Some t) then clearTimeout t s else s
        | None => s
        end in
      let '(t, s) := setTimeout 150 s in
      set_scrollTimeout (Some t) s
  end.

Definition addScrollListener (s : state) : state :=
  let s := set_listenerCount (listenerCount s + 1)%Z s in
  if negb (isListenerAttached s) then
    let s := window_addEventListener s in
    let s := emitter_on s in
    set_isListenerAttached true s
  else s.

Definition removeScrollListener (s : state) : state :=
  let s := set_listenerCount (listenerCount s - 1)%Z s in
  if (listenerCount s <=? 0)%Z && isListenerAttached s then
    let s := window_removeEventListener s in
    let s := emitter_off s in
    let s := set_isListenerAttached false s in
    let s := set_listenerCount 0%Z s in
    let s :=
      match scrollTimeout s with
      | Some t =>
          if handle_truthy (Some t)
          then set_scrollTimeout None (clearTimeout t s)
          else s
      | None => s
      end in
    match scrollRAF s with
    | Some id => set_scrollRAF None (cancelAnimationFrame id s)
    | None => s
    end
  else s.

(** *** The page's task queue *)

Inductive event :=
| Subscribe       (* a consumer mounts: addScrollListener() *)
| Unsubscribe     (* a consumer unmounts: removeScrollListener() *)
| NativeScroll    (* window dispatches 'scroll' *)
| OverlayScroll   (* the emitter emits OVERLAY_SCROLL_BAR_SCROLL *)
| Paint           (* the host runs the pending animation-frame callbacks *)
| Elapse (dt : N) (* the clock advances by dt ms; due timers fire *).

Definition nativeScroll (s : state) : state :=
  if windowScrollListener s then handleScrollEvent s else s.

Definition overlayScroll (s : state) : state :=
  Nat.iter (emitterHandlers s) handleScrollEvent s.

Definition paint (s : state) : state :=
  Nat.iter (size (frameRequests s)) frameCallback (set_frameRequests ∅ s).

Definition elapse (dt : N) (s : state) : state :=
  let t := (now s + Z.of_N dt)%Z in
  let fired := size (due t (timers s)) in
  Nat.iter fired idleTimeout
    (set_now t (set_timers (not_due t (timers s)) s)).

Definition step (s : state) (e : event) : state :=
  match e with
  | Subscribe => addScrollListener s
  | Unsubscribe => removeScrollListener s
  | NativeScroll => nativeScroll s
  | OverlayScroll => overlayScroll s
  | Paint => paint s
  | Elapse dt => elapse dt s
  end.

Definition run (s : state) (es : list event) : state := fold_left step es s.

(** The module as first loaded. *)
Definition init : state :=
  {| isScrolling := false; scrollTimeout := None; listenerCount := 0;
     isListenerAttached := false; scrollRAF := None;
     windowScrollListener := false; emitterHandlers := 0;
     timers := ∅; frameRequests := ∅; now := 0;
     nextTimer := 1; nextFrame := 1 |}.

(** Balanced use: no prefix of the trace holds more [Unsubscribe] than
    [Subscribe] events, given [n] subscriptions already held. *)
Fixpoint balanced_from (n : nat) (es : list event) : bool :=
  match es with
  | [] => true
  | Subscribe :: es => balanced_from (S n) es
  | Unsubscribe :: es =>
      match n with
      | O => false
      | S n => balanced_from n es
      end
  | _ :: es => balanced_from n es
  end.

Definition balanced (es : list event) : bool := balanced_from 0 es.

(** The number of subscriptions held after a balanced trace. *)
Fixpoint held_from (n : nat) (es : list event) : nat :=
  match es with
  | [] => n
  | Subscribe :: es => held_from (S n) es
  | Unsubscribe :: es => held_from (pred n) es
  | _ :: es => held_from n es
  end.

Definition held (es : list event) : nat := held_from 0 es.

(** Scroll events, paints and the passing of time: what may happen between
    two calls of the consumers. *)
Definition activity (e : event) : bool :=
  match e with
  | Subscribe | Unsubscribe => false
  | _ => true
  end.

(** Both event sources are wired. *)
Definition listenersAttached (s : state) : Prop :=
  windowScrollListener s = true ∧ emitterHandlers s = 1.

(** Neither event source is wired. *)
Definition listenersDetached (s : state) : Prop :=
  windowScrollListener s = false ∧ emitterHandlers s = 0.

(** Nothing is outstanding in the host. *)
Definition nothingPending (s : state) : Prop :=
  timers s = ∅ ∧ frameRequests s = ∅.

(** The state the module is in while [n] subscriptions are held. *)
Definition consistent (n : nat) (s : state) : Prop :=
  listenerCount s = Z.of_nat n
  ∧ isListenerAttached s = negb (n =? 0)
  ∧ windowScrollListener s = isListenerAttached s
  ∧ emitterHandlers s = (if isListenerAttached s then 1 else 0)
  ∧ (∀ id dl, timers s !! id = Some dl → scrollTimeout s = Some id)
  ∧ (∀ id, scrollTimeout s = Some id → 0 < id)
  ∧ 0 < nextTimer s
  ∧ frameRequests s = match scrollRAF s with
                      | Some id => {[ id ]}
                      | None => ∅
                      end
  ∧ (n = 0 → timers s = ∅ ∧ scrollRAF s = None).

(** The subscriptions held after one more event. *)
Definition held_after (n : nat) (e : event) : nat :=
  match e with
  | Subscribe => S n
  | Unsubscribe => pred n
  | _ => n
  end.

(** One call of [e] per consumer, each followed by what happens on the
    page before the next call. *)
Fixpoint calls (e : event) (between : list (list event)) : list event :=
  match between with
  | [] => []
  | a :: between => e :: a ++ calls e between
  end.

(** The wiring and the count, for traces that need not be balanced. *)
Definition wired (attached : bool) (count : Z) (s : state) : Prop :=
  isListenerAttached s = attached
  ∧ windowScrollListener s = attached
  ∧ emitterHandlers s = (if attached then 1 else 0)
  ∧ listenerCount s = count.

End GlobalScrollState.

(** ** The DPR stylesheet controller and the scrolling marker
       ([useDPRPerformanceFix.ts]) *)

Module DPRPerformanceFix.

(** A style rule: its selectors and its [property: value] declarations.
    The text of a [<style>] element is kept as the list of its rules;
    comments and white space are dropped, so the empty text (falsy) is the
    empty list. *)
Record css_rule := {
  selectors : list string;
  declarations : list (string * string)
}.

(** An element of the document; [node] is its identity. *)
Record element := {
  node : nat;
  tagName : string;
  id : string;
  textContent : list css_rule
}.

(** A write issued to the DOM. *)
Inductive dom_write :=
| HeadAppendChild (n : nat)
| ElementRemove (n : nat)
| BodyClassListAdd (c : string)
| BodyClassListRemove (c : string)
| CardSetAttribute (card : nat) (name value : string)
| CardRemoveAttribute (card : nat) (name : string).

(** The part of the document the controller lives in: the children of
    [<head>], the class list of [<body>], the attributes of each element
    matching [.video-card-container], the next fresh node and the writes
    issued so far (oldest first). *)
Record dom := {
  head : list element;
  body_classList : list string;
  cards : list (list (string * string));
  nextNode : nat;
  writes : list dom_write
}.

Definition set_head (v : list element) (d : dom) : dom :=
  Build_dom v (body_classList d) (cards d) (nextNode d) (writes d).

Definition set_body_classList (v : list string) (d : dom) : dom :=
  Build_dom (head d) v (cards d) (nextNode d) (writes d).

Definition set_cards (v : list (list (string * string))) (d : dom) : dom :=
  Build_dom (head d) (body_classList d) v (nextNode d) (writes d).

Definition set_nextNode (v : nat) (d : dom) : dom :=
  Build_dom (head d) (body_classList d) (cards d) v (writes d).

Definition issue (w : dom_write) (d : dom) : dom :=
  Build_dom (head d) (body_classList d) (cards d) (nextNode d) (writes d ++ [w]).

(** *** DOM primitives *)

(** [document.createElement(tag)]: a fresh, detached element. *)
Definition createElement (tag : string) (d : dom) : element * dom :=
  ({| node := nextNode d; tagName := tag; id := ""; textContent := [] |},
   set_nextNode (S (nextNode d)) d).

Definition with_id (v : string) (e : element) : element :=
  {| node := node e; tagName := tagName e; id := v;
     textContent := textContent e |}.

Definition with_textContent (v : list css_rule) (e : element) : element :=
  {| node := node e; tagName := tagName e; id := id e; textContent := v |}.

(** [el.remove()]: the element leaves its parent, if it has one. *)
Definition remove (e : element) (d : dom) : dom :=
  issue (ElementRemove (node e))
    (set_head (filter (λ x, node x ≠ node e) (head d)) d).

(** [document.head.appendChild(el)] *)
Definition head_appendChild (e : element) (d : dom) : dom :=
  issue (HeadAppendChild (node e))
    (set_head (filter (λ x, node x ≠ node e) (head d) ++ [e]) d).

(** [document.body.classList.add(c)] and [.remove(c)] *)
Definition body_classList_add (c : string) (d : dom) : dom :=
  issue (BodyClassListAdd c)
    (set_body_classList
       (if bool_decide (c ∈ body_classList d) then body_classList d
        else body_classList d ++ [c]) d).

Definition body_classList_remove (c : string) (d : dom) : dom :=
  issue (BodyClassListRemove c)
    (set_body_classList (filter (λ x, x ≠ c) (body_classList d)) d).

(** *** [useDPRPerformanceFix] *)

(** The refs of one instance of the composable. *)
Record refs := {
  currentDPR : JS.number;
  styleElement : option element
}.

Definition isLowDPR (r : refs) : bool :=
  PrimFloat.leb (currentDPR r) 1.25%float.

(** The literal [0.01] is the double [0x1.47ae147ae147bp-7]. *)
Definition isDPR1 (r : refs) : bool :=
  PrimFloat.ltb (JS.Math_abs (currentDPR r - 1.0)%float)
    0x1.47ae147ae147bp-7%float.

Definition style_id : string := "bewly-dpr-perf-fix".

Definition scrolling_class : string := "bewly-scrolling".

(** The rules injected when [isDPR1]. *)
Definition css_dpr1 : list css_rule :=
  [ {| selectors :=
         [ "body.bewly-scrolling .video-card-container";
           "body.bewly-scrolling .video-card-container *" ];
       declarations :=
         [ ("transition", "none !important");
           ("animation", "none !important") ] |} ].

(** The rules injected when [isLowDPR] but not [isDPR1]. *)
Definition css_lowDPR : list css_rule :=
  [ {| selectors := [ "body.bewly-scrolling .video-card-container" ];
       declarations := [ ("transition", "none !important") ] |} ].

Definition updateDPR (devicePixelRatio : JS.number) (r : refs) : refs :=
  {| currentDPR := devicePixelRatio; styleElement := styleElement r |}.

Definition injectOptimizationCSS (r : refs) (d : dom) : refs * dom :=
  let d :=
    match styleElement r with
    | Some el => remove el d
    | None => d
    end in
  let '(style, d) := createElement "style" d in
  let style := with_id style_id style in
  let style :=
    if isDPR1 r then with_textContent css_dpr1 style
    else if isLowDPR r then with_textContent css_lowDPR style
    else style in
  match textContent style with
  | _ :: _ =>
      let d := head_appendChild style d in
      ({| currentDPR := currentDPR r; styleElement := Some style |}, d)
  | [] => (r, d)
  end.

Definition cleanup (r : refs) (d : dom) : refs * dom :=
  let '(r, d) :=
    match styleElement r with
    | Some el =>
        ({| currentDPR := currentDPR r; styleElement := None |}, remove el d)
    | None => (r, d)
    end in
  (r, body_classList_remove scrolling_class d).

(** [handleChange], the listener of the media query and of [resize]. *)
Definition handleChange (devicePixelRatio : JS.number) (r : refs) (d : dom)
  : refs * dom :=
  injectOptimizationCSS (updateDPR devicePixelRatio r) d.

(** The body of the [watchEffect]. *)
Definition watchEffect_body (r : refs) (d : dom) : refs * dom :=
  if JS.truthy (currentDPR r) then injectOptimizationCSS r d else (r, d).

(** What can happen to an instance: the effect runs (at set-up, and again
    after [currentDPR] changed), the component is mounted, the resolution
    or the window size changes, the component is unmounted. *)
Inductive event :=
| RunEffect
| Mounted
| Change (devicePixelRatio : JS.number)
| Unmounted.

Definition step (s : refs * dom) (e : event) : refs * dom :=
  match e with
  | RunEffect => watchEffect_body s.1 s.2
  | Mounted => injectOptimizationCSS s.1 s.2
  | Change dpr => handleChange dpr s.1 s.2
  | Unmounted => cleanup s.1 s.2
  end.

Definition run (s : refs * dom) (es : list event) : refs * dom :=
  fold_left step es s.

(** [useDPRPerformanceFix()] is called with [window.devicePixelRatio = dpr]. *)
Definition setup (dpr : JS.number) : refs :=
  {| currentDPR := dpr; styleElement := None |}.

(** The elements of [<head>] that carry the controller's id. *)
Definition injected (d : dom) : list element :=
  filter (λ e, id e = style_id) (head d).

(** The controller's ref accounts for every injected element. *)
Definition tracks_injected (r : refs) (d : dom) : Prop :=
  match styleElement r with
  | None => injected d = []
  | Some el => injected d = [] ∨ injected d = [el]
  end.

(** A document with nothing in [<head>], no class on [<body>] and [n]
    cards without attributes. *)
Definition blank_document (n : nat) : dom :=
  {| head := []; body_classList := []; cards := replicate n [];
     nextNode := 0; writes := [] |}.

(** *** Reading a rule set *)

Definition declares (property : string) (rules : list css_rule) : bool :=
  existsb (λ r, existsb (λ pv, bool_decide (pv.1 = property)) (declarations r))
    rules.

(** Every selector of every rule is conditioned on the scrolling marker of
    [<body>]. *)
Definition under_scrolling_marker (rules : list css_rule) : bool :=
  forallb
    (λ r, forallb (λ sel, String.prefix "body.bewly-scrolling " sel)
            (selectors r))
    rules.

(** A rule promotes what it selects to a compositing layer when it sets a
    3D [transform] or announces one with [will-change]. *)
Definition promotes_layer (rules : list css_rule) : bool :=
  existsb
    (λ r, existsb
            (λ pv, bool_decide (pv = ("transform", "translateZ(0)"))
                   || bool_decide (pv = ("will-change", "transform")))
            (declarations r))
    rules.

(** *** [useScrollingOptimization] *)

(** The callback of [watch(isScrolling, ...)]. *)
Definition onScrollingChange (scrolling : bool) (d : dom) : dom :=
  if scrolling then body_classList_add scrolling_class d
  else body_classList_remove scrolling_class d.

(** [watch] calls its callback when the watched value has changed. *)
Definition watch_isScrolling (old new : bool) (d : dom) : dom :=
  if bool_decide (old = new) then d else onScrollingChange new d.

(** *** The earlier version of the file (per-card marking) *)

Module Legacy.

(** The rules the earlier version injected when [isDPR1]; the attribute
    selectors are written without the quotation marks around [true]. *)
Definition css_dpr1 : list css_rule :=
  [ {| selectors := [ ".video-card-container" ];
       declarations :=
         [ ("transform", "translateZ(0)");
           ("-webkit-font-smoothing", "antialiased");
           ("will-change", "transform");
           ("isolation", "isolate") ] |};
    {| selectors :=
         [ ".video-card-container[data-scrolling=true]";
           ".video-card-container[data-scrolling=true] *" ];
       declarations :=
         [ ("transition", "none !important");
           ("animation", "none !important");
           ("box-shadow", "none !important") ] |};
    {| selectors := [ "[data-overlayscrollbars-viewport]"; ".os-viewport" ];
       declarations :=
         [ ("transform", "translateZ(0)");
           ("will-change", "scroll-position") ] |};
    {| selectors := [ ".video-card-cover"; ".video-card-info" ];
       declarations := [ ("contain", "layout style paint") ] |} ].

Definition setAttribute (name value : string) (attrs : list (string * string))
  : list (string * string) :=
  filter (λ kv, kv.1 ≠ name) attrs ++ [(name, value)].

Definition removeAttribute (name : string) (attrs : list (string * string))
  : list (string * string) :=
  filter (λ kv, kv.1 ≠ name) attrs.

(** [markScrolling(state)] with a container present: one write per card. *)
Definition markScrolling (scrolling : bool) (d : dom) : dom :=
  let d' :=
    set_cards
      (map (λ attrs, if scrolling then setAttribute "data-scrolling" "true" attrs
                     else removeAttribute "data-scrolling" attrs)
         (cards d)) d in
  Build_dom (head d') (body_classList d') (cards d') (nextNode d')
    (writes d ++
     map (λ i, if scrolling then CardSetAttribute i "data-scrolling" "true"
               else CardRemoveAttribute i "data-scrolling")
       (seq 0 (length (cards d)))).

End Legacy.

(** The controller keeps to its own element: [<head>] is the children it
    found in the document [d0], in their order, followed by what it
    injected; its element, if any, is a node created after [d0]; and on
    [<body>] only the scrolling marker may differ. *)
Definition keeps_to_itself (d0 : dom) (r : refs) (d : dom) : Prop :=
  head d = head d0 ++ injected d
  ∧ nextNode d0 ≤ nextNode d
  ∧ (∀ el, styleElement r = Some el → nextNode d0 ≤ node el)
  ∧ cards d = cards d0
  ∧ (∀ c, c ≠ scrolling_class →
          (c ∈ body_classList d ↔ c ∈ body_classList d0)).

(** The rule sets that belong in the document at the current DPR: one,
    or none. *)
Definition rules_for (r : refs) : list (list css_rule) :=
  if isDPR1 r then [css_dpr1]
  else if isLowDPR r then [css_lowDPR]
  else [].

(** A page with a title in [<head>] and a theme class on [<body>]. *)
Definition themed_page : dom :=
  {| head := [ {| node := 0; tagName := "title"; id := "";
                  textContent := [] |} ];
     body_classList := ["dark"]; cards := [[]; []];
     nextNode := 1; writes := [] |}.

End DPRPerformanceFix.

(** ** [useScrollingOptimization] on top of the shared boolean *)

Module ScrollingOptimization.

Import DPRPerformanceFix.

(** The page: the shared scroll state, the document, and the number of
    mounted components that use the hook.  Each of them has a watcher of
    its own on the shared boolean, created when it is set up and stopped
    when it unmounts. *)
Record page := {
  scroll : GlobalScrollState.state;
  document : dom;
  watchers : nat
}.

(** After a task, every active watcher calls its callback if the boolean
    is not what it was before the task. *)
Definition flush (k : nat) (old new : bool) (d : dom) : dom :=
  Nat.iter k (watch_isScrolling old new) d.

Inductive event :=
| HookMount    (* a component using the hook is set up and mounted, in one
                  task: its watcher starts and addScrollListener() runs *)
| HookUnmount  (* it unmounts: removeScrollListener() runs and its watcher
                  is stopped *)
| Page (e : GlobalScrollState.event)
               (* anything else: scroll events, paints, time, and the other
                  consumers of the shared state, which have no watcher *).

(** What an event is to the shared scroll state. *)
Definition to_scroll (ev : event) : GlobalScrollState.event :=
  match ev with
  | HookMount => GlobalScrollState.Subscribe
  | HookUnmount => GlobalScrollState.Unsubscribe
  | Page e => e
  end.

(** The watchers that are active when the task of [ev] ends. *)
Definition watchers_after (k : nat) (ev : event) : nat :=
  match ev with
  | HookMount => S k
  | HookUnmount => pred k
  | Page _ => k
  end.

Definition step (p : page) (ev : event) : page :=
  let s' := GlobalScrollState.step (scroll p) (to_scroll ev) in
  let k := watchers_after (watchers p) ev in
  {| scroll := s';
     document :=
       flush k (GlobalScrollState.isScrolling (scroll p))
         (GlobalScrollState.isScrolling s') (document p);
     watchers := k |}.

Definition run (p : page) (es : list event) : page := fold_left step es p.

(** The page as loaded, with document [d]: no component mounted yet. *)
Definition init (d : dom) : page :=
  {| scroll := GlobalScrollState.init; document := d; watchers := 0 |}.


(** The write a watcher issues for the new value of the boolean. *)
Definition marker_write (new : bool) : dom_write :=
  if new then BodyClassListAdd scrolling_class
  else BodyClassListRemove scrolling_class.

End ScrollingOptimization.

(** ** The top bar's computed flags ([useTopBarInteraction.ts]) *)

Module TopBarInteraction.

(** The page shown by the app.  Only [Search] and [Home] are named by the
    code; the other members of the enumeration are told apart by name. *)
Inductive AppPage :=
| Search
| Home
| OtherPage (name : string).

(** The settings the two flags read.  The two wallpapers are strings, used
    as conditions: the empty string is falsy. *)
Record Settings := {
  alwaysUseTransparentTopBar : bool;
  useOriginalBilibiliHomepage : bool;
  individuallySetSearchPageWallpaper : bool;
  searchPageWallpaper : string;
  wallpaper : string;
  useSearchPageModeOnHomePage : bool;
  usePluginSearchResultsPage : bool
}.

(** What the flags read from the location: [isHomePage()] and the result
    of testing [location.href] against each URL pattern. *)
Record Location := {
  isHomePage : bool;
  CHANNEL_PAGE_URL : bool;
  VIDEO_PAGE_URL : bool;
  SPACE_URL : bool;
  ACCOUNT_URL : bool;
  SEARCH_PAGE_URL : bool
}.

(** A string used as a condition. *)
Definition truthy (x : string) : bool := negb (String.eqb x "").

(** [page === AppPage.Home] *)
Definition is_Home (page : AppPage) : bool :=
  match page with
  | Home => true
  | _ => false
  end.

(** [forceWhiteIcon]; [settings] is [None] when [settings.value] is not
    set, [activatedPage] is [None] when it is undefined or empty. *)
Definition forceWhiteIcon (settings : option Settings) (loc : Location)
    (activatedPage : option AppPage) : bool :=
  match settings with
  | None => false
  | Some st =>
      if alwaysUseTransparentTopBar st then true
      else if (isHomePage loc && useOriginalBilibiliHomepage st)
              || (CHANNEL_PAGE_URL loc && negb (VIDEO_PAGE_URL loc))
              || SPACE_URL loc
              || ACCOUNT_URL loc
      then true
      else if negb (isHomePage loc) then false
      else
        match activatedPage with
        | None => false
        | Some Search =>
            if individuallySetSearchPageWallpaper st then
              if truthy (searchPageWallpaper st) then true else false
            else truthy (wallpaper st)
        | Some _ =>
            if truthy (wallpaper st) then true
            else if useSearchPageModeOnHomePage st then
              if individuallySetSearchPageWallpaper st
                 && truthy (searchPageWallpaper st)
              then true
              else if truthy (wallpaper st) then true
              else false
            else false
        end
  end.

(** What evaluating a computed flag gives: a boolean, or the [TypeError]
    raised by reading a property of [undefined]. *)
Inductive outcome :=
| Returns (b : bool)
| TypeError.

(** [showSearchBar]; [settings] is [None] when [settings.value] is not
    set, in which case the first statement, which reads
    [settings.value.usePluginSearchResultsPage] without a guard, throws;
    [reachTop] is false when it is undefined. *)
Definition showSearchBar (settings : option Settings) (loc : Location)
    (activatedPage : option AppPage) (reachTop : bool) : outcome :=
  match settings with
  | None => TypeError
  | Some st =>
      if negb (usePluginSearchResultsPage st) then Returns false
      else
        let isSearchPage := SEARCH_PAGE_URL loc in
        if isHomePage loc then
          if useOriginalBilibiliHomepage st then Returns true
          else
            match activatedPage with
            | None => Returns true
            | Some Search => Returns true
            | Some page =>
                if useSearchPageModeOnHomePage st
                   && is_Home page && reachTop
                then Returns false
                else Returns true
            end
        else if isSearchPage then Returns true
        else Returns true
  end.

End TopBarInteraction.

(** ** The cached DPR test of the popup transformer ([transformer.ts]) *)

Module Transformer.

(** [isLowDPREnvironment()]: the module variable [_isLowDPR] and the value
    of [window.devicePixelRatio] at the time of the call. *)
Definition isLowDPREnvironment (devicePixelRatio : JS.number)
    (_isLowDPR : option bool) : bool * option bool :=
  match _isLowDPR with
  | None =>
      let v := PrimFloat.leb devicePixelRatio 1.0%float in
      (v, Some v)
  | Some v => (v, Some v)
  end.

(** Successive calls, each with the DPR of its moment: the answers. *)
Fixpoint calls (dprs : list JS.number) (_isLowDPR : option bool)
  : list bool :=
  match dprs with
  | [] => []
  | dpr :: dprs =>
      let '(v, cache) := isLowDPREnvironment dpr _isLowDPR in
      v :: calls dprs cache
  end.

End Transformer.

(** ** The earlier [useScrollingOptimization] (one attribute per card) *)

Module LegacyScrolling.

Import DPRPerformanceFix.

Record state := {
  (* the variables of the closure *)
  scrollTimeout : option nat;
  isScrolling : bool;
  (* the host: whether [containerRef()] yields an element, the document,
     the pending timers, the clock and the next timer handle *)
  container : bool;
  document : dom;
  timers : timer_table;
  now : Z;
  nextTimer : nat
}.

Definition set_scrollTimeout (v : option nat) (s : state) : state :=
  Build_state v (isScrolling s) (container s) (document s) (timers s)
    (now s) (nextTimer s).

Definition set_isScrolling (v : bool) (s : state) : state :=
  Build_state (scrollTimeout s) v (container s) (document s) (timers s)
    (now s) (nextTimer s).

Definition set_document (v : dom) (s : state) : state :=
  Build_state (scrollTimeout s) (isScrolling s) (container s) v (timers s)
    (now s) (nextTimer s).

Definition set_timers (v : timer_table) (s : state) : state :=
  Build_state (scrollTimeout s) (isScrolling s) (container s) (document s) v
    (now s) (nextTimer s).

Definition set_now (v : Z) (s : state) : state :=
  Build_state (scrollTimeout s) (isScrolling s) (container s) (document s)
    (timers s) v (nextTimer s).

Definition set_nextTimer (v : nat) (s : state) : state :=
  Build_state (scrollTimeout s) (isScrolling s) (container s) (document s)
    (timers s) (now s) v.

Definition setTimeout (delay : Z) (s : state) : nat * state :=
  (nextTimer s,
   set_nextTimer (S (nextTimer s))
     (set_timers (<[nextTimer s := (now s + delay)%Z]> (timers s)) s)).

Definition clearTimeout (id : nat) (s : state) : state :=
  set_timers (delete id (timers s)) s.

(** [if (scrollTimeout) clearTimeout(scrollTimeout)] *)
Definition clear_scrollTimeout (s : state) : state :=
  match scrollTimeout s with
  | Some (S _ as id) => clearTimeout id s
  | _ => s
  end.

Definition markScrolling (scrolling : bool) (s : state) : state :=
  if negb (container s) then s
  else
    set_isScrolling scrolling
      (set_document (Legacy.markScrolling scrolling (document s)) s).

(** The callback handed to [setTimeout]. *)
Definition idleTimeout (s : state) : state :=
  set_scrollTimeout None (markScrolling false s).

Definition handleScroll (s : state) : state :=
  let s := if negb (isScrolling s) then markScrolling true s else s in
  let s := clear_scrollTimeout s in
  let '(id, s) := setTimeout 150 s in
  set_scrollTimeout (Some id) s.

Definition cleanup (s : state) : state :=
  let s := clear_scrollTimeout s in
  markScrolling false s.

Inductive event :=
| Scroll           (* the container's scroll listener calls handleScroll *)
| Elapse (dt : N)  (* the clock advances by dt ms; due timers fire *)
| Cleanup.

Definition elapse (dt : N) (s : state) : state :=
  let t := (now s + Z.of_N dt)%Z in
  let fired := size (due t (timers s)) in
  Nat.iter fired idleTimeout
    (set_now t (set_timers (not_due t (timers s)) s)).

Definition step (s : state) (e : event) : state :=
  match e with
  | Scroll => handleScroll s
  | Elapse dt => elapse dt s
  | Cleanup => cleanup s
  end.

Definition run (s : state) (es : list event) : state := fold_left step es s.

(** The hook as created, on a page with the given cards. *)
Definition init (has_container : bool) (d : dom) : state :=
  {| scrollTimeout := None; isScrolling := false;
     container := has_container; document := d;
     timers := ∅; now := 0; nextTimer := 1 |}.

(** A card carries, or does not carry, the scrolling attribute. *)
Definition marked (attrs : list (string * string)) : Prop :=
  ("data-scrolling", "true") ∈ attrs.

Definition unmarked (attrs : list (string * string)) : Prop :=
  Forall (λ kv, kv.1 ≠ "data-scrolling") attrs.

(** The two states the hook alternates between when it has a container:
    in a gesture, every card marked and the idle timer pending; at rest,
    no card marked and no timer. *)
Definition in_gesture (s : state) : Prop :=
  isScrolling s = true
  ∧ Forall marked (cards (document s))
  ∧ ∃ id dl, scrollTimeout s = Some (S id)
             ∧ timers s = {[ S id := dl ]}
             ∧ (now s < dl ≤ now s + 150)%Z.

Definition at_rest (s : state) : Prop :=
  isScrolling s = false
  ∧ Forall unmarked (cards (document s))
  ∧ timers s = ∅.

(** The hook has a container and issues positive handles. *)
Definition healthy (s : state) : Prop :=
  container s = true ∧ 0 < nextTimer s.

(** What the hook keeps, on a page of [n] cards. *)
Definition settled (n : nat) (s : state) : Prop :=
  healthy s
  ∧ (in_gesture s ∨ at_rest s)
  ∧ length (cards (document s)) = n.

End LegacyScrolling.

(** * Timer tables *)

Section TimerTable.

Implicit Types (tm : timer_table) (t : Z).

Lemma due_none t tm :
  (∀ id dl, tm !! id = Some dl → (t < dl)%Z) → due t tm = ∅.
Proof.
  intros Hlater. apply map_empty. intros i.
  destruct (due t tm !! i) as [dl|] eqn:E; [|done].
  apply map_lookup_filter_Some in E as [Hi Hdue]. cbn in Hdue.
  apply Z.leb_le in Hdue. specialize (Hlater i dl Hi). lia.
Qed.

Lemma not_due_all t tm :
  (∀ id dl, tm !! id = Some dl → (t < dl)%Z) → not_due t tm = tm.
Proof.
  intros Hlater. apply map_filter_id. intros i dl Hi. cbn.
  apply Z.leb_gt. by apply (Hlater i).
Qed.

Lemma due_all t tm :
  (∀ id dl, tm !! id = Some dl → (dl ≤ t)%Z) → due t tm = tm.
Proof.
  intros Hpast. apply map_filter_id. intros i dl Hi. cbn.
  apply Z.leb_le. by apply (Hpast i).
Qed.

Lemma not_due_none t tm :
  (∀ id dl, tm !! id = Some dl → (dl ≤ t)%Z) → not_due t tm = ∅.
Proof.
  intros Hpast. apply map_empty. intros i.
  destruct (not_due t tm !! i) as [dl|] eqn:E; [|done].
  apply map_lookup_filter_Some in E as [Hi Hdue]. cbn in Hdue.
  apply Z.leb_gt in Hdue. specialize (Hpast i dl Hi). lia.
Qed.

Lemma not_due_lookup t tm id dl :
  not_due t tm !! id = Some dl → tm !! id = Some dl.
Proof. intros E. by apply map_lookup_filter_Some in E as [Hi _]. Qed.

Lemma due_empty t : due t ∅ = ∅.
Proof. apply map_filter_empty. Qed.

Lemma not_due_empty t : not_due t ∅ = ∅.
Proof. apply map_filter_empty. Qed.

End TimerTable.

(** * Properties of the frame sampler and of the diagnostics controller *)

Module DiagnosticsProperties.

Import PerformanceDiagnostics.

(** Unfold the methods and split on every condition they test. *)
Ltac split_conditions :=
  repeat (cbn in *; case_match; try discriminate); cbn in *.

(** Break the conjunctions of conditions that [split_conditions] recorded. *)
Ltac break_conditions :=
  repeat match goal with
         | H : _ && _ = true |- _ => apply andb_true_iff in H as [? ?]
         | H : _ && _ = false |- _ => apply andb_false_iff in H as [? | ?]
         end.

(** ** The bounded buffer *)

Lemma pushBounded_room m buf :
  length buf < 100 → pushBounded m buf = buf ++ [m].
Proof.
  intros Hlen. unfold pushBounded.
  assert (Hlt : (100 <? length (buf ++ [m])) = false).
  { apply Nat.ltb_ge. rewrite length_app. cbn. lia. }
  by rewrite Hlt.
Qed.

Lemma pushBounded_full m buf :
  length buf = 100 → pushBounded m buf = tail buf ++ [m].
Proof.
  intros Hlen. unfold pushBounded.
  assert (Hlt : (100 <? length (buf ++ [m])) = true).
  { apply Nat.ltb_lt. rewrite length_app. cbn. lia. }
  rewrite Hlt. destruct buf; [discriminate | reflexivity].
Qed.

Lemma pushBounded_length m buf :
  length buf ≤ 100 → length (pushBounded m buf) ≤ 100.
Proof.
  intros Hlen. destruct (decide (length buf = 100)) as [Hfull | Hroom].
  - rewrite pushBounded_full by done. rewrite length_app.
    destruct buf; cbn in *; lia.
  - rewrite pushBounded_room by lia. rewrite length_app. cbn. lia.
Qed.

(** ** What each method does to the buffer *)

Lemma frameMetrics_fpsWindow t ft s :
  frameMetrics (fpsWindow t ft s) = frameMetrics s.
Proof. unfold fpsWindow. split_conditions; reflexivity. Qed.

Lemma isScrolling_fpsWindow t ft s :
  isScrolling (fpsWindow t ft s) = isScrolling s.
Proof. unfold fpsWindow. split_conditions; congruence. Qed.

Lemma frameMetrics_recordFrame t ft d s :
  frameMetrics (recordFrame t ft d s) =
  if isScrolling s && PrimFloat.ltb 0%float ft
  then pushBounded (sample t ft d) (frameMetrics s)
  else frameMetrics s.
Proof. unfold recordFrame. split_conditions; reflexivity. Qed.

Lemma frameMetrics_measureFrame t d s :
  enabled s = true →
  frameMetrics (measureFrame t d s) =
  if isScrolling s && PrimFloat.ltb 0%float (t - lastTime s)%float
  then pushBounded (sample t (t - lastTime s)%float d) (frameMetrics s)
  else frameMetrics s.
Proof.
  intros Hen. unfold measureFrame. rewrite Hen. cbn.
  rewrite frameMetrics_recordFrame, frameMetrics_fpsWindow,
    isScrolling_fpsWindow.
  reflexivity.
Qed.

Lemma measureFrame_disabled t d s :
  enabled s = false → measureFrame t d s = s.
Proof. intros Hen. unfold measureFrame. by rewrite Hen. Qed.

Lemma frameMetrics_printScrollReport s :
  frameMetrics (printScrollReport s) = [].
Proof.
  unfold printScrollReport. destruct (frameMetrics s) eqn:Hbuf; cbn; done.
Qed.

Lemma frameMetrics_scrollEndTimeout s :
  frameMetrics (scrollEndTimeout s) = [].
Proof. unfold scrollEndTimeout. apply frameMetrics_printScrollReport. Qed.

Lemma frameMetrics_iter_scrollEndTimeout n s :
  frameMetrics (Nat.iter n scrollEndTimeout s) = frameMetrics s
  ∨ frameMetrics (Nat.iter n scrollEndTimeout s) = [].
Proof.
  destruct n as [|n]; [by left | right].
  cbn. apply frameMetrics_scrollEndTimeout.
Qed.

Lemma frameMetrics_step_bounded s e :
  length (frameMetrics s) ≤ 100 → length (frameMetrics (step s e)) ≤ 100.
Proof.
  intros Hlen. destruct e as [t w | | t d | | | c k | dt]; cbn.
  - unfold enable, startFrameMonitoring, logSystemInfo.
    split_conditions; done.
  - unfold disable, cancelAnimationFrame. split_conditions; done.
  - unfold animationFrame. destruct (frameRequest s); [|done].
    destruct (enabled s) eqn:Hen.
    + rewrite frameMetrics_measureFrame by done. cbn.
      case_match; [by apply pushBounded_length | done].
    + rewrite measureFrame_disabled by done. done.
  - unfold onScrollStart, clear_scrollTimeout. split_conditions; done.
  - unfold onScrollEnd, clear_scrollTimeout. split_conditions; done.
  - unfold updateGridInfo. split_conditions; done.
  - unfold elapse.
    destruct (frameMetrics_iter_scrollEndTimeout
                (size (due (now s + Z.of_N dt) (timers s)))
                (set_now (now s + Z.of_N dt)
                   (set_timers (not_due (now s + Z.of_N dt) (timers s)) s)))
      as [-> | ->]; cbn; [done | lia].
Qed.

Lemma frameMetrics_run_bounded es s :
  length (frameMetrics s) ≤ 100 → length (frameMetrics (run s es)) ≤ 100.
Proof.
  revert s. induction es as [|e es IH]; intros s Hlen; [done|].
  cbn. apply IH. by apply frameMetrics_step_bounded.
Qed.

(** The eviction at work: 101 frames one millisecond apart during a scroll
    gesture leave the samples of frames 2 to 101. *)
Example frameMetrics_evicts_oldest :
  let w := {| devicePixelRatio := 1; screen_width := 1920;
              screen_height := 1080; innerWidth := 1920; innerHeight := 969;
              outerWidth := 1920; userAgent := "" |}%float in
  let d := {| osViewport := None; documentElement_scrollTop := 0;
              body_scrollTop := 0 |}%float in
  let s := run init ([Enable 0%float w; ScrollStart]
                     ++ frames (map (λ n, (JS.of_nat n, d)) (seq 1 101))) in
  map timestamp (frameMetrics s) = map JS.of_nat (seq 2 100).
Proof. vm_compute. reflexivity. Qed.

(** ** One frame callback, field by field *)

(** The fields a frame callback never writes. *)
Lemma measureFrame_preserves t d s :
  let s' := measureFrame t d s in
  enabled s' = enabled s ∧ isScrolling s' = isScrolling s
  ∧ scrollTimeout s' = scrollTimeout s ∧ timers s' = timers s
  ∧ now s' = now s ∧ nextTimer s' = nextTimer s
  ∧ cardCount s' = cardCount s ∧ columnCount s' = columnCount s.
Proof.
  unfold measureFrame, recordFrame, fpsWindow, requestAnimationFrame.
  split_conditions; repeat split; congruence.
Qed.

Lemma measureFrame_enabled t d s :
  enabled s = true →
  let ft := (t - lastTime s)%float in
  let closes := PrimFloat.leb 1000%float (t - secondStart s)%float in
  let fps := (frameCountInSecond s + 1)%Z in
  let s' := measureFrame t d s in
  frameCount s' = (frameCount s + 1)%Z
  ∧ lastTime s' = t
  ∧ frameCountInSecond s' = (if closes then 0 else fps)%Z
  ∧ secondStart s' = (if closes then t else secondStart s)
  ∧ droppedFrames s' =
      (if closes && isScrolling s && (fps <? 30)%Z
       then droppedFrames s + 1 else droppedFrames s)%Z
  ∧ console s' =
      console s ++ window_messages closes (isScrolling s) fps ft
                ++ sample_messages (isScrolling s) ft
  ∧ frameRequest s' = Some (nextFrame s)
  ∧ rafId s' = Some (nextFrame s).
Proof.
  intros Hen.
  unfold measureFrame, recordFrame, fpsWindow, requestAnimationFrame,
    window_messages, sample_messages, console_log, console_warn.
  rewrite Hen.
  split_conditions; break_conditions; repeat split;
    rewrite <- ?app_assoc, ?app_nil_r; cbn; congruence.
Qed.

Lemma dropped_warnings_app c1 c2 :
  dropped_warnings (c1 ++ c2) = dropped_warnings c1 ++ dropped_warnings c2.
Proof. unfold dropped_warnings. apply omap_app. Qed.

Lemma dropped_warnings_sample_messages b ft :
  dropped_warnings (sample_messages b ft) = [].
Proof. unfold sample_messages. by case_match. Qed.

Lemma dropped_warnings_window_messages closes scrolling fps ft :
  dropped_warnings (window_messages closes scrolling fps ft) =
  if closes && scrolling && (fps <? 30)%Z then [fps] else [].
Proof.
  unfold window_messages.
  destruct closes, scrolling, (fps <? 30)%Z; reflexivity.
Qed.

Lemma pushBounded_shape m buf :
  pushBounded m buf
  = (if length buf <? 100 then buf else tail buf) ++ [m].
Proof.
  destruct (length buf <? 100) eqn:Hlen.
  - apply Nat.ltb_lt in Hlen. by apply pushBounded_room.
  - apply Nat.ltb_ge in Hlen. unfold pushBounded.
    assert (Hlt : (100 <? length (buf ++ [m])) = true).
    { apply Nat.ltb_lt. rewrite length_app. cbn. lia. }
    rewrite Hlt. destruct buf; [cbn in Hlen; lia | reflexivity].
Qed.

(** C5.  For a frame callback that runs while diagnostics is enabled,
    whatever the buffer holds, full or not: when a scroll gesture is
    active and the frame time is strictly positive, the frame's sample is
    appended at the end of the buffer (the head leaving when 100 samples
    were held already), so that the buffer ends with it; otherwise, and so
    when the frame time is zero, negative or NaN, the buffer is left as it
    was.  When fewer than 100 samples were held, the buffer grows by one if
    and only if both conditions hold.  Whatever the frame time, the
    lifetime frame counter is incremented and the once-per-second logic
    runs: the window counter, the window start and the dropped-frame
    counter are functions of the timestamp and of the state that do not
    depend on the frame time. *)
Theorem sample_recorded_iff_scrolling_and_positive_frameTime :
  ∀ (s : state) (t : JS.number) (d : Document),
    enabled s = true →
    let ft := (t - lastTime s)%float in
    let closes := PrimFloat.leb 1000%float (t - secondStart s)%float in
    let s' := measureFrame t d s in
    frameMetrics s'
    = (if isScrolling s && PrimFloat.ltb 0%float ft
       then (if length (frameMetrics s) <? 100
             then frameMetrics s
             else tail (frameMetrics s)) ++ [sample t ft d]
       else frameMetrics s)
    ∧ (isScrolling s = true ∧ PrimFloat.ltb 0%float ft = true →
       last (frameMetrics s') = Some (sample t ft d)
       ∧ (length (frameMetrics s) < 100 →
          frameMetrics s' = frameMetrics s ++ [sample t ft d])
       ∧ (100 ≤ length (frameMetrics s) →
          frameMetrics s' = tail (frameMetrics s) ++ [sample t ft d]))
    ∧ (isScrolling s = false ∨ PrimFloat.ltb 0%float ft = false →
       frameMetrics s' = frameMetrics s)
    ∧ (length (frameMetrics s) < 100 →
       (length (frameMetrics s') = S (length (frameMetrics s))
        ↔ isScrolling s = true ∧ PrimFloat.ltb 0%float ft = true))
    ∧ frameCount s' = (frameCount s + 1)%Z
    ∧ frameCountInSecond s' =
        (if closes then 0 else frameCountInSecond s + 1)%Z
    ∧ secondStart s' = (if closes then t else secondStart s)
    ∧ droppedFrames s' =
        (if closes && isScrolling s && (frameCountInSecond s + 1 <? 30)%Z
         then droppedFrames s + 1 else droppedFrames s)%Z.
Proof.
  intros s t d Hen. cbv zeta.
  pose proof (frameMetrics_measureFrame t d s Hen) as Hbuf.
  rewrite pushBounded_shape in Hbuf.
  pose proof (measureFrame_enabled t d s Hen) as (Hfc & _ & Hw & Hss & Hdf & _).
  split_and!; try done.
  - intros [Hsc Hpos]. rewrite Hbuf, Hsc, Hpos. cbn [andb]. split_and!.
    + apply last_snoc.
    + intros Hroom. apply Nat.ltb_lt in Hroom. by rewrite Hroom.
    + intros Hfull. apply Nat.ltb_ge in Hfull. by rewrite Hfull.
  - intros [Hsc | Hpos]; rewrite Hbuf.
    + by rewrite Hsc.
    + rewrite Hpos. by rewrite andb_false_r.
  - intros Hroom. rewrite Hbuf. apply Nat.ltb_lt in Hroom. rewrite Hroom.
    split.
    + destruct (isScrolling s), (PrimFloat.ltb 0%float (t - lastTime s));
        cbn; try done; lia.
    + intros [Hsc Hpos]. rewrite Hsc, Hpos. cbn.
      rewrite length_app. cbn. lia.
Qed.

(** The 101st frame of a scroll gesture finds the buffer full: its sample
    is recorded all the same, at the end, and the sample of the first frame
    leaves; the frame is counted. *)
Lemma sample_recorded_witness :
  length (frameMetrics full_buffer_page) = 100
  ∧ frameMetrics (measureFrame 101%float at_top full_buffer_page)
    = tail (frameMetrics full_buffer_page)
      ++ [sample 101%float (101 - lastTime full_buffer_page)%float at_top]
  ∧ map timestamp (frameMetrics (measureFrame 101%float at_top full_buffer_page))
    = map JS.of_nat (seq 2 100)
  ∧ frameCount (measureFrame 101%float at_top full_buffer_page) = 101%Z.
Proof.
  assert (Hen : enabled full_buffer_page = true) by (vm_compute; reflexivity).
  assert (Hlen : length (frameMetrics full_buffer_page) = 100)
    by (vm_compute; reflexivity).
  pose proof (sample_recorded_iff_scrolling_and_positive_frameTime
                full_buffer_page 101%float at_top Hen)
    as (_ & Hrec & _ & _ & Hfc & _).
  destruct Hrec as (_ & _ & Hfull); [split; vm_compute; reflexivity|].
  split_and!.
  - exact Hlen.
  - apply Hfull. rewrite Hlen. lia.
  - rewrite Hfull by (rewrite Hlen; lia). vm_compute. reflexivity.
  - rewrite Hfc. vm_compute. reflexivity.
Defined.

(** ** A window of the per-second FPS count *)

Lemma run_app s es1 es2 : run s (es1 ++ es2) = run (run s es1) es2.
Proof. unfold run. apply fold_left_app. Qed.

Lemma run_cons s e es : run s (e :: es) = run (step s e) es.
Proof. reflexivity. Qed.

(** Frames that do not close the current window only count. *)
Lemma run_frames_open fs :
  ∀ s,
    enabled s = true → frameRequest s ≠ None →
    Forall (λ f, PrimFloat.leb 1000%float (f.1 - secondStart s)%float = false)
      fs →
    let s' := run s (frames fs) in
    enabled s' = true ∧ frameRequest s' ≠ None
    ∧ isScrolling s' = isScrolling s
    ∧ secondStart s' = secondStart s
    ∧ frameCountInSecond s' = (frameCountInSecond s + Z.of_nat (length fs))%Z
    ∧ droppedFrames s' = droppedFrames s
    ∧ ∃ delta, console s' = console s ++ delta ∧ dropped_warnings delta = [].
Proof.
  induction fs as [|[t d] fs IH]; intros s Hen Hreq Hopen; cbv zeta.
  - cbn. split_and!; try done; [lia|]. exists []. by rewrite app_nil_r.
  - apply Forall_cons in Hopen as [Ht Hopen]. cbn in Ht.
    change (frames ((t, d) :: fs)) with (AnimationFrame t d :: frames fs).
    rewrite run_cons. change (step s (AnimationFrame t d))
      with (animationFrame t d s).
    unfold animationFrame. destruct (frameRequest s) eqn:Hfr; [|done].
    set (s0 := set_frameRequest None s).
    pose proof (measureFrame_enabled t d s0 Hen)
      as (_ & _ & Hw & Hss & Hdf & Hcon & Hfr' & _).
    pose proof (measureFrame_preserves t d s0)
      as (Hen' & Hsc' & _).
    cbn in Hw, Hss, Hdf, Hcon, Hfr', Hen', Hsc'.
    rewrite Ht in Hw, Hss, Hdf, Hcon. cbn in Hdf, Hcon.
    destruct (IH (measureFrame t d s0)) as (E1 & E2 & E3 & E4 & E5 & E6 & E7).
    + congruence.
    + congruence.
    + by rewrite Hss.
    + split_and!; try congruence.
      * rewrite E5, Hw. cbn [length]. lia.
      * destruct E7 as (delta & Hdelta & Hnone).
        exists (sample_messages (isScrolling s) (t - lastTime s)%float ++ delta).
        split.
        -- by rewrite Hdelta, Hcon, <- app_assoc.
        -- by rewrite dropped_warnings_app, dropped_warnings_sample_messages.
Qed.

(** C4.  Take a window of the per-second count: frame callbacks that do
    not complete the second, then the callback that does, run while
    diagnostics is enabled and with nothing else in between.  Its measured
    FPS is the number of frames counted when it closes.  If that is below
    30 and a scroll gesture is active, [droppedFrames] ends one higher and
    exactly one dropped-frame warning, carrying that FPS, is written to the
    console; if it is at least 30, or no gesture is active, [droppedFrames]
    is unchanged and no such warning is written. *)
Theorem dropped_frame_counted_once_per_slow_scrolling_window :
  ∀ (s : state) (fs : list (JS.number * Document)) (t : JS.number)
    (d : Document),
    enabled s = true → frameRequest s ≠ None →
    Forall (λ f, PrimFloat.leb 1000%float (f.1 - secondStart s)%float = false)
      fs →
    PrimFloat.leb 1000%float (t - secondStart s)%float = true →
    let fps := (frameCountInSecond s + Z.of_nat (length fs) + 1)%Z in
    let s' := run s (frames fs ++ [AnimationFrame t d]) in
    ∃ delta,
      console s' = console s ++ delta
      ∧ (isScrolling s = true ∧ (fps < 30)%Z →
         droppedFrames s' = (droppedFrames s + 1)%Z
         ∧ dropped_warnings delta = [fps])
      ∧ (isScrolling s = false ∨ (30 ≤ fps)%Z →
         droppedFrames s' = droppedFrames s
         ∧ dropped_warnings delta = []).
Proof.
  intros s fs t d Hen Hreq Hopen Hclose. cbv zeta.
  destruct (run_frames_open fs s Hen Hreq Hopen)
    as (E1 & E2 & E3 & E4 & E5 & E6 & delta & Hdelta & Hnone).
  rewrite run_app. set (s1 := run s (frames fs)) in *.
  change (run s1 [AnimationFrame t d]) with (animationFrame t d s1).
  unfold animationFrame. destruct (frameRequest s1) eqn:Hfr; [|done].
  set (s0 := set_frameRequest None s1).
  pose proof (measureFrame_enabled t d s0 E1)
    as (_ & _ & _ & _ & Hdf & Hcon & _).
  cbn in Hdf, Hcon. rewrite E4, Hclose, E3, E5, E6 in Hdf.
  rewrite E4, Hclose, E3, E5, Hdelta in Hcon. cbn in Hdf, Hcon.
  eexists. split.
  { rewrite Hcon, <- !app_assoc. reflexivity. }
  rewrite !dropped_warnings_app, Hnone, dropped_warnings_sample_messages,
    dropped_warnings_window_messages, app_nil_r. cbn.
  split.
  - intros [Hsc Hslow]. rewrite Hdf, Hsc. cbn.
    destruct (_ <? 30)%Z eqn:E; [done | apply Z.ltb_ge in E; lia].
  - intros [Hsc | Hfast]; rewrite Hdf.
    + rewrite Hsc. done.
    + destruct (_ <? 30)%Z eqn:E; [apply Z.ltb_lt in E; lia|].
      by rewrite andb_false_r.
Qed.

(** A second of scrolling at 25 frames, 40 ms apart: one dropped frame. *)
Lemma dropped_frame_witness :
  droppedFrames
    (run scrolling_page
       (frames (steady_frames 24 40%float)
        ++ [AnimationFrame 1000%float at_top])) = 1%Z.
Proof.
  destruct (dropped_frame_counted_once_per_slow_scrolling_window
              scrolling_page (steady_frames 24 40%float) 1000%float at_top)
    as (delta & _ & Hslow & _).
  - reflexivity.
  - discriminate.
  - apply (bool_decide_unpack _). vm_compute. reflexivity.
  - reflexivity.
  - destruct Hslow as [Hdf _].
    + split; [reflexivity | vm_compute; reflexivity].
    + rewrite Hdf. reflexivity.
Defined.

(** ** Reports on an empty buffer *)

(** What the guards of [generateReport] avoid: the mean of no sample is
    NaN, the extrema of no sample are infinite. *)
Remark unguarded_aggregates_of_empty_buffer :
  PrimFloat.is_nan (JS.sum [] / JS.of_nat (length (@nil JS.number)))%float
  = true
  ∧ JS.Math_min [] = infinity ∧ JS.Math_max [] = neg_infinity.
Proof. repeat split; reflexivity. Qed.

(** ** The zoom estimate *)

Lemma eqb_zero_inv z :
  PrimFloat.eqb z 0%float = true → z = 0%float ∨ z = (-0)%float.
Proof.
  intros H. rewrite FloatAxioms.eqb_spec in H.
  rewrite <- (FloatAxioms.SF2Prim_Prim2SF z).
  destruct (Prim2SF z) as [b | b | | b m e]; try discriminate.
  - destruct b; [right | left]; reflexivity.
  - destruct b; discriminate.
  - unfold SpecFloat.SFeqb, SpecFloat.SFcompare in H. cbn in H.
    destruct b; discriminate.
Qed.

(** A division by zero gives NaN or an infinity, whatever is divided. *)
Lemma div_zero_cases x z :
  PrimFloat.eqb z 0%float = true →
  (x / z = nan ∨ x / z = infinity ∨ x / z = neg_infinity)%float.
Proof.
  intros Hz.
  rewrite <- (FloatAxioms.SF2Prim_Prim2SF (x / z)), FloatAxioms.div_spec.
  destruct (eqb_zero_inv z Hz) as [-> | ->];
    destruct (Prim2SF x) as [b | b | | b m e]; try destruct b; cbn; auto.
Qed.

Lemma chromeZoom_zero_innerWidth w :
  PrimFloat.eqb (innerWidth w) 0%float = true →
  JS.is_finite (chromeZoom w) = false.
Proof.
  intros Hz. unfold chromeZoom.
  destruct (div_zero_cases (outerWidth w) (innerWidth w) Hz)
    as [-> | [-> | ->]]; vm_compute; reflexivity.
Qed.

(** C10, as stated, fails on the zoom estimate: the report holds the
    rounded ratio of the window's widths, and nothing guards the division.
    On an empty buffer, in a frame collapsed to no width the estimate is
    [Infinity], and in a window that has not been laid out it is [NaN]. *)
Lemma generateReport_zoom_estimate_not_finite :
  frameMetrics init = []
  ∧ r_chromeZoom (generateReport collapsed_frame init) = infinity
  ∧ JS.is_finite (r_chromeZoom (generateReport collapsed_frame init)) = false
  ∧ PrimFloat.is_nan (r_chromeZoom (generateReport unrendered_window init))
    = true.
Proof. vm_compute. split_and!; reflexivity. Qed.

(** C10, amended.  Called on an empty buffer, [generateReport] returns a
    report (the function is total) whose five buffer-derived aggregates are
    exactly 0, hence neither NaN nor infinite, and whose lifetime and
    environment fields are the current values of the counters, of the grid
    information and of the window.  The one computed environment field,
    the zoom estimate, is the rounded ratio of the window's widths; it is
    not finite when the inner width is 0. *)
Theorem generateReport_empty_buffer_zero_aggregates :
  ∀ (w : Window) (s : state),
    frameMetrics s = [] →
    let r := generateReport w s in
    (r_avgFps r = 0%float ∧ r_minFps r = 0%float ∧ r_maxFps r = 0%float
     ∧ r_avgFrameTime r = 0%float ∧ r_maxFrameTime r = 0%float)
    ∧ Forall (λ x, JS.is_finite x = true)
        [r_avgFps r; r_minFps r; r_maxFps r; r_avgFrameTime r;
         r_maxFrameTime r]
    ∧ (r_droppedFrames r = droppedFrames s ∧ r_totalFrames r = frameCount s
       ∧ r_cardCount r = cardCount s ∧ r_columnCount r = columnCount s)
    ∧ (r_devicePixelRatio r = devicePixelRatio w
       ∧ r_screenWidth r = screen_width w ∧ r_screenHeight r = screen_height w
       ∧ r_windowWidth r = innerWidth w ∧ r_windowHeight r = innerHeight w
       ∧ r_chromeZoom r = chromeZoom w
       ∧ r_userAgent r = userAgent w)
    ∧ (PrimFloat.eqb (innerWidth w) 0%float = true →
       JS.is_finite (r_chromeZoom r) = false).
Proof.
  intros w s Hempty. unfold generateReport. rewrite Hempty. cbn.
  split_and!; try reflexivity; [repeat constructor|].
  apply chromeZoom_zero_innerWidth.
Qed.

(** The fresh object: all aggregates are 0 and the counters are 0. *)
Lemma generateReport_empty_buffer_witness :
  r_avgFps (generateReport desktop init) = 0%float
  ∧ r_totalFrames (generateReport desktop init) = 0%Z.
Proof.
  pose proof (generateReport_empty_buffer_zero_aggregates desktop init eq_refl)
    as ((Havg & _) & _ & (_ & Htotal & _) & _).
  split; [exact Havg | exact Htotal].
Defined.

(** C9, as stated, fails for the on-demand path: with an empty buffer
    [generateReport] does return a report.  Here it is for the fresh
    object, after two frames were counted outside any scroll gesture. *)
Lemma generateReport_reports_on_empty_buffer :
  let s := run init [Enable 0%float desktop;
                     AnimationFrame 16%float at_top;
                     AnimationFrame 32%float at_top] in
  frameMetrics s = []
  ∧ generateReport desktop s =
    {| r_devicePixelRatio := 1%float;
       r_screenWidth := 1920%float; r_screenHeight := 1080%float;
       r_windowWidth := 1920%float; r_windowHeight := 969%float;
       r_chromeZoom := 1%float; r_userAgent := "Mozilla/5.0";
       r_avgFps := 0%float; r_minFps := 0%float; r_maxFps := 0%float;
       r_droppedFrames := 0%Z; r_totalFrames := 2%Z;
       r_avgFrameTime := 0%float; r_maxFrameTime := 0%float;
       r_cardCount := 0%float; r_columnCount := 0%float |}.
Proof. split; vm_compute; reflexivity. Qed.

(** C9, amended.  With an empty buffer the end-of-gesture path prints
    nothing: [printScrollReport] returns the state as it found it, so the
    timer callback only clears the flag and logs the end of the scroll; no
    report header is written.  The on-demand path does not stay silent but
    returns the report whose aggregates are 0.  Both are total: neither
    raises. *)
Theorem empty_buffer_report_generation :
  ∀ (s : state),
    frameMetrics s = [] →
    printScrollReport s = s
    ∧ console (scrollEndTimeout s) = console s ++ [(Log, MsgScrollEnd)]
    ∧ reports (console (scrollEndTimeout s)) = reports (console s)
    ∧ ∀ w, generateReport w s = empty_buffer_report w s.
Proof.
  intros s Hempty. split_and!.
  - unfold printScrollReport. by rewrite Hempty.
  - unfold scrollEndTimeout, printScrollReport. cbn. by rewrite Hempty.
  - unfold scrollEndTimeout, printScrollReport. cbn. rewrite Hempty. cbn.
    unfold reports. rewrite List.filter_app, length_app. cbn. lia.
  - intros w. unfold generateReport, empty_buffer_report.
    by rewrite Hempty.
Qed.

(** The end of a gesture during which no frame was sampled. *)
Lemma empty_buffer_report_witness :
  reports (console (scrollEndTimeout scrolling_page))
  = reports (console scrolling_page).
Proof.
  pose proof (empty_buffer_report_generation scrolling_page eq_refl)
    as (_ & _ & Hsame & _).
  exact Hsame.
Defined.

(** ** The end-of-scroll debounce *)

Lemma reports_app c1 c2 : reports (c1 ++ c2) = reports c1 + reports c2.
Proof. unfold reports. by rewrite List.filter_app, length_app. Qed.

Lemma scroll_ends_app c1 c2 :
  scroll_ends (c1 ++ c2) = scroll_ends c1 + scroll_ends c2.
Proof. unfold scroll_ends. by rewrite List.filter_app, length_app. Qed.

Lemma scrollEndTimeout_effect s :
  let s' := scrollEndTimeout s in
  isScrolling s' = false ∧ frameMetrics s' = []
  ∧ timers s' = timers s ∧ now s' = now s
  ∧ scrollTimeout s' = scrollTimeout s ∧ nextTimer s' = nextTimer s
  ∧ enabled s' = enabled s
  ∧ reports (console s') = reports (console s) + reports_of (frameMetrics s)
  ∧ scroll_ends (console s') = S (scroll_ends (console s)).
Proof.
  unfold scrollEndTimeout, printScrollReport, console_log.
  cbn -[reports scroll_ends].
  destruct (frameMetrics s) as [|m buf] eqn:Hbuf; cbn -[reports scroll_ends];
    rewrite ?reports_app, ?scroll_ends_app; cbn; split_and!; try done; lia.
Qed.

Lemma frame_messages_counts closes scrolling fps ft :
  reports (window_messages closes scrolling fps ft) = 0
  ∧ scroll_ends (window_messages closes scrolling fps ft) = 0
  ∧ reports (sample_messages scrolling ft) = 0
  ∧ scroll_ends (sample_messages scrolling ft) = 0.
Proof.
  unfold window_messages, sample_messages.
  destruct closes, scrolling, (fps <? 30)%Z, (PrimFloat.ltb 0%float ft),
    (PrimFloat.ltb 50%float ft); done.
Qed.

Lemma measureFrame_console_counts t d s :
  reports (console (measureFrame t d s)) = reports (console s)
  ∧ scroll_ends (console (measureFrame t d s)) = scroll_ends (console s).
Proof.
  destruct (enabled s) eqn:Hen.
  - pose proof (measureFrame_enabled t d s Hen) as (_ & _ & _ & _ & _ & Hcon & _).
    rewrite Hcon, !reports_app, !scroll_ends_app.
    match goal with
    | |- context [window_messages ?c ?b ?f ?x] =>
        pose proof (frame_messages_counts c b f x) as (-> & -> & -> & ->)
    end.
    split; lia.
  - by rewrite measureFrame_disabled.
Qed.

Lemma elapsed_nonneg es : (0 ≤ elapsed es)%Z.
Proof. unfold elapsed. induction es as [|[] es IH]; cbn; lia. Qed.

(** While no timer comes due, frames and the passing of time leave the
    debounce state alone. *)
Lemma run_quiet m :
  ∀ s,
    forallb quiet m = true →
    (∀ id dl, timers s !! id = Some dl → (now s + elapsed m < dl)%Z) →
    let s' := run s m in
    timers s' = timers s ∧ now s' = (now s + elapsed m)%Z
    ∧ isScrolling s' = isScrolling s ∧ enabled s' = enabled s
    ∧ scrollTimeout s' = scrollTimeout s ∧ nextTimer s' = nextTimer s
    ∧ reports (console s') = reports (console s)
    ∧ scroll_ends (console s') = scroll_ends (console s).
Proof.
  induction m as [|e m IH]; intros s Hq Hlater; cbv zeta.
  - cbn. split_and!; try done. lia.
  - cbn in Hq. apply andb_true_iff in Hq as [He Hq].
    rewrite run_cons.
    pose proof (elapsed_nonneg m) as Hm.
    destruct e as [| | t d | | | | dt]; try discriminate.
    + (* a frame *)
      cbn in Hlater.
      assert (Hstep :
        timers (step s (AnimationFrame t d)) = timers s
        ∧ now (step s (AnimationFrame t d)) = now s
        ∧ isScrolling (step s (AnimationFrame t d)) = isScrolling s
        ∧ enabled (step s (AnimationFrame t d)) = enabled s
        ∧ scrollTimeout (step s (AnimationFrame t d)) = scrollTimeout s
        ∧ nextTimer (step s (AnimationFrame t d)) = nextTimer s
        ∧ reports (console (step s (AnimationFrame t d))) = reports (console s)
        ∧ scroll_ends (console (step s (AnimationFrame t d)))
          = scroll_ends (console s)).
      { change (step s (AnimationFrame t d)) with (animationFrame t d s).
        unfold animationFrame. destruct (frameRequest s); [|done].
        pose proof (measureFrame_preserves t d (set_frameRequest None s))
          as (P1 & P2 & P3 & P4 & P5 & P6 & _).
        pose proof (measureFrame_console_counts t d (set_frameRequest None s))
          as [P7 P8].
        split_and!; assumption. }
      destruct Hstep as (S1 & S2 & S3 & S4 & S5 & S6 & S7 & S8).
      destruct (IH (step s (AnimationFrame t d)) Hq)
        as (E1 & E2 & E3 & E4 & E5 & E6 & E7 & E8).
      { intros id dl. rewrite S1, S2. apply Hlater. }
      cbn [elapsed fold_right]. fold (elapsed m).
      split_and!; congruence.
    + (* time passes, no timer is due *)
      cbn [elapsed fold_right] in Hlater |- *. fold (elapsed m) in Hlater |- *.
      assert (Hstep : step s (Elapse dt)
                      = set_now (now s + Z.of_N dt) (set_timers (timers s) s)).
      { cbn. unfold elapse.
        rewrite due_none, not_due_all; [done | |];
          intros id dl Hid; specialize (Hlater id dl Hid); lia. }
      destruct (IH (step s (Elapse dt)) Hq)
        as (E1 & E2 & E3 & E4 & E5 & E6 & E7 & E8).
      { intros id dl. rewrite Hstep. cbn. intros Hid.
        specialize (Hlater id dl Hid). lia. }
      rewrite Hstep in E1, E2, E3, E4, E5, E6, E7, E8 |- *.
      cbn [timers now isScrolling enabled scrollTimeout nextTimer console
           set_now set_timers] in E1, E2, E3, E4, E5, E6, E7, E8.
      split_and!; try done. lia.
Qed.

Lemma tracked_transport s s' :
  timers s' = timers s → scrollTimeout s' = scrollTimeout s →
  nextTimer s' = nextTimer s → timers_tracked s → timers_tracked s'.
Proof. unfold timers_tracked. intros -> -> ->. done. Qed.

Lemma iter_scrollEndTimeout_timers n s :
  timers (Nat.iter n scrollEndTimeout s) = timers s
  ∧ scrollTimeout (Nat.iter n scrollEndTimeout s) = scrollTimeout s
  ∧ nextTimer (Nat.iter n scrollEndTimeout s) = nextTimer s.
Proof.
  induction n as [|n (IH1 & IH2 & IH3)]; [done|].
  change (Nat.iter (S n) scrollEndTimeout s)
    with (scrollEndTimeout (Nat.iter n scrollEndTimeout s)).
  pose proof (scrollEndTimeout_effect (Nat.iter n scrollEndTimeout s))
    as (_ & _ & E1 & _ & E2 & E3 & _).
  split_and!; congruence.
Qed.

Lemma clear_scrollTimeout_fields s :
  scrollTimeout (clear_scrollTimeout s) = scrollTimeout s
  ∧ nextTimer (clear_scrollTimeout s) = nextTimer s
  ∧ ∀ id dl, timers (clear_scrollTimeout s) !! id = Some dl →
             timers s !! id = Some dl.
Proof.
  unfold clear_scrollTimeout.
  destruct (scrollTimeout s) as [[|old]|] eqn:Hold; cbn; rewrite ?Hold;
    split_and!; try done.
  by intros id dl [_ Hin]%lookup_delete_Some.
Qed.

Lemma onScrollEnd_tracked s : timers_tracked s → timers_tracked (onScrollEnd s).
Proof.
  intros (Hsub & Hpos & Hnext). unfold onScrollEnd.
  destruct (enabled s); [|done]. cbn.
  assert (Hgone : ∀ id dl,
    timers (clear_scrollTimeout s) !! id = Some dl → False).
  { intros id dl. unfold clear_scrollTimeout.
    destruct (scrollTimeout s) as [old|] eqn:Hold.
    - specialize (Hpos old eq_refl).
      destruct old as [|old]; [lia|]. cbn.
      intros [Hne Hin]%lookup_delete_Some.
      specialize (Hsub id dl Hin). congruence.
    - intros Hin. specialize (Hsub id dl Hin). congruence. }
  assert (Hnt : nextTimer (clear_scrollTimeout s) = nextTimer s).
  { unfold clear_scrollTimeout. split_conditions; done. }
  rewrite Hnt. split_and!; cbn.
  - intros id dl [[<- _] | [_ Hin]]%lookup_insert_Some; [done|].
    by destruct (Hgone id dl).
  - intros id [= <-]. done.
  - lia.
Qed.

Lemma step_tracked s e : timers_tracked s → timers_tracked (step s e).
Proof.
  intros Htr. destruct e as [t w | | t d | | | c k | dt]; cbn.
  - apply (tracked_transport s); [| | |done];
      unfold enable, startFrameMonitoring, logSystemInfo;
      split_conditions; done.
  - apply (tracked_transport s); [| | |done];
      unfold disable, cancelAnimationFrame; split_conditions; done.
  - unfold animationFrame. destruct (frameRequest s); [|done].
    pose proof (measureFrame_preserves t d (set_frameRequest None s))
      as (_ & _ & P3 & P4 & _ & P6 & _).
    by apply (tracked_transport s).
  - destruct Htr as (Hsub & Hpos & Hnext).
    unfold onScrollStart. destruct (enabled s); [|done].
    change (negb true) with false. cbv zeta beta iota.
    match goal with
    | |- timers_tracked (clear_scrollTimeout ?x) =>
        pose proof (clear_scrollTimeout_fields x) as (E1 & E2 & E3)
    end.
    cbn in E1, E2, E3. unfold timers_tracked. rewrite E1, E2.
    split_and!; try done.
    intros id dl Hin%E3. by apply (Hsub id dl).
  - by apply onScrollEnd_tracked.
  - apply (tracked_transport s); [| | |done];
      unfold updateGridInfo; split_conditions; done.
  - destruct Htr as (Hsub & Hpos & Hnext). unfold elapse.
    match goal with
    | |- timers_tracked (Nat.iter ?n _ ?x) =>
        pose proof (iter_scrollEndTimeout_timers n x) as (E1 & E2 & E3)
    end.
    cbn in E1, E2, E3. unfold timers_tracked. rewrite E1, E2, E3.
    split_and!; try done.
    intros id dl Hin%not_due_lookup. by apply (Hsub id dl).
Qed.

Lemma run_tracked es : ∀ s, timers_tracked s → timers_tracked (run s es).
Proof.
  induction es as [|e es IH]; intros s Htr; [done|].
  rewrite run_cons. apply IH. by apply step_tracked.
Qed.

Lemma init_tracked : timers_tracked init.
Proof. unfold timers_tracked. cbn. split_and!; [done | done | lia]. Qed.

Lemma onScrollStart_effect s :
  enabled s = true → timers_tracked s →
  let s' := onScrollStart s in
  timers s' = ∅ ∧ isScrolling s' = true ∧ enabled s' = true
  ∧ now s' = now s
  ∧ reports (console s') = reports (console s)
  ∧ scroll_ends (console s') = scroll_ends (console s).
Proof.
  intros Hen (Hsub & Hpos & Hnext). unfold onScrollStart. rewrite Hen.
  cbn -[reports scroll_ends].
  unfold clear_scrollTimeout. cbn -[reports scroll_ends].
  assert (Hempty :
    timers (match scrollTimeout s with
            | Some (S n as id) =>
                clearTimeout id
                  (console_log MsgScrollStart (set_isScrolling true s))
            | _ => console_log MsgScrollStart (set_isScrolling true s)
            end) = ∅).
  { apply map_empty. intros i.
    destruct (scrollTimeout s) as [[|old]|] eqn:Hold; cbn.
    - specialize (Hpos 0 eq_refl). lia.
    - destruct (decide (i = S old)) as [-> | Hne].
      + apply lookup_delete_eq.
      + rewrite lookup_delete_ne by done.
        destruct (timers s !! i) as [dl|] eqn:Hin; [|done].
        specialize (Hsub i dl Hin). congruence.
    - destruct (timers s !! i) as [dl|] eqn:Hin; [|done].
      specialize (Hsub i dl Hin). congruence. }
  destruct (scrollTimeout s) as [[|old]|] eqn:Hold;
    cbn -[reports scroll_ends] in Hempty |- *;
    rewrite ?reports_app, ?scroll_ends_app; cbn; split_and!; try done; lia.
Qed.

Lemma onScrollEnd_effect s :
  enabled s = true → timers s = ∅ →
  let s' := onScrollEnd s in
  timers s' = {[ nextTimer s := (now s + 200)%Z ]}
  ∧ isScrolling s' = isScrolling s ∧ enabled s' = true
  ∧ now s' = now s ∧ console s' = console s.
Proof.
  intros Hen Hempty. unfold onScrollEnd, clear_scrollTimeout. rewrite Hen.
  destruct (scrollTimeout s) as [[|old]|]; cbn;
    rewrite Hempty, ?delete_empty, insert_empty; done.
Qed.

(** The timer set by [onScrollEnd] fires once when its 200 ms are over. *)
Lemma elapse_fires_once s id dl dt :
  timers s = {[ id := dl ]} → (dl ≤ now s + Z.of_N dt)%Z →
  step s (Elapse dt)
  = scrollEndTimeout (set_now (now s + Z.of_N dt) (set_timers ∅ s)).
Proof.
  intros Htm Hdue. cbn. unfold elapse. rewrite Htm.
  rewrite due_all, not_due_none, map_size_singleton; [done | |];
    intros i x [_ <-]%lookup_singleton_Some; done.
Qed.

(** C6, as stated, fails when no frame was sampled during the gesture:
    the two calls of [onScrollStart]/[onScrollEnd] 50 ms apart are followed
    by one timer callback, which finds the buffer empty and prints no
    report at all. *)
Lemma rapid_scroll_ends_without_samples_print_no_report :
  let s := run init [Enable 0%float desktop] in
  let s' := run s [ScrollStart; ScrollEnd; Elapse 50;
                   ScrollStart; ScrollEnd; Elapse 200] in
  enabled s = true
  ∧ scroll_ends (console s') = 1
  ∧ reports (console s') = 0
  ∧ reports (console s') ≠ 1.
Proof. vm_compute. split_and!; try reflexivity. discriminate. Qed.

(** C6, amended.  Diagnostics being enabled, let [onScrollStart] and
    [onScrollEnd] be called twice, the second [onScrollStart] less than
    200 ms after the first [onScrollEnd], with only frames and the passing
    of time in between, and let the clock then run past the 200 ms that
    follow the second [onScrollEnd].  Until then no end-of-scroll callback
    runs and the active flag stays set; the first timer is cancelled by
    the second [onScrollStart].  Then exactly one callback runs: it clears
    the flag, prints one report if the buffer holds a sample at that time
    and none if it is empty, never two, and leaves the buffer empty and no
    timer pending. *)
Theorem scroll_end_debounce_one_callback :
  ∀ (es m0 m1 m2 m3 : list event) (dt : N),
    let s := run init es in
    enabled s = true →
    forallb quiet m0 = true → forallb quiet m1 = true →
    forallb quiet m2 = true → forallb quiet m3 = true →
    (elapsed m1 < 200)%Z →
    (elapsed m3 < 200 ≤ elapsed m3 + Z.of_N dt)%Z →
    let before :=
      run s ([ScrollStart] ++ m0 ++ [ScrollEnd] ++ m1
             ++ [ScrollStart] ++ m2 ++ [ScrollEnd] ++ m3) in
    let after := step before (Elapse dt) in
    (scroll_ends (console before) = scroll_ends (console s)
     ∧ reports (console before) = reports (console s)
     ∧ isScrolling before = true)
    ∧ scroll_ends (console after) = S (scroll_ends (console s))
    ∧ reports (console after)
      = reports (console s) + reports_of (frameMetrics before)
    ∧ reports (console after) ≤ reports (console s) + 1
    ∧ isScrolling after = false
    ∧ frameMetrics after = []
    ∧ timers after = ∅.
Proof.
  intros es m0 m1 m2 m3 dt s Hen Hq0 Hq1 Hq2 Hq3 Hm1 Hm3 before after.
  assert (Htr : timers_tracked s) by apply run_tracked, init_tracked.
  subst after before.
  rewrite !run_app. change (run s [ScrollStart]) with (onScrollStart s).
  (* first onScrollStart *)
  destruct (onScrollStart_effect s Hen Htr) as (A1 & A2 & A3 & A4 & A5 & A6).
  set (sA := onScrollStart s) in *.
  assert (HtrA : timers_tracked sA) by apply (step_tracked s ScrollStart Htr).
  destruct (run_quiet m0 sA Hq0) as (A1' & A2' & A3' & A4' & _ & _ & A5' & A6').
  { intros id dl. by rewrite A1, lookup_empty. }
  set (sA' := run sA m0) in *.
  (* first onScrollEnd *)
  change (run sA' [ScrollEnd]) with (onScrollEnd sA').
  destruct (onScrollEnd_effect sA') as (B1 & B2 & B3 & B4 & B5);
    [congruence | congruence |].
  assert (HtrB : timers_tracked (onScrollEnd sA')).
  { apply (step_tracked sA' ScrollEnd). by apply run_tracked. }
  set (sB := onScrollEnd sA') in *.
  destruct (run_quiet m1 sB Hq1) as (B1' & B2' & B3' & B4' & _ & _ & B5' & B6').
  { intros id dl. rewrite B1. intros [_ <-]%lookup_singleton_Some. lia. }
  assert (HtrB' : timers_tracked (run sB m1)) by by apply run_tracked.
  set (sB' := run sB m1) in *.
  (* second onScrollStart: the pending timer is cancelled *)
  change (run sB' [ScrollStart]) with (onScrollStart sB').
  destruct (onScrollStart_effect sB') as (C1 & C2 & C3 & C4 & C5 & C6);
    [congruence | done |].
  assert (HtrC : timers_tracked (onScrollStart sB'))
    by apply (step_tracked sB' ScrollStart HtrB').
  set (sC := onScrollStart sB') in *.
  destruct (run_quiet m2 sC Hq2) as (C1' & C2' & C3' & C4' & _ & _ & C5' & C6').
  { intros id dl. by rewrite C1, lookup_empty. }
  set (sC' := run sC m2) in *.
  (* second onScrollEnd *)
  change (run sC' [ScrollEnd]) with (onScrollEnd sC').
  destruct (onScrollEnd_effect sC') as (D1 & D2 & D3 & D4 & D5);
    [congruence | congruence |].
  set (sD := onScrollEnd sC') in *.
  destruct (run_quiet m3 sD Hq3) as (D1' & D2' & D3' & D4' & _ & _ & D5' & D6').
  { intros id dl. rewrite D1. intros [_ <-]%lookup_singleton_Some. lia. }
  set (sD' := run sD m3) in *.
  (* the timer fires *)
  rewrite (elapse_fires_once sD' (nextTimer sC') (now sD + 200)%Z dt);
    [| congruence | lia].
  match goal with
  | |- context [scrollEndTimeout ?x] =>
      pose proof (scrollEndTimeout_effect x)
        as (F1 & F2 & F3 & _ & _ & _ & _ & F4 & F5)
  end.
  cbn [frameMetrics console timers set_now set_timers] in F1, F2, F3, F4, F5.
  assert (Hle : reports_of (frameMetrics sD') ≤ 1)
    by (destruct (frameMetrics sD'); cbn; lia).
  assert (Hrep : reports (console sD') = reports (console s)) by congruence.
  split_and!; try done; try congruence; lia.
Qed.

(** A gesture ended twice within 50 ms, with one frame sampled: one
    report. *)
Lemma scroll_end_debounce_witness :
  reports
    (console
       (run init
          ([Enable 0%float desktop]
           ++ [ScrollStart; AnimationFrame 16%float at_top; ScrollEnd;
               Elapse 50; ScrollStart; ScrollEnd; Elapse 200]))) = 1.
Proof.
  pose proof (scroll_end_debounce_one_callback
                [Enable 0%float desktop]
                [AnimationFrame 16%float at_top] [Elapse 50] [] [] 200)
    as H.
  cbv zeta in H.
  destruct H as (_ & _ & Hrep & _);
    [reflexivity | reflexivity | reflexivity | reflexivity | reflexivity
    | reflexivity | split; [reflexivity | discriminate] |].
  rewrite run_app. exact Hrep.
Defined.

End DiagnosticsProperties.

(** * Properties of the scroll-activity singleton *)

Module ScrollStateProperties.

Import GlobalScrollState.

Lemma run_scroll_app s es1 es2 : run s (es1 ++ es2) = run (run s es1) es2.
Proof. unfold run. apply fold_left_app. Qed.

Lemma run_scroll_cons s e es : run s (e :: es) = run (step s e) es.
Proof. reflexivity. Qed.

(** ** The producer *)

(** An event that finds a frame request pending is dropped whole. *)
Lemma handleScrollEvent_coalesced s :
  scrollRAF s ≠ None → handleScrollEvent s = s.
Proof. unfold handleScrollEvent. by destruct (scrollRAF s). Qed.

(** An event that finds none schedules one and restarts the idle timer. *)
Lemma handleScrollEvent_fresh n s :
  consistent n s → scrollRAF s = None →
  let s' := handleScrollEvent s in
  scrollRAF s' = Some (nextFrame s)
  ∧ frameRequests s' = {[ nextFrame s ]}
  ∧ scrollTimeout s' = Some (nextTimer s)
  ∧ timers s' = {[ nextTimer s := (now s + 150)%Z ]}
  ∧ nextTimer s' = S (nextTimer s)
  ∧ isScrolling s' = isScrolling s ∧ now s' = now s
  ∧ listenerCount s' = listenerCount s
  ∧ isListenerAttached s' = isListenerAttached s
  ∧ windowScrollListener s' = windowScrollListener s
  ∧ emitterHandlers s' = emitterHandlers s.
Proof.
  intros (_ & _ & _ & _ & Hsub & Hpos & _ & Hfr & _) Hraf.
  unfold handleScrollEvent. rewrite Hraf. cbn. rewrite Hfr, Hraf.
  assert (Hcleared :
    match scrollTimeout s with
    | Some (S _ as t) => delete t (timers s)
    | _ => timers s
    end = ∅).
  { apply map_empty. intros i.
    destruct (scrollTimeout s) as [[|old]|] eqn:Hold.
    - specialize (Hpos 0 eq_refl). lia.
    - destruct (decide (i = S old)) as [-> | Hne].
      + apply lookup_delete_eq.
      + rewrite lookup_delete_ne by done.
        destruct (timers s !! i) as [dl|] eqn:Hin; [|done].
        specialize (Hsub i dl Hin). congruence.
    - destruct (timers s !! i) as [dl|] eqn:Hin; [|done].
      specialize (Hsub i dl Hin). congruence. }
  destruct (scrollTimeout s) as [[|old]|] eqn:Hold; cbn;
    rewrite ?Hcleared, insert_empty; split_and!; try done;
    by rewrite (right_id_L ∅ (∪)).
Qed.

Lemma handleScrollEvent_consistent n s :
  consistent n s → 0 < n → consistent n (handleScrollEvent s).
Proof.
  intros Hc Hn. destruct (scrollRAF s) as [id|] eqn:Hraf.
  { by rewrite handleScrollEvent_coalesced by congruence. }
  pose proof (handleScrollEvent_fresh n s Hc Hraf)
    as (E1 & E2 & E3 & E4 & E5 & E6 & E7 & E8 & E9 & E10 & E11).
  destruct Hc as (C1 & C2 & C3 & C4 & _ & _ & C7 & _).
  unfold consistent.
  rewrite E1, E2, E3, E4, E5, E8, E9, E10, E11.
  split_and!; try done.
  - by intros id dl [<- _]%lookup_singleton_Some.
  - intros id [= <-]. done.
  - lia.
  - lia.
Qed.

(** ** The state follows the number of subscriptions held *)

Lemma iter_idleTimeout n s :
  Nat.iter n idleTimeout s = s ∨ Nat.iter n idleTimeout s = idleTimeout s.
Proof.
  induction n as [|n [IH | IH]]; [by left | right..];
    change (Nat.iter (S n) idleTimeout s)
      with (idleTimeout (Nat.iter n idleTimeout s));
    rewrite IH; reflexivity.
Qed.

Lemma addScrollListener_consistent n s :
  consistent n s → consistent (S n) (addScrollListener s).
Proof.
  intros (C1 & C2 & C3 & C4 & C5 & C6 & C7 & C8 & C9).
  unfold addScrollListener, consistent. cbn.
  destruct n as [|n].
  - rewrite C2 in *. cbn in *. rewrite C1, C4. split_and!; try done; lia.
  - rewrite C2 in *. cbn in *. rewrite C1, C2, C3. cbn.
    split_and!; try done; lia.
Qed.

Lemma removeScrollListener_consistent n s :
  consistent (S n) s → consistent n (removeScrollListener s).
Proof.
  intros (C1 & C2 & C3 & C4 & C5 & C6 & C7 & C8 & C9).
  unfold removeScrollListener. cbn.
  rewrite C2. cbn. destruct n as [|n].
  - (* the last subscription goes *)
    assert (Hlast : (listenerCount s - 1 <=? 0)%Z = true)
      by (apply Z.leb_le; lia).
    rewrite Hlast. cbn.
    assert (Hcleared : ∀ i,
      match scrollTimeout s with
      | Some (S _ as t) => delete t (timers s)
      | _ => timers s
      end !! i = None).
    { intros i. destruct (scrollTimeout s) as [[|old]|] eqn:Hold.
      - specialize (C6 0 eq_refl). lia.
      - destruct (decide (i = S old)) as [-> | Hne].
        + apply lookup_delete_eq.
        + rewrite lookup_delete_ne by done.
          destruct (timers s !! i) as [dl|] eqn:Hin; [|done].
          specialize (C5 i dl Hin). congruence.
      - destruct (timers s !! i) as [dl|] eqn:Hin; [|done].
        specialize (C5 i dl Hin). congruence. }
    apply map_empty in Hcleared.
    rewrite C2 in C3, C4. cbn in C3, C4.
    unfold consistent.
    destruct (scrollTimeout s) as [[|old]|] eqn:Hold;
      destruct (scrollRAF s) as [id|] eqn:Hraf;
      repeat (cbn; rewrite ?Hold, ?Hraf, ?Hcleared, ?C4, ?C8);
      split_and!; try done; try lia;
      try (by intros ? ?; rewrite lookup_empty);
      try (specialize (C6 0 eq_refl); lia);
      try apply difference_diag_L.
  - (* others remain *)
    assert (Hmore : (listenerCount s - 1 <=? 0)%Z = false)
      by (apply Z.leb_gt; lia).
    rewrite Hmore. cbn. unfold consistent. cbn. rewrite C2. cbn.
    rewrite C2 in C3, C4.
    split_and!; try done; lia.
Qed.

Lemma paint_consistent n s : consistent n s → consistent n (paint s).
Proof.
  intros (C1 & C2 & C3 & C4 & C5 & C6 & C7 & C8 & C9).
  unfold paint. rewrite C8.
  destruct (scrollRAF s) as [id|] eqn:Hraf.
  - rewrite size_singleton. cbn. unfold consistent. cbn.
    split_and!; try done. intros Hn. destruct (C9 Hn). done.
  - rewrite size_empty. cbn. unfold consistent. cbn. rewrite Hraf.
    split_and!; done.
Qed.

Lemma elapse_consistent n dt s : consistent n s → consistent n (elapse dt s).
Proof.
  intros (C1 & C2 & C3 & C4 & C5 & C6 & C7 & C8 & C9). unfold elapse.
  match goal with
  | |- consistent n (Nat.iter ?k idleTimeout ?x) =>
      destruct (iter_idleTimeout k x) as [-> | ->]
  end; unfold consistent; cbn; split_and!; try done;
    try (intros id dl Hin%not_due_lookup; by apply (C5 id dl));
    intros Hn; destruct (C9 Hn) as [Htm Hraf]; rewrite Htm;
    by rewrite not_due_empty.
Qed.

Lemma step_consistent n s e :
  consistent n s → (e = Unsubscribe → 0 < n) →
  consistent (held_after n e) (step s e).
Proof.
  intros Hc Hok. destruct e as [| | | | | dt]; cbn.
  - by apply addScrollListener_consistent.
  - destruct n as [|n]; [specialize (Hok eq_refl); lia|].
    by apply removeScrollListener_consistent.
  - unfold nativeScroll.
    destruct (windowScrollListener s) eqn:Hw; [|done].
    apply handleScrollEvent_consistent; [done|].
    pose proof Hc as (_ & C2 & C3 & _). rewrite C3, C2 in Hw.
    destruct n; [discriminate | lia].
  - unfold overlayScroll. pose proof Hc as (C1 & C2 & C3 & C4 & C5).
    rewrite C4. destruct (isListenerAttached s) eqn:Hatt; [|done]. cbn.
    apply handleScrollEvent_consistent; [done|].
    rewrite C2 in Hatt. destruct n; [discriminate | lia].
  - by apply paint_consistent.
  - by apply elapse_consistent.
Qed.

Lemma run_consistent es :
  ∀ n s,
    consistent n s → balanced_from n es = true →
    consistent (held_from n es) (run s es).
Proof.
  induction es as [|e es IH]; intros n s Hc Hbal; [done|].
  rewrite run_scroll_cons.
  assert (Hok : e = Unsubscribe → 0 < n).
  { intros ->. cbn in Hbal. destruct n; [discriminate | lia]. }
  assert (Hheld : held_from n (e :: es) = held_from (held_after n e) es)
    by (destruct e; reflexivity).
  assert (Hbal' : balanced_from (held_after n e) es = true).
  { destruct e; cbn in Hbal |- *; try done.
    destruct n; [discriminate | done]. }
  rewrite Hheld. apply IH; [by apply step_consistent | done].
Qed.

Lemma init_consistent : consistent 0 init.
Proof. unfold consistent. cbn. split_and!; try done; lia. Qed.

(** ** Balanced use *)

Lemma activity_held a :
  forallb activity a = true →
  ∀ n rest,
    balanced_from n (a ++ rest) = balanced_from n rest
    ∧ held_from n (a ++ rest) = held_from n rest.
Proof.
  induction a as [|e a IH]; intros Hact n rest; [done|].
  cbn in Hact. apply andb_true_iff in Hact as [He Hact].
  destruct e; try discriminate; cbn; by apply IH.
Qed.

Lemma calls_subscribe_held between :
  Forall (λ a, forallb activity a = true) between →
  ∀ n rest,
    balanced_from n (calls Subscribe between ++ rest)
    = balanced_from (length between + n) rest
    ∧ held_from n (calls Subscribe between ++ rest)
      = held_from (length between + n) rest.
Proof.
  induction 1 as [|a between Ha _ IH]; intros n rest; [done|].
  cbn [calls app length]. rewrite <- app_assoc. cbn [balanced_from held_from].
  destruct (activity_held a Ha (S n) (calls Subscribe between ++ rest))
    as [-> ->].
  destruct (IH (S n) rest) as [-> ->].
  by replace (length between + S n) with (S (length between) + n) by lia.
Qed.

Lemma calls_unsubscribe_held between :
  Forall (λ a, forallb activity a = true) between →
  ∀ n rest,
    length between ≤ n →
    balanced_from n (calls Unsubscribe between ++ rest)
    = balanced_from (n - length between) rest
    ∧ held_from n (calls Unsubscribe between ++ rest)
      = held_from (n - length between) rest.
Proof.
  induction 1 as [|a between Ha _ IH]; intros n rest Hle.
  { cbn. by rewrite Nat.sub_0_r. }
  cbn [length] in Hle. destruct n as [|n]; [lia|].
  cbn [calls app length]. rewrite <- app_assoc. cbn [balanced_from held_from pred].
  destruct (activity_held a Ha n (calls Unsubscribe between ++ rest))
    as [-> ->].
  destruct (IH n rest) as [-> ->]; [lia|]. done.
Qed.

(** The state reached by a balanced trace. *)
Lemma balanced_run_state es :
  balanced es = true →
  let s := run init es in
  listenerCount s = Z.of_nat (held es)
  ∧ (listenersAttached s ↔ (0 < listenerCount s)%Z)
  ∧ (isListenerAttached s = true ↔ (0 < listenerCount s)%Z)
  ∧ (listenersDetached s ↔ listenerCount s = 0%Z)
  ∧ (listenerCount s = 0%Z → nothingPending s).
Proof.
  intros Hbal s.
  destruct (run_consistent es 0 init init_consistent Hbal)
    as (C1 & C2 & C3 & C4 & _ & _ & _ & C8 & C9).
  fold (held es) in *. fold s in C1, C2, C3, C4, C8, C9.
  unfold listenersAttached, listenersDetached, nothingPending.
  rewrite C3, C4, C2, C1.
  destruct (held es) as [|n]; cbn.
  - destruct (C9 eq_refl) as [Htm Hraf]. rewrite Hraf in C8.
    split_and!.
    + done.
    + split; [by intros [? _] | lia].
    + split; [done | lia].
    + done.
    + done.
  - split_and!.
    + done.
    + split; [lia | done].
    + split; [lia | done].
    + split; [by intros [? _] | lia].
    + lia.
Qed.

(** C2.  Under balanced use, after any trace of subscriptions,
    unsubscriptions, scroll events from either source, paints and elapsed
    time, the reference count is the number of subscriptions held, the two
    listeners are attached if and only if the count is positive, they are
    detached if and only if it is zero, and when it is zero no timer and no
    animation-frame request is pending.  In particular, after N subscribe
    calls followed by N unsubscribe calls, with any such activity after
    each call, both listeners are detached and nothing is pending; after
    only N-1 of the unsubscribe calls both listeners are still attached. *)
Theorem listeners_attached_iff_subscriptions_held :
  (∀ es : list event,
     balanced es = true →
     let s := run init es in
     listenerCount s = Z.of_nat (held es)
     ∧ (listenersAttached s ↔ (0 < listenerCount s)%Z)
     ∧ (isListenerAttached s = true ↔ (0 < listenerCount s)%Z)
     ∧ (listenersDetached s ↔ listenerCount s = 0%Z)
     ∧ (listenerCount s = 0%Z → nothingPending s))
  ∧ (∀ subs unsubs : list (list event),
       Forall (λ a, forallb activity a = true) subs →
       Forall (λ a, forallb activity a = true) unsubs →
       let s := run init (calls Subscribe subs ++ calls Unsubscribe unsubs) in
       (length unsubs = length subs →
        listenersDetached s ∧ nothingPending s)
       ∧ (S (length unsubs) = length subs → listenersAttached s)).
Proof.
  split; [exact balanced_run_state|].
  intros subs unsubs Hsubs Hunsubs s.
  assert (Hshape : length unsubs ≤ length subs →
    balanced (calls Subscribe subs ++ calls Unsubscribe unsubs) = true
    ∧ held (calls Subscribe subs ++ calls Unsubscribe unsubs)
      = length subs - length unsubs).
  { intros Hle. unfold balanced, held.
    destruct (calls_subscribe_held subs Hsubs 0 (calls Unsubscribe unsubs))
      as [-> ->].
    rewrite <- (app_nil_r (calls Unsubscribe unsubs)).
    destruct (calls_unsubscribe_held unsubs Hunsubs (length subs + 0) [])
      as [-> ->]; [lia|].
    cbn. split; [done | lia]. }
  split.
  - intros Hlen. destruct Hshape as [Hbal Hheld]; [lia|].
    destruct (balanced_run_state _ Hbal) as (E1 & _ & _ & E4 & E5).
    fold s in E1, E4, E5. rewrite Hheld in E1.
    assert (E0 : listenerCount s = 0%Z) by lia.
    split; [by apply E4 | by apply E5].
  - intros Hlen. destruct Hshape as [Hbal Hheld]; [lia|].
    destruct (balanced_run_state _ Hbal) as (E1 & E2 & _).
    fold s in E1, E2. rewrite Hheld in E1. apply E2. lia.
Qed.

(** Two consumers, scroll events from both sources while they are mounted,
    then both unmount: the listeners are gone and nothing is pending. *)
Lemma listeners_witness :
  let s := run init (calls Subscribe [[NativeScroll]; [OverlayScroll; Elapse 10]]
                     ++ calls Unsubscribe [[]; [Paint]]) in
  listenersDetached s ∧ nothingPending s.
Proof.
  destruct listeners_attached_iff_subscriptions_held as [_ H].
  apply (H [[NativeScroll]; [OverlayScroll; Elapse 10]] [[]; [Paint]]).
  - repeat constructor.
  - repeat constructor.
  - reflexivity.
Defined.

(** In that run a timer and a frame request were pending when the last
    consumer unmounted. *)
Example last_unsubscribe_cancels :
  let s := run init (calls Subscribe [[NativeScroll]; [OverlayScroll; Elapse 10]]
                     ++ [Unsubscribe]) in
  map_to_list (timers s) = [(1, 150%Z)]
  ∧ elements (frameRequests s) = [1]
  ∧ map_to_list (timers (step s Unsubscribe)) = []
  ∧ elements (frameRequests (step s Unsubscribe)) = [].
Proof. vm_compute. done. Qed.

(** ** Throttling *)

Lemma consistent_at_most_one n s :
  consistent n s → size (frameRequests s) ≤ 1 ∧ size (timers s) ≤ 1.
Proof.
  intros (_ & _ & _ & _ & C5 & _ & _ & C8 & _). split.
  - rewrite C8. destruct (scrollRAF s).
    + by rewrite size_singleton.
    + rewrite size_empty. lia.
  - destruct (scrollTimeout s) as [id|] eqn:Hst.
    + destruct (timers s !! id) as [dl|] eqn:Hid.
      * assert (Htm : timers s = {[ id := dl ]}).
        { apply map_eq. intros i. destruct (decide (i = id)) as [-> | Hne].
          - by rewrite lookup_singleton_eq.
          - rewrite lookup_singleton_ne by done.
            destruct (timers s !! i) as [x|] eqn:Hi; [|done].
            specialize (C5 i x Hi). congruence. }
        by rewrite Htm, map_size_singleton.
      * assert (Htm : timers s = ∅).
        { apply map_empty. intros i.
          destruct (timers s !! i) as [x|] eqn:Hi; [|done].
          specialize (C5 i x Hi). congruence. }
        rewrite Htm, map_size_empty. lia.
    + assert (Htm : timers s = ∅).
      { apply map_empty. intros i.
        destruct (timers s !! i) as [x|] eqn:Hi; [|done].
        specialize (C5 i x Hi). congruence. }
      rewrite Htm, map_size_empty. lia.
Qed.

Lemma step_scroll_attached n s e :
  consistent n s → isListenerAttached s = true →
  e = NativeScroll ∨ e = OverlayScroll →
  step s e = handleScrollEvent s.
Proof.
  intros (_ & _ & C3 & C4 & _) Hatt [-> | ->]; cbn.
  - unfold nativeScroll. by rewrite C3, Hatt.
  - unfold overlayScroll. by rewrite C4, Hatt.
Qed.

(** C3, as stated, fails for an event that arrives while a frame request
    is pending.  A consumer is subscribed; a native scroll event at time 0
    starts the idle timer (deadline 150) and requests a frame; 5 ms later,
    before the paint, the scrollbar library reports a scroll.  The second
    event changes nothing: the deadline stays at 150 instead of moving to
    155, and the boolean falls 145 ms after the last event.  It also fails
    when the frame is painted only after the timer has fired: the boolean
    is then set to true with no timer left, and 150 ms and more without an
    event do not make it false. *)
Lemma coalesced_event_does_not_reset_idle_timer :
  let s := run init [Subscribe; NativeScroll; Elapse 5] in
  isListenerAttached s = true
  ∧ now s = 5%Z
  ∧ timers s !! 1 = Some 150%Z
  ∧ timers (step s OverlayScroll) !! 1 = Some 150%Z
  ∧ timers (step s OverlayScroll) !! 1 ≠ Some (now s + 150)%Z
  ∧ isScrolling (run s [OverlayScroll; Paint; Elapse 144]) = true
  ∧ isScrolling (run s [OverlayScroll; Paint; Elapse 145]) = false
  ∧ isScrolling (run s [Elapse 145; Paint; Elapse 100000]) = true.
Proof. vm_compute. split_and!; try reflexivity. discriminate. Qed.

(** What the passing of time and a paint do, field by field. *)
Lemma elapse_fields dt s :
  let t := (now s + Z.of_N dt)%Z in
  let s' := elapse dt s in
  now s' = t
  ∧ timers s' = not_due t (timers s)
  ∧ isScrolling s'
    = (if size (due t (timers s)) =? 0 then isScrolling s else false)
  ∧ scrollTimeout s' = scrollTimeout s
  ∧ scrollRAF s' = scrollRAF s
  ∧ frameRequests s' = frameRequests s
  ∧ isListenerAttached s' = isListenerAttached s
  ∧ nextTimer s' = nextTimer s.
Proof.
  cbv zeta. unfold elapse.
  destruct (size (due (now s + Z.of_N dt) (timers s))) as [|k]; [done|].
  change (Nat.iter (S k) idleTimeout ?x)
    with (idleTimeout (Nat.iter k idleTimeout x)).
  match goal with
  | |- context [Nat.iter k idleTimeout ?x] =>
      destruct (iter_idleTimeout k x) as [-> | ->]
  end; done.
Qed.

Lemma paint_fields s id :
  frameRequests s = {[ id ]} →
  let s' := paint s in
  isScrolling s' = true
  ∧ scrollRAF s' = None
  ∧ frameRequests s' = ∅
  ∧ timers s' = timers s
  ∧ now s' = now s
  ∧ scrollTimeout s' = scrollTimeout s
  ∧ isListenerAttached s' = isListenerAttached s
  ∧ nextTimer s' = nextTimer s.
Proof. intros Hfr. unfold paint. rewrite Hfr, size_singleton. done. Qed.

Lemma due_singleton_size t (id : nat) (dl : Z) :
  size (due t ({[ id := dl ]} : timer_table)) = (if (dl <=? t)%Z then 1 else 0)
  ∧ not_due t ({[ id := dl ]} : timer_table)
    = (if (dl <=? t)%Z then ∅ else {[ id := dl ]}).
Proof.
  destruct (dl <=? t)%Z eqn:Hdue.
  - apply Z.leb_le in Hdue.
    rewrite due_all, not_due_none, map_size_singleton; [done | |];
      intros i x [_ <-]%lookup_singleton_Some; lia.
  - apply Z.leb_gt in Hdue.
    rewrite due_none, not_due_all, map_size_empty; [done | |];
      intros i x [_ <-]%lookup_singleton_Some; lia.
Qed.

(** C3, amended.  While the listeners are attached (balanced use), an
    event from either source is handled by the throttled producer, and the
    throttle is the pending animation-frame request: [scrollRAF] is set
    exactly while the host holds a request.
    - If a request is pending, the event is dropped whole: nothing is
      scheduled and the idle timer is not restarted.
    - If none is pending, the producer requests one frame, cancels the
      previous idle timer and starts a new one that is due 150 ms later;
      the boolean itself is not written by the event.
    With no further event, what follows depends on the order of the paint
    and of the timer.  If the paint comes within the 150 ms, it sets the
    boolean to true and releases the throttle, so that the next event is
    accepted and restarts the timer; the boolean is then false again
    exactly when 150 ms have passed since the event.  If the timer fires
    before the paint, the boolean is false until the paint, which sets it
    to true with nothing left pending to reset it: it stays true however
    much time passes.
    At most one request and at most one idle timer are pending at any
    time. *)
Theorem scroll_event_throttled_per_frame :
  ∀ (es : list event) (e : event),
    balanced es = true →
    e = NativeScroll ∨ e = OverlayScroll →
    let s := run init es in
    isListenerAttached s = true →
    (scrollRAF s = None ↔ frameRequests s = ∅)
    ∧ (frameRequests s ≠ ∅ → step s e = s)
    ∧ (frameRequests s = ∅ →
       let s' := step s e in
       frameRequests s' = {[ nextFrame s ]}
       ∧ timers s' = {[ nextTimer s := (now s + 150)%Z ]}
       ∧ isScrolling s' = isScrolling s
       ∧ (∀ d1 d2 : N,
            (Z.of_N d1 < 150)%Z →
            let s1 := run s' [Elapse d1; Paint] in
            isScrolling s1 = true
            ∧ frameRequests s1 = ∅
            ∧ timers s1 = {[ nextTimer s := (now s + 150)%Z ]}
            ∧ timers (step s1 e)
              = {[ nextTimer s1 := (now s + Z.of_N d1 + 150)%Z ]}
            ∧ isScrolling (step s1 (Elapse d2))
              = bool_decide (Z.of_N d1 + Z.of_N d2 < 150)%Z)
       ∧ (∀ d1 d2 : N,
            (150 ≤ Z.of_N d1)%Z →
            let s1 := run s' [Elapse d1; Paint] in
            isScrolling (step s' (Elapse d1)) = false
            ∧ isScrolling s1 = true
            ∧ nothingPending s1
            ∧ isScrolling (step s1 (Elapse d2)) = true))
    ∧ size (frameRequests s) ≤ 1
    ∧ size (timers s) ≤ 1.
Proof.
  intros es e Hbal He s Hatt.
  pose proof (run_consistent es 0 init init_consistent Hbal) as Hc.
  fold s in Hc. change (held_from 0 es) with (held es) in Hc.
  assert (Hn : 0 < held es).
  { destruct Hc as (_ & C2 & _). rewrite Hatt in C2.
    destruct (held es); [discriminate | lia]. }
  assert (Hthrottle : scrollRAF s = None ↔ frameRequests s = ∅).
  { destruct Hc as (_ & _ & _ & _ & _ & _ & _ & C8 & _). rewrite C8.
    destruct (scrollRAF s) as [id|]; [|done].
    split; [done | intros Hempty].
    assert (Hin : id ∈ ({[ id ]} : gset nat)) by by apply elem_of_singleton.
    rewrite Hempty in Hin. by apply not_elem_of_empty in Hin. }
  rewrite (step_scroll_attached _ s e Hc Hatt He).
  destruct (consistent_at_most_one _ s Hc) as [Hfr Htm].
  split_and!; try done.
  { intros Hpending. apply handleScrollEvent_coalesced.
    intros Hraf. by apply Hpending, Hthrottle. }
  intros Hraf%Hthrottle.
  pose proof (handleScrollEvent_fresh _ s Hc Hraf)
    as (E1 & E2 & E3 & E4 & E5 & E6 & E7 & _ & E9 & _).
  pose proof (handleScrollEvent_consistent _ s Hc Hn) as Hc'.
  set (s' := handleScrollEvent s) in *. cbv zeta.
  split_and!; try done.
  - (* the paint comes first *)
    intros d1 d2 Hd1.
    change (run s' [Elapse d1; Paint]) with (paint (elapse d1 s')).
    pose proof (elapse_fields d1 s') as (L1 & L2 & L3 & L4 & L5 & L6 & L7 & L8).
    cbv zeta in L1, L2, L3.
    destruct (due_singleton_size (now s' + Z.of_N d1) (nextTimer s)
                (now s + 150)) as [D1 D2].
    rewrite E4, D1, D2 in *. rewrite E7 in *.
    assert (Hlater : (now s + 150 <=? now s + Z.of_N d1)%Z = false)
      by (apply Z.leb_gt; lia).
    rewrite Hlater in *. cbn [Nat.eqb] in L3.
    pose proof (elapse_consistent _ d1 s' Hc') as Hc1.
    set (s1 := elapse d1 s') in *.
    assert (Hreq : frameRequests s1 = {[ nextFrame s ]}) by by rewrite L6.
    pose proof (paint_fields s1 _ Hreq) as (P1 & P2 & P3 & P4 & P5 & P6 & P7 & P8).
    cbv zeta in P1.
    pose proof (paint_consistent _ s1 Hc1) as Hc2.
    set (s2 := paint s1) in *.
    assert (Hatt2 : isListenerAttached s2 = true) by by rewrite P7, L7, E9.
    split_and!; try done.
    + by rewrite P4, L2.
    + rewrite (step_scroll_attached _ s2 e Hc2 Hatt2 He).
      pose proof (handleScrollEvent_fresh _ s2 Hc2 P2) as (_ & _ & _ & F4 & _).
      by rewrite F4, P5, L1, P8.
    + cbn [step].
      pose proof (elapse_fields d2 s2) as (_ & _ & M3 & _).
      cbv zeta in M3. rewrite M3, P4, L2, P5, L1, P1.
      destruct (due_singleton_size (now s + Z.of_N d1 + Z.of_N d2)
                  (nextTimer s) (now s + 150)) as [-> _].
      case_bool_decide as Hdt.
      * assert ((now s + 150 <=? now s + Z.of_N d1 + Z.of_N d2)%Z = false)
          as -> by (apply Z.leb_gt; lia).
        done.
      * assert ((now s + 150 <=? now s + Z.of_N d1 + Z.of_N d2)%Z = true)
          as -> by (apply Z.leb_le; lia).
        done.
  - (* the timer fires first *)
    intros d1 d2 Hd1.
    change (run s' [Elapse d1; Paint]) with (paint (elapse d1 s')).
    cbn [step].
    pose proof (elapse_fields d1 s') as (L1 & L2 & L3 & L4 & L5 & L6 & L7 & L8).
    cbv zeta in L1, L2, L3.
    destruct (due_singleton_size (now s' + Z.of_N d1) (nextTimer s)
                (now s + 150)) as [D1 D2].
    rewrite E4, D1, D2 in *. rewrite E7 in *.
    assert (Hdue : (now s + 150 <=? now s + Z.of_N d1)%Z = true)
      by (apply Z.leb_le; lia).
    rewrite Hdue in *. cbn [Nat.eqb] in L3.
    set (s1 := elapse d1 s') in *.
    assert (Hreq : frameRequests s1 = {[ nextFrame s ]}) by by rewrite L6.
    pose proof (paint_fields s1 _ Hreq) as (P1 & P2 & P3 & P4 & P5 & P6 & P7 & P8).
    cbv zeta in P1.
    set (s2 := paint s1) in *.
    split_and!; try done.
    + split; [by rewrite P4, L2 | done].
    + pose proof (elapse_fields d2 s2) as (_ & _ & M3 & _).
      cbv zeta in M3. rewrite M3, P4, L2, due_empty, map_size_empty. done.
Qed.

(** A consumer subscribes and the page scrolls once.  Painted at once, the
    boolean is true for 150 ms and false afterwards; painted only after the
    timer has fired, it is true and stays so. *)
Lemma scroll_event_throttled_witness :
  let s := run init [Subscribe] in
  frameRequests (step s NativeScroll) = {[ 1 ]}
  ∧ timers (step s NativeScroll) = {[ 1 := 150%Z ]}
  ∧ isScrolling (run s [NativeScroll; Elapse 0; Paint; Elapse 149]) = true
  ∧ isScrolling (run s [NativeScroll; Elapse 0; Paint; Elapse 150]) = false
  ∧ isScrolling (run s [NativeScroll; Elapse 150]) = false
  ∧ isScrolling (run s [NativeScroll; Elapse 150; Paint; Elapse 100000])
    = true.
Proof.
  destruct (scroll_event_throttled_per_frame [Subscribe] NativeScroll)
    as (_ & _ & Hfresh & _); [reflexivity | by left | reflexivity |].
  destruct Hfresh as (Hfr & Htm & _ & Hearly & Hlate); [reflexivity|].
  destruct (Hearly 0%N 149%N) as (_ & _ & _ & _ & H149); [reflexivity|].
  destruct (Hearly 0%N 150%N) as (_ & _ & _ & _ & H150); [reflexivity|].
  destruct (Hlate 150%N 100000%N) as (Hfalse & _ & _ & Hstuck); [done|].
  split_and!.
  - exact Hfr.
  - exact Htm.
  - exact H149.
  - exact H150.
  - exact Hfalse.
  - exact Hstuck.
Defined.

End ScrollStateProperties.

(** * Properties of the DPR controller and of the scrolling marker *)

Module DPRProperties.

Import DPRPerformanceFix.

Lemma injected_remove el d :
  injected (remove el d) = filter (λ x, node x ≠ node el) (injected d).
Proof.
  unfold injected, remove. cbn. rewrite !list_filter_filter.
  apply list_filter_iff. intros x. tauto.
Qed.

Lemma injected_head_appendChild el d :
  injected (head_appendChild el d)
  = filter (λ x, node x ≠ node el) (injected d)
    ++ (if decide (id el = style_id) then [el] else []).
Proof.
  unfold injected, head_appendChild. cbn.
  rewrite filter_app, filter_singleton by exact [].
  f_equal. rewrite !list_filter_filter.
  apply list_filter_iff. intros x. tauto.
Qed.

Lemma injected_createElement tag d :
  injected (createElement tag d).2 = injected d.
Proof. reflexivity. Qed.

Lemma injected_set_nextNode n d : injected (set_nextNode n d) = injected d.
Proof. reflexivity. Qed.

(** Removing the element the ref names leaves no injected element. *)
Lemma injected_after_remove r d :
  tracks_injected r d →
  injected (match styleElement r with
            | Some el => remove el d
            | None => d
            end) = [].
Proof.
  unfold tracks_injected. destruct (styleElement r) as [el|]; [|done].
  rewrite injected_remove. intros [-> | ->]; [done|].
  rewrite filter_singleton by exact []. by case_decide.
Qed.

(** What one invocation of [injectOptimizationCSS] leaves behind. *)
Lemma injectOptimizationCSS_spec r d :
  tracks_injected r d →
  let r' := (injectOptimizationCSS r d).1 in
  let d' := (injectOptimizationCSS r d).2 in
  tracks_injected r' d'
  ∧ currentDPR r' = currentDPR r
  ∧ body_classList d' = body_classList d ∧ cards d' = cards d
  ∧ injected d'
    = if isDPR1 r then
        [ {| node := nextNode d; tagName := "style"; id := style_id;
             textContent := css_dpr1 |} ]
      else if isLowDPR r then
        [ {| node := nextNode d; tagName := "style"; id := style_id;
             textContent := css_lowDPR |} ]
      else [].
Proof.
  intros Htr. pose proof (injected_after_remove r d Htr) as Hgone.
  unfold injectOptimizationCSS.
  set (d1 := match styleElement r with
             | Some el => remove el d
             | None => d
             end) in *.
  assert (Hnode : nextNode d1 = nextNode d)
    by (subst d1; by destruct (styleElement r)).
  assert (Hbody : body_classList d1 = body_classList d)
    by (subst d1; by destruct (styleElement r)).
  assert (Hcards : cards d1 = cards d)
    by (subst d1; by destruct (styleElement r)).
  cbn -[head_appendChild injected isDPR1 isLowDPR]. rewrite Hnode.
  destruct (isDPR1 r); [|destruct (isLowDPR r)];
    cbn -[head_appendChild injected].
  - unfold tracks_injected. cbn -[head_appendChild injected].
    rewrite injected_head_appendChild, injected_set_nextNode, Hgone. cbn.
    split_and!; try done. by right.
  - unfold tracks_injected. cbn -[head_appendChild injected].
    rewrite injected_head_appendChild, injected_set_nextNode, Hgone. cbn.
    split_and!; try done. by right.
  - unfold tracks_injected. rewrite injected_set_nextNode, Hgone.
    split_and!; try done. destruct (styleElement r); [by left | done].
Qed.

Lemma step_tracks_injected s e :
  tracks_injected s.1 s.2 → tracks_injected (step s e).1 (step s e).2.
Proof.
  destruct s as [r d]. intros Htr. cbn [fst snd] in Htr.
  destruct e as [| | dpr |]; unfold step; cbn [fst snd].
  - unfold watchEffect_body.
    destruct (JS.truthy (currentDPR r)); [|exact Htr].
    by apply injectOptimizationCSS_spec.
  - by apply injectOptimizationCSS_spec.
  - unfold handleChange. by apply injectOptimizationCSS_spec.
  - pose proof (injected_after_remove r d Htr) as Hgone.
    unfold cleanup, tracks_injected in *.
    destruct (styleElement r) as [el|] eqn:Hel; cbn [fst snd styleElement].
    + exact Hgone.
    + rewrite Hel. exact Hgone.
Qed.

Lemma run_tracks_injected es :
  ∀ s, tracks_injected s.1 s.2 →
       tracks_injected (run s es).1 (run s es).2.
Proof.
  induction es as [|e es IH]; intros s Htr; [done|].
  change (run s (e :: es)) with (run (step s e) es).
  apply IH. by apply step_tracks_injected.
Qed.

Lemma tracks_injected_at_most_one r d :
  tracks_injected r d → length (injected d) ≤ 1.
Proof.
  unfold tracks_injected.
  destruct (styleElement r); [intros [-> | ->] | intros ->]; cbn; lia.
Qed.

(** ** The injected stylesheet *)

(** What the two rule sets say. *)
Lemma rule_sets :
  (flat_map declarations css_dpr1
   = [("transition", "none !important"); ("animation", "none !important")]
   ∧ under_scrolling_marker css_dpr1 = true
   ∧ promotes_layer css_dpr1 = false)
  ∧ (flat_map declarations css_lowDPR = [("transition", "none !important")]
     ∧ under_scrolling_marker css_lowDPR = true
     ∧ promotes_layer css_lowDPR = false).
Proof. vm_compute. done. Qed.

(** The rules of the earlier version did promote the container. *)
Remark legacy_rule_set_promotes_layer :
  promotes_layer Legacy.css_dpr1 = true
  ∧ under_scrolling_marker Legacy.css_dpr1 = false.
Proof. vm_compute. done. Qed.

(** C7.  The aggressive rule set does not do what the claim, the header
    comment of the file (CSS rules that force GPU layer compositing) and
    the rule set of the earlier version say: at DPR 1.0 the stylesheet that
    is injected only switches transitions and animations off under the
    scrolling marker; no rule of it promotes the container to a compositing
    layer, while the earlier rule set did. *)
Lemma dpr1_stylesheet_promotes_no_layer :
  let s := run (setup 1.0%float, blank_document 0) [RunEffect; Mounted] in
  isDPR1 s.1 = true
  ∧ (∃ el, injected s.2 = [el]
           ∧ id el = style_id
           ∧ textContent el = css_dpr1
           ∧ declares "transition" (textContent el) = true
           ∧ declares "animation" (textContent el) = true
           ∧ declares "transform" (textContent el) = false
           ∧ declares "will-change" (textContent el) = false
           ∧ promotes_layer (textContent el) = false)
  ∧ promotes_layer Legacy.css_dpr1 = true.
Proof.
  split; [reflexivity|]. split; [|reflexivity].
  eexists. split; [vm_compute; reflexivity|]. vm_compute. done.
Qed.

(** What the injection does establish.  Start from a document that holds
    no element with the controller's id and let the instance live through
    any sequence of effect runs, mounts, DPR changes and unmounts.  At
    every moment
    [<head>] holds at most one element with that id.  After an invocation
    of [injectOptimizationCSS], with [isLowDPR = dpr <= 1.25] and
    [isDPR1 = |dpr - 1.0| < 0.01]: if [isDPR1], exactly one such element is
    present, the fresh one, and it carries the aggressive rule set, which
    under the scrolling marker switches off transitions and animations of
    the container and of its descendants (and promotes nothing to a
    compositing layer); else if [isLowDPR], exactly one is present and it
    carries the lighter rule set, which only switches off transitions of
    the container under the marker; else none is present, a previously
    injected one having been removed. *)
Theorem stylesheet_injection_by_dpr_class :
  ∀ (dpr : JS.number) (d0 : dom) (es : list event),
    injected d0 = [] →
    let s := run (setup dpr, d0) es in
    let r' := (injectOptimizationCSS s.1 s.2).1 in
    let d' := (injectOptimizationCSS s.1 s.2).2 in
    isLowDPR s.1 = PrimFloat.leb (currentDPR s.1) 1.25%float
    ∧ isDPR1 s.1
      = PrimFloat.ltb (PrimFloat.abs (currentDPR s.1 - 1.0)%float)
          0x1.47ae147ae147bp-7%float
    ∧ length (injected s.2) ≤ 1
    ∧ length (injected d') ≤ 1
    ∧ (isDPR1 s.1 = true →
       ∃ el, injected d' = [el] ∧ node el = nextNode s.2
             ∧ textContent el = css_dpr1)
    ∧ (isDPR1 s.1 = false → isLowDPR s.1 = true →
       ∃ el, injected d' = [el] ∧ node el = nextNode s.2
             ∧ textContent el = css_lowDPR)
    ∧ (isDPR1 s.1 = false → isLowDPR s.1 = false → injected d' = [])
    ∧ flat_map declarations css_dpr1
      = [("transition", "none !important"); ("animation", "none !important")]
    ∧ flat_map declarations css_lowDPR = [("transition", "none !important")]
    ∧ under_scrolling_marker css_dpr1 = true
    ∧ under_scrolling_marker css_lowDPR = true.
Proof.
  intros dpr d0 es Hnone s r' d'.
  assert (Htr : tracks_injected s.1 s.2).
  { apply run_tracks_injected. exact Hnone. }
  pose proof (injectOptimizationCSS_spec s.1 s.2 Htr)
    as (Htr' & _ & _ & _ & Hinj).
  fold r' d' in Htr', Hinj.
  destruct rule_sets as ((R1 & R2 & _) & (R3 & R4 & _)).
  split_and!; try done.
  - by apply (tracks_injected_at_most_one s.1).
  - by apply (tracks_injected_at_most_one r').
  - intros H1. rewrite H1 in Hinj. eexists. split; [exact Hinj | done].
  - intros H1 H2. rewrite H1, H2 in Hinj.
    eexists. split; [exact Hinj | done].
  - intros H1 H2. by rewrite H1, H2 in Hinj.
Qed.

(** At DPR 1.25, mounting again after the effect ran leaves one
    stylesheet, the lighter one. *)
Lemma stylesheet_injection_witness :
  let s := run (setup 1.25%float, blank_document 3) [RunEffect] in
  ∃ el, injected (injectOptimizationCSS s.1 s.2).2 = [el]
        ∧ textContent el = css_lowDPR.
Proof.
  pose proof (stylesheet_injection_by_dpr_class
                1.25%float (blank_document 3) [RunEffect] eq_refl)
    as (_ & _ & _ & _ & _ & Hlow & _).
  destruct Hlow as (el & Hel & _ & Hcss); [reflexivity | reflexivity |].
  exists el. split; [exact Hel | exact Hcss].
Defined.

(** ** The scrolling marker *)

(** C8.  When the shared boolean changes, in either direction, the watcher
    issues exactly one write to the DOM, adding the class
    [bewly-scrolling] to [<body>] or removing it, whatever the number of
    cards; afterwards the class is present exactly when the new value is
    true, the other classes of [<body>], the children of [<head>] and the
    attributes of every card are as before. *)
Theorem scrolling_marker_toggled_with_one_write :
  ∀ (old new : bool) (d : dom),
    old ≠ new →
    let d' := watch_isScrolling old new d in
    writes d'
    = writes d ++ [ if new then BodyClassListAdd "bewly-scrolling"
                    else BodyClassListRemove "bewly-scrolling" ]
    ∧ length (writes d') = S (length (writes d))
    ∧ cards d' = cards d
    ∧ head d' = head d
    ∧ ("bewly-scrolling" ∈ body_classList d' ↔ new = true)
    ∧ (∀ c, c ≠ "bewly-scrolling" →
            (c ∈ body_classList d' ↔ c ∈ body_classList d)).
Proof.
  intros old new d Hne. unfold watch_isScrolling.
  rewrite bool_decide_eq_false_2 by done.
  unfold onScrollingChange, body_classList_add, body_classList_remove,
    scrolling_class.
  destruct new; cbn.
  - rewrite length_app. cbn. split_and!; try done; try lia.
    + split; [done | intros _].
      case_bool_decide; [done|]. apply elem_of_app. right. by left.
    + intros c Hc. case_bool_decide; [done|].
      rewrite elem_of_app, list_elem_of_singleton.
      split; [intros [? | ?]; [done | congruence] | by left].
  - rewrite length_app. cbn. split_and!; try done; try lia.
    + rewrite list_elem_of_filter. split; [intros [? _]; done | done].
    + intros c Hc. rewrite list_elem_of_filter.
      split; [by intros [_ ?] | by split].
Qed.

(** Scrolling starts on a page of 40 cards: one write. *)
Lemma scrolling_marker_witness :
  writes (watch_isScrolling false true (blank_document 40))
  = [BodyClassListAdd "bewly-scrolling"].
Proof.
  pose proof (scrolling_marker_toggled_with_one_write
                false true (blank_document 40)) as H.
  destruct H as (Hw & _); [discriminate|]. exact Hw.
Defined.

(** The earlier version wrote to every card. *)
Remark legacy_markScrolling_writes_each_card scrolling d :
  length (writes (Legacy.markScrolling scrolling d))
  = length (writes d) + length (cards d).
Proof.
  unfold Legacy.markScrolling. cbn.
  by rewrite length_app, length_map, length_seq.
Qed.

End DPRProperties.

(** * Further properties of the diagnostics controller *)

Module DiagnosticsInvariants.

Import PerformanceDiagnostics DiagnosticsProperties.

(** ** What the calls other than a frame callback leave alone *)

Lemma enable_keeps t w s :
  let s' := enable t w s in
  enabled s' = true
  ∧ frameMetrics s' = frameMetrics s ∧ frameCount s' = frameCount s
  ∧ droppedFrames s' = droppedFrames s ∧ isScrolling s' = isScrolling s
  ∧ scrollTimeout s' = scrollTimeout s ∧ timers s' = timers s
  ∧ now s' = now s ∧ nextTimer s' = nextTimer s.
Proof.
  unfold enable, startFrameMonitoring, logSystemInfo.
  split_conditions; split_and!; congruence.
Qed.

Lemma disable_keeps s :
  let s' := disable s in
  enabled s' = false
  ∧ frameMetrics s' = frameMetrics s ∧ frameCount s' = frameCount s
  ∧ droppedFrames s' = droppedFrames s ∧ isScrolling s' = isScrolling s
  ∧ scrollTimeout s' = scrollTimeout s ∧ timers s' = timers s
  ∧ now s' = now s ∧ nextTimer s' = nextTimer s.
Proof.
  unfold disable, cancelAnimationFrame.
  split_conditions; split_and!; try congruence;
    by destruct (enabled s).
Qed.

Lemma scroll_calls_keep s :
  (enabled (onScrollStart s) = enabled s ∧ rafId (onScrollStart s) = rafId s
   ∧ frameRequest (onScrollStart s) = frameRequest s
   ∧ frameCount (onScrollStart s) = frameCount s
   ∧ droppedFrames (onScrollStart s) = droppedFrames s
   ∧ frameMetrics (onScrollStart s) = frameMetrics s)
  ∧ (enabled (onScrollEnd s) = enabled s ∧ rafId (onScrollEnd s) = rafId s
     ∧ frameRequest (onScrollEnd s) = frameRequest s
     ∧ frameCount (onScrollEnd s) = frameCount s
     ∧ droppedFrames (onScrollEnd s) = droppedFrames s
     ∧ frameMetrics (onScrollEnd s) = frameMetrics s).
Proof.
  unfold onScrollStart, onScrollEnd, clear_scrollTimeout.
  split; split_conditions; split_and!; congruence.
Qed.

Lemma updateGridInfo_keeps c k s :
  let s' := updateGridInfo c k s in
  enabled s' = enabled s ∧ rafId s' = rafId s
  ∧ frameRequest s' = frameRequest s ∧ frameCount s' = frameCount s
  ∧ droppedFrames s' = droppedFrames s ∧ frameMetrics s' = frameMetrics s.
Proof. unfold updateGridInfo. split_conditions; split_and!; congruence. Qed.

Lemma scrollEndTimeout_keeps s :
  let s' := scrollEndTimeout s in
  enabled s' = enabled s ∧ rafId s' = rafId s
  ∧ frameRequest s' = frameRequest s ∧ frameCount s' = frameCount s
  ∧ droppedFrames s' = droppedFrames s.
Proof.
  unfold scrollEndTimeout, printScrollReport.
  split_conditions; split_and!; congruence.
Qed.

Lemma elapse_keeps dt s :
  let s' := elapse dt s in
  enabled s' = enabled s ∧ rafId s' = rafId s
  ∧ frameRequest s' = frameRequest s ∧ frameCount s' = frameCount s
  ∧ droppedFrames s' = droppedFrames s.
Proof.
  unfold elapse.
  generalize (size (due (now s + Z.of_N dt) (timers s))).
  intros n. induction n as [|n (I1 & I2 & I3 & I4 & I5)]; [done|].
  change (Nat.iter (S n) scrollEndTimeout ?x)
    with (scrollEndTimeout (Nat.iter n scrollEndTimeout x)).
  match goal with
  | |- context [scrollEndTimeout ?x] =>
      pose proof (scrollEndTimeout_keeps x) as (K1 & K2 & K3 & K4 & K5)
  end.
  cbv zeta in *. split_and!; congruence.
Qed.

(** ** The frame loop *)

Lemma step_loop_consistent s e :
  loop_consistent s → loop_consistent (step s e).
Proof.
  intros Hs. pose proof Hs as [Hon Hoff].
  destruct e as [t w | | t d | | | c k | dt].
  - (* enable *)
    change (step s (Enable t w)) with (enable t w s).
    destruct (enabled s) eqn:Hen.
    + unfold enable. by rewrite Hen.
    + unfold enable, startFrameMonitoring, logSystemInfo,
        requestAnimationFrame. rewrite Hen. cbn.
      split; [intros _; by eexists | done].
  - (* disable *)
    change (step s Disable) with (disable s).
    destruct (enabled s) eqn:Hen.
    + destruct (Hon eq_refl) as (id & Hraf & Hreq).
      unfold disable, cancelAnimationFrame. rewrite Hen. cbn.
      rewrite Hraf. cbn. rewrite Hreq.
      rewrite decide_True by done. cbn. by split.
    + unfold disable. by rewrite Hen.
  - (* a frame *)
    change (step s (AnimationFrame t d)) with (animationFrame t d s).
    unfold animationFrame. destruct (frameRequest s) as [id|] eqn:Hreq;
      [|done].
    destruct (enabled s) eqn:Hen; [|specialize (Hoff eq_refl); congruence].
    pose proof (measureFrame_enabled t d (set_frameRequest None s) Hen)
      as (_ & _ & _ & _ & _ & _ & Hreq' & Hraf').
    pose proof (measureFrame_preserves t d (set_frameRequest None s))
      as (Hen' & _).
    cbn in Hreq', Hraf', Hen'. split.
    + intros _. by eexists.
    + intros Hdis. congruence.
  - destruct (scroll_calls_keep s) as [(K1 & K2 & K3 & _) _].
    change (step s ScrollStart) with (onScrollStart s).
    unfold loop_consistent. by rewrite K1, K2, K3.
  - destruct (scroll_calls_keep s) as [_ (K1 & K2 & K3 & _)].
    change (step s ScrollEnd) with (onScrollEnd s).
    unfold loop_consistent. by rewrite K1, K2, K3.
  - destruct (updateGridInfo_keeps c k s) as (K1 & K2 & K3 & _).
    change (step s (UpdateGridInfo c k)) with (updateGridInfo c k s).
    unfold loop_consistent. by rewrite K1, K2, K3.
  - destruct (elapse_keeps dt s) as (K1 & K2 & K3 & _).
    change (step s (Elapse dt)) with (elapse dt s).
    unfold loop_consistent. by rewrite K1, K2, K3.
Qed.

Lemma run_loop_consistent es :
  ∀ s, loop_consistent s → loop_consistent (run s es).
Proof.
  induction es as [|e es IH]; intros s Hs; [done|].
  rewrite run_cons. apply IH. by apply step_loop_consistent.
Qed.

Lemma init_loop_consistent : loop_consistent init.
Proof. split; [discriminate | done]. Qed.

(** X1.  After any sequence of events on the fresh object, the frame loop
    is alive exactly while diagnostics is enabled: enabled, one frame
    request is pending and [rafId] names it; disabled, none is pending. *)
Theorem frame_loop_alive_exactly_while_enabled :
  ∀ es : list event,
    let s := run init es in
    (enabled s = true → ∃ id, rafId s = Some id ∧ frameRequest s = Some id)
    ∧ (enabled s = false → frameRequest s = None).
Proof. intros es. apply run_loop_consistent, init_loop_consistent. Qed.

(** Enabled, two frames, disabled: nothing is pending. *)
Lemma frame_loop_witness :
  frameRequest
    (run init [Enable 0%float desktop; AnimationFrame 16%float at_top;
               AnimationFrame 32%float at_top; Disable]) = None.
Proof.
  apply (frame_loop_alive_exactly_while_enabled
           [Enable 0%float desktop; AnimationFrame 16%float at_top;
            AnimationFrame 32%float at_top; Disable]).
  reflexivity.
Defined.

Lemma step_inert_when_disabled s e :
  loop_consistent s → enabled s = false → inert_when_disabled e = true →
  step s e = s.
Proof.
  intros [_ Hoff] Hen He. specialize (Hoff Hen).
  destruct e; try discriminate; cbn.
  - unfold disable. by rewrite Hen.
  - unfold animationFrame. by rewrite Hoff.
  - unfold onScrollStart. by rewrite Hen.
  - unfold onScrollEnd. by rewrite Hen.
Qed.

(** X2.  Once diagnostics is disabled, frame callbacks, [onScrollStart],
    [onScrollEnd] and further [disable] calls change nothing at all, in
    any number and order, until [enable] is called. *)
Theorem disabled_calls_are_inert :
  ∀ (es l : list event),
    enabled (run init es) = false →
    forallb inert_when_disabled l = true →
    run (run init es) l = run init es.
Proof.
  intros es l Hen Hl.
  assert (Hs : loop_consistent (run init es))
    by apply run_loop_consistent, init_loop_consistent.
  induction l as [|e l IH]; [done|].
  cbn in Hl. apply andb_true_iff in Hl as [He Hl].
  rewrite run_cons, step_inert_when_disabled by done. by apply IH.
Qed.

(** After [disable], a scroll gesture and a frame leave no trace. *)
Lemma disabled_calls_witness :
  run (run init [Enable 0%float desktop; Disable])
    [ScrollStart; AnimationFrame 16%float at_top; ScrollEnd]
  = run init [Enable 0%float desktop; Disable].
Proof.
  apply (disabled_calls_are_inert [Enable 0%float desktop; Disable]
           [ScrollStart; AnimationFrame 16%float at_top; ScrollEnd]);
    reflexivity.
Defined.

(** ** The lifetime counters *)

(** A step counts at most as many dropped-frame seconds as frames. *)
Lemma step_counters s e :
  (0 ≤ droppedFrames (step s e) - droppedFrames s
     ≤ frameCount (step s e) - frameCount s)%Z.
Proof.
  destruct e as [t w | | t d | | | c k | dt].
  - change (step s (Enable t w)) with (enable t w s).
    destruct (enable_keeps t w s) as (_ & _ & -> & -> & _). lia.
  - change (step s Disable) with (disable s).
    destruct (disable_keeps s) as (_ & _ & -> & -> & _). lia.
  - change (step s (AnimationFrame t d)) with (animationFrame t d s).
    unfold animationFrame. destruct (frameRequest s); [|lia].
    destruct (enabled s) eqn:Hen.
    + pose proof (measureFrame_enabled t d (set_frameRequest None s) Hen)
        as (Hfc & _ & _ & _ & Hdf & _).
      rewrite Hfc, Hdf. cbn. destruct (_ && _ && _); lia.
    + rewrite measureFrame_disabled by done. cbn. lia.
  - change (step s ScrollStart) with (onScrollStart s).
    destruct (scroll_calls_keep s) as [(_ & _ & _ & -> & -> & _) _]. lia.
  - change (step s ScrollEnd) with (onScrollEnd s).
    destruct (scroll_calls_keep s) as [_ (_ & _ & _ & -> & -> & _)]. lia.
  - change (step s (UpdateGridInfo c k)) with (updateGridInfo c k s).
    destruct (updateGridInfo_keeps c k s) as (_ & _ & _ & -> & -> & _). lia.
  - change (step s (Elapse dt)) with (elapse dt s).
    destruct (elapse_keeps dt s) as (_ & _ & _ & -> & -> ). lia.
Qed.

(** X3.  The lifetime counters are ordered and never go back: at any time
    the number of dropped-frame seconds counted is between 0 and the
    number of frames counted, and no event, [disable] and [enable]
    included, lowers either counter. *)
Theorem droppedFrames_at_most_frameCount :
  ∀ es : list event,
    (0 ≤ droppedFrames (run init es) ≤ frameCount (run init es))%Z
    ∧ ∀ e, (droppedFrames (run init es)
            ≤ droppedFrames (step (run init es) e))%Z
           ∧ (frameCount (run init es)
              ≤ frameCount (step (run init es) e))%Z.
Proof.
  intros es. split.
  - assert (Hgen : ∀ s, (0 ≤ droppedFrames s ≤ frameCount s)%Z →
                        (0 ≤ droppedFrames (run s es)
                           ≤ frameCount (run s es))%Z).
    { induction es as [|e es IH]; intros s Hs; [done|].
      rewrite run_cons. apply IH.
      pose proof (step_counters s e). lia. }
    apply Hgen. cbn. lia.
  - intros e. pose proof (step_counters (run init es) e). lia.
Qed.

(** ** The samples *)

Lemma pushBounded_Forall (P : FrameMetrics → Prop) m buf :
  Forall P buf → P m → Forall P (pushBounded m buf).
Proof.
  intros Hbuf Hm. unfold pushBounded.
  assert (Hall : Forall P (buf ++ [m])) by (apply Forall_app; auto).
  destruct (100 <? length (buf ++ [m])); [|done].
  destruct (buf ++ [m]); [done|]. by apply Forall_cons in Hall as [_ ?].
Qed.

Lemma step_samples s e :
  Forall sample_wellformed (frameMetrics s) →
  Forall sample_wellformed (frameMetrics (step s e)).
Proof.
  intros Hs. destruct e as [t w | | t d | | | c k | dt].
  - change (step s (Enable t w)) with (enable t w s).
    by destruct (enable_keeps t w s) as (_ & -> & _).
  - change (step s Disable) with (disable s).
    by destruct (disable_keeps s) as (_ & -> & _).
  - change (step s (AnimationFrame t d)) with (animationFrame t d s).
    unfold animationFrame. destruct (frameRequest s); [|done].
    destruct (enabled s) eqn:Hen; [|by rewrite measureFrame_disabled].
    rewrite frameMetrics_measureFrame by done. cbn.
    destruct (isScrolling s); [|done]. cbn.
    destruct (PrimFloat.ltb 0%float (t - lastTime s)%float) eqn:Hpos; [|done].
    apply pushBounded_Forall; [done|]. by split.
  - change (step s ScrollStart) with (onScrollStart s).
    by destruct (scroll_calls_keep s) as [(_ & _ & _ & _ & _ & ->) _].
  - change (step s ScrollEnd) with (onScrollEnd s).
    by destruct (scroll_calls_keep s) as [_ (_ & _ & _ & _ & _ & ->)].
  - change (step s (UpdateGridInfo c k)) with (updateGridInfo c k s).
    by destruct (updateGridInfo_keeps c k s) as (_ & _ & _ & _ & _ & ->).
  - change (step s (Elapse dt)) with (elapse dt s). unfold elapse.
    match goal with
    | |- context [Nat.iter ?n scrollEndTimeout ?x] =>
        destruct (frameMetrics_iter_scrollEndTimeout n x) as [-> | ->]
    end; [done | constructor].
Qed.

(** X4.  Every sample that is ever in the buffer has a strictly positive
    frame time and an instantaneous FPS equal to 1000 divided by that frame
    time; in particular no buffered frame time is zero, negative or NaN. *)
Theorem buffered_samples_have_positive_frameTime :
  ∀ es : list event,
    Forall (λ m, PrimFloat.ltb 0%float (frameTime m) = true
                 ∧ fps m = (1000 / frameTime m)%float
                 ∧ PrimFloat.is_nan (frameTime m) = false)
      (frameMetrics (run init es)).
Proof.
  intros es.
  assert (Hwf : Forall sample_wellformed (frameMetrics (run init es))).
  { assert (Hgen : ∀ s, Forall sample_wellformed (frameMetrics s) →
                          Forall sample_wellformed (frameMetrics (run s es))).
    { induction es as [|e es IH]; intros s Hs; [done|].
      rewrite run_cons. apply IH. by apply step_samples. }
    apply Hgen. constructor. }
  eapply Forall_impl; [exact Hwf|].
  intros m [Hpos Hfps]. split_and!; try done.
  destruct (PrimFloat.is_nan (frameTime m)) eqn:Hnan; [|done].
  unfold PrimFloat.is_nan in Hnan. apply negb_true_iff in Hnan.
  pose proof (FloatAxioms.ltb_spec 0%float (frameTime m)) as Hlt.
  pose proof (FloatAxioms.eqb_spec (frameTime m) (frameTime m)) as Heq.
  rewrite Hpos in Hlt. rewrite Hnan in Heq.
  unfold SpecFloat.SFltb in Hlt. unfold SpecFloat.SFeqb in Heq.
  destruct (Prim2SF (frameTime m)) as [sg | sg | | sg mant ex] eqn:Hsf;
    cbn in Hlt, Heq; try discriminate.
  - destruct sg; discriminate.
  - destruct sg; rewrite Z.compare_refl, ?Pos.compare_refl in Heq;
      cbn in Heq; rewrite ?Pos.compare_refl in Heq; discriminate.
Qed.

(** ** Long frames *)

(** A number above 50 is above 0. *)
Lemma above_50_positive (x : JS.number) :
  PrimFloat.ltb 50%float x = true → PrimFloat.ltb 0%float x = true.
Proof.
  rewrite !FloatAxioms.ltb_spec. unfold SpecFloat.SFltb.
  replace (Prim2SF 50%float) with (SpecFloat.S754_finite false 7036874417766400 (-47))
    by (vm_compute; reflexivity).
  replace (Prim2SF 0%float) with (SpecFloat.S754_zero false)
    by (vm_compute; reflexivity).
  destruct (Prim2SF x) as [sg | sg | | sg mant ex]; cbn; try done;
    by destruct sg.
Qed.

Lemma long_frame_warnings_app c1 c2 :
  long_frame_warnings (c1 ++ c2)
  = long_frame_warnings c1 ++ long_frame_warnings c2.
Proof. unfold long_frame_warnings. apply omap_app. Qed.

Lemma long_frame_warnings_window_messages closes scrolling fps ft :
  long_frame_warnings (window_messages closes scrolling fps ft) = [].
Proof.
  unfold window_messages. by destruct closes, scrolling, (fps <? 30)%Z.
Qed.

(** X5.  A frame callback run while diagnostics is enabled writes a
    long-frame warning, carrying the frame time, exactly when a scroll
    gesture is active and the frame time exceeds 50 ms, and then exactly
    one; whether the same callback closes a one-second window, and what
    that window counted, makes no difference. *)
Theorem long_frame_warned_iff_scrolling_and_above_50ms :
  ∀ (s : state) (t : JS.number) (d : Document),
    enabled s = true →
    let ft := (t - lastTime s)%float in
    ∃ delta,
      console (measureFrame t d s) = console s ++ delta
      ∧ long_frame_warnings delta
        = if isScrolling s && PrimFloat.ltb 50%float ft then [ft] else [].
Proof.
  intros s t d Hen. cbv zeta.
  pose proof (measureFrame_enabled t d s Hen) as (_ & _ & _ & _ & _ & Hcon & _).
  eexists. split; [exact Hcon|].
  rewrite long_frame_warnings_app, long_frame_warnings_window_messages.
  unfold sample_messages. cbn.
  destruct (isScrolling s); [|done]. cbn.
  destruct (PrimFloat.ltb 50%float (t - lastTime s)) eqn:Hlong.
  - by rewrite (above_50_positive _ Hlong).
  - by rewrite andb_false_r.
Qed.

(** A 60 ms frame during a scroll gesture. *)
Lemma long_frame_witness :
  ∃ delta,
    console (measureFrame 60%float at_top scrolling_page)
    = console scrolling_page ++ delta
    ∧ long_frame_warnings delta = [60%float].
Proof.
  exact (long_frame_warned_iff_scrolling_and_above_50ms
           scrolling_page 60%float at_top eq_refl).
Defined.

(** ** The end-of-scroll timer *)

Lemma tracked_at_most_one s :
  timers_tracked s →
  timers s = ∅ ∨ ∃ id dl, scrollTimeout s = Some id ∧ timers s = {[ id := dl ]}.
Proof.
  intros (Hsub & _ & _).
  assert (Hnone : (∀ i, timers s !! i = None) → timers s = ∅)
    by (intros H; by apply map_empty).
  destruct (scrollTimeout s) as [id|] eqn:Hst.
  - destruct (timers s !! id) as [dl|] eqn:Hid.
    + right. exists id, dl. split; [done|].
      apply map_eq. intros i. destruct (decide (i = id)) as [-> | Hne].
      * by rewrite lookup_singleton_eq.
      * rewrite lookup_singleton_ne by done.
        destruct (timers s !! i) as [x|] eqn:Hi; [|done].
        specialize (Hsub i x Hi). congruence.
    + left. apply Hnone. intros i.
      destruct (timers s !! i) as [x|] eqn:Hi; [|done].
      specialize (Hsub i x Hi). congruence.
  - left. apply Hnone. intros i.
    destruct (timers s !! i) as [x|] eqn:Hi; [|done].
    specialize (Hsub i x Hi). congruence.
Qed.

(** X6.  At any time at most one end-of-scroll timer is pending, and it is
    the one whose handle [scrollTimeout] holds: no sequence of
    [onScrollStart] and [onScrollEnd] calls piles timers up. *)
Theorem at_most_one_scroll_end_timer :
  ∀ es : list event,
    let s := run init es in
    size (timers s) ≤ 1
    ∧ ∀ id dl, timers s !! id = Some dl → scrollTimeout s = Some id.
Proof.
  intros es s.
  assert (Htr : timers_tracked s) by apply run_tracked, init_tracked.
  split; [|apply Htr].
  destruct (tracked_at_most_one s Htr) as [-> | (id & dl & _ & ->)].
  - rewrite map_size_empty. lia.
  - by rewrite map_size_singleton.
Qed.

Lemma onScrollEnd_sets_timer s :
  enabled s = true → timers_tracked s →
  let s' := onScrollEnd s in
  timers s' = {[ nextTimer s := (now s + 200)%Z ]}
  ∧ now s' = now s ∧ console s' = console s
  ∧ isScrolling s' = isScrolling s ∧ enabled s' = true
  ∧ frameMetrics s' = frameMetrics s.
Proof.
  intros Hen Htr. pose proof Htr as (Hsub & Hpos & _).
  unfold onScrollEnd. rewrite Hen. cbn.
  assert (Hgone : timers (clear_scrollTimeout s) = ∅).
  { apply map_empty. intros i.
    destruct (timers (clear_scrollTimeout s) !! i) as [dl|] eqn:Hi; [|done].
    exfalso. revert Hi. unfold clear_scrollTimeout.
    destruct (scrollTimeout s) as [[|old]|] eqn:Hold; cbn.
    - specialize (Hpos 0 eq_refl). lia.
    - intros [Hne Hin]%lookup_delete_Some.
      specialize (Hsub i dl Hin). congruence.
    - intros Hin. specialize (Hsub i dl Hin). congruence. }
  destruct (clear_scrollTimeout_fields s) as (_ & Hnt & _).
  rewrite Hgone, insert_empty, Hnt.
  unfold clear_scrollTimeout.
  destruct (scrollTimeout s) as [[|old]|]; cbn; split_and!; done.
Qed.

(** X7.  [disable] does not cancel the end-of-scroll timer.  If
    diagnostics is disabled after [onScrollEnd] and before the 200 ms are
    over, the timer still fires: the active flag is cleared, the end of the
    scroll is logged, the report is printed if the buffer holds a sample,
    and the buffer is emptied, all while diagnostics is disabled. *)
Theorem scroll_end_timer_survives_disable :
  ∀ (es : list event) (dt : N),
    let s := run init es in
    enabled s = true → (200 ≤ Z.of_N dt)%Z →
    let s' := run s [ScrollEnd; Disable; Elapse dt] in
    enabled s' = false
    ∧ isScrolling s' = false
    ∧ frameMetrics s' = []
    ∧ scroll_ends (console s') = S (scroll_ends (console s))
    ∧ reports (console s')
      = reports (console s) + reports_of (frameMetrics s).
Proof.
  intros es dt s Hen Hdt.
  assert (Htr : timers_tracked s) by apply run_tracked, init_tracked.
  cbv zeta. rewrite !run_cons.
  change (step s ScrollEnd) with (onScrollEnd s).
  destruct (onScrollEnd_sets_timer s Hen Htr) as (A1 & A2 & A3 & A4 & A5 & A6).
  set (sA := onScrollEnd s) in *.
  change (step sA Disable) with (disable sA).
  destruct (disable_keeps sA) as (B1 & B2 & _ & _ & _ & _ & B7 & B8 & _).
  assert (B9 : console (disable sA) = console sA ++ [(Log, MsgDisabled)]).
  { unfold disable, cancelAnimationFrame. rewrite A5. cbn.
    destruct (rafId sA); [case_decide|]; done. }
  set (sB := disable sA) in *.
  change (run ?x []) with x.
  rewrite (elapse_fires_once sB (nextTimer s) (now s + 200)%Z dt);
    [| congruence | lia].
  match goal with
  | |- context [scrollEndTimeout ?x] =>
      pose proof (scrollEndTimeout_effect x)
        as (F1 & F2 & _ & _ & _ & _ & F3 & F4 & F5)
  end.
  cbn [frameMetrics console enabled set_now set_timers] in F1, F2, F3, F4, F5.
  rewrite B9, reports_app in F4. rewrite B9, scroll_ends_app in F5.
  cbn in F4, F5. rewrite A3 in F4, F5. rewrite B2, A6 in F4.
  split_and!; try done; try congruence; lia.
Qed.

(** A sampled gesture, [onScrollEnd], then [disable]: the report is
    printed 200 ms later all the same. *)
Lemma scroll_end_timer_witness :
  reports
    (console
       (run (run init [Enable 0%float desktop; ScrollStart;
                       AnimationFrame 16%float at_top])
          [ScrollEnd; Disable; Elapse 200])) = 1.
Proof.
  pose proof (scroll_end_timer_survives_disable
                [Enable 0%float desktop; ScrollStart;
                 AnimationFrame 16%float at_top] 200) as H.
  cbv zeta in H.
  destruct H as (_ & _ & _ & _ & Hrep); [reflexivity | discriminate |].
  exact Hrep.
Defined.

(** ** [enable] and [disable] together *)

(** X8.  [enable] and [disable] are idempotent.  Disabling and enabling
    again resets nothing that was collected: the buffer, the two lifetime
    counters, the active flag and the pending end-of-scroll timer are as
    before; only the timing restarts, the previous-frame time and the
    start of the one-second window being the time of the [enable] call and
    the window count 0. *)
Theorem enable_disable_compose :
  ∀ (s : state) (t t' : JS.number) (w w' : Window),
    enable t' w' (enable t w s) = enable t w s
    ∧ disable (disable s) = disable s
    ∧ (let s' := enable t w (disable s) in
       enabled s' = true
       ∧ frameMetrics s' = frameMetrics s ∧ frameCount s' = frameCount s
       ∧ droppedFrames s' = droppedFrames s ∧ isScrolling s' = isScrolling s
       ∧ timers s' = timers s ∧ scrollTimeout s' = scrollTimeout s
       ∧ lastTime s' = t ∧ secondStart s' = t
       ∧ frameCountInSecond s' = 0%Z).
Proof.
  intros s t t' w w'.
  destruct (enable_keeps t w s) as (E1 & _).
  destruct (disable_keeps s) as (D1 & D2 & D3 & D4 & D5 & D6 & D7 & _).
  split_and!.
  - unfold enable at 1. by rewrite E1.
  - unfold disable at 1. by rewrite D1.
  - cbv zeta.
    destruct (enable_keeps t w (disable s))
      as (K1 & K2 & K3 & K4 & K5 & K6 & K7 & _).
    split_and!; try congruence;
      unfold enable, startFrameMonitoring, logSystemInfo,
        requestAnimationFrame; rewrite D1; reflexivity.
Qed.

(** ** Reports after the end of a gesture *)

(** X9.  The end-of-gesture callback consumes the samples: an on-demand
    report generated right after it has all five buffer-derived
    aggregates equal to 0, whatever was sampled during the gesture, while
    its lifetime counters are unchanged; and printing the scroll report a
    second time prints nothing. *)
Theorem report_after_gesture_end_has_zero_aggregates :
  ∀ (w : Window) (s : state),
    generateReport w (scrollEndTimeout s)
    = empty_buffer_report w s
    ∧ printScrollReport (printScrollReport s) = printScrollReport s.
Proof.
  intros w s.
  pose proof (scrollEndTimeout_effect s) as (_ & Hbuf & _).
  pose proof (scrollEndTimeout_keeps s) as (_ & _ & _ & Hfc & Hdf).
  split.
  - unfold generateReport, empty_buffer_report. rewrite Hbuf, Hfc, Hdf.
    cbn. f_equal;
      unfold scrollEndTimeout, printScrollReport; split_conditions; done.
  - unfold printScrollReport at 1.
    by rewrite frameMetrics_printScrollReport.
Qed.

(** ** [measure] *)

(** X10.  [measure(name, fn)] returns what [fn] returns, enabled or not.
    Disabled, it reads no clock and writes nothing.  Enabled, it reads the
    clock twice and writes one warning when the duration exceeds 16 ms,
    one log line when it exceeds 5 ms but not 16 ms, and nothing
    otherwise. *)
Theorem measure_returns_result_and_reports_slow_calls :
  ∀ (T : Type) (name : string) (fn : unit → T) (start stop : JS.number)
    (s : state),
    let duration := (stop - start)%float in
    (measure name fn start stop s).1.1 = fn tt
    ∧ (enabled s = false →
       measure name fn start stop s = (fn tt, None, 0))
    ∧ (enabled s = true →
       (measure name fn start stop s).2 = 2
       ∧ (PrimFloat.ltb 16%float duration = true →
          (measure name fn start stop s).1.2
          = Some (MeasureSlow name duration))
       ∧ (PrimFloat.ltb 16%float duration = false →
          PrimFloat.ltb 5%float duration = true →
          (measure name fn start stop s).1.2
          = Some (MeasureTimed name duration))
       ∧ (PrimFloat.ltb 5%float duration = false →
          (measure name fn start stop s).1.2 = None)).
Proof.
  intros T name fn start stop s. cbv zeta. unfold measure.
  generalize (stop - start)%float. intros duration.
  split_and!.
  - by destruct (enabled s), (PrimFloat.ltb 16%float duration),
      (PrimFloat.ltb 5%float duration).
  - by intros ->.
  - intros ->. cbn. split_and!.
    + by destruct (PrimFloat.ltb 16%float duration),
        (PrimFloat.ltb 5%float duration).
    + by intros ->.
    + by intros -> ->.
    + intros H5.
      destruct (PrimFloat.ltb 16%float duration) eqn:H16; [|by rewrite H5].
      exfalso. revert H16 H5.
      rewrite !FloatAxioms.ltb_spec. unfold SpecFloat.SFltb.
      replace (Prim2SF 16%float)
        with (SpecFloat.S754_finite false 4503599627370496 (-48))
        by (vm_compute; reflexivity).
      replace (Prim2SF 5%float)
        with (SpecFloat.S754_finite false 5629499534213120 (-50))
        by (vm_compute; reflexivity).
      destruct (Prim2SF duration) as [sg | sg | | sg mant ex];
        unfold SpecFloat.SFcompare; try done; destruct sg; try done.
      destruct (Z.compare (-48) ex) eqn:E1, (Z.compare (-50) ex) eqn:E2;
        try done;
        rewrite ?Z.compare_eq_iff, ?Z.compare_lt_iff, ?Z.compare_gt_iff in *;
        lia.
Qed.

(** A 20 ms call while enabled: the result comes back with a warning. *)
Lemma measure_witness :
  measure "layout" (λ _, 7) 100%float 120%float scrolling_page
  = (7, Some (MeasureSlow "layout" 20%float), 2).
Proof.
  pose proof (measure_returns_result_and_reports_slow_calls
                nat "layout" (λ _, 7) 100%float 120%float scrolling_page)
    as (Hres & _ & Hon).
  destruct (Hon eq_refl) as (Hreads & Hslow & _).
  specialize (Hslow eq_refl).
  destruct (measure "layout" (λ _, 7) 100%float 120%float scrolling_page)
    as [[r l] n].
  cbn in Hres, Hreads, Hslow. by subst.
Defined.

(** ** The buffer is a bounded queue *)

(** C1.  From the fresh object and after any sequence of events, before
    and after every frame callback the buffer [frameMetrics] holds at most
    100 samples.  What a callback does to it is decided by the state it
    finds: when diagnostics is enabled, a scroll gesture is active and the
    frame time is positive, the frame's sample is appended at the end, and
    if the buffer was full it is the oldest sample, the head, that leaves
    while all the others keep their order; in every other case the buffer
    is as it was. *)
Theorem frameMetrics_capacity_fifo :
  ∀ (es : list event) (t : JS.number) (d : Document),
    let s := run init es in
    let s' := step s (AnimationFrame t d) in
    let ft := (t - lastTime s)%float in
    let m := sample t ft d in
    let sampled := enabled s && isScrolling s && PrimFloat.ltb 0%float ft in
    length (frameMetrics s) ≤ 100
    ∧ length (frameMetrics s') ≤ 100
    ∧ frameMetrics s'
      = (if sampled
         then if length (frameMetrics s) <? 100
              then frameMetrics s ++ [m]
              else tail (frameMetrics s) ++ [m]
         else frameMetrics s)
    ∧ (sampled = true → length (frameMetrics s) = 100 →
       ∃ oldest rest,
         frameMetrics s = oldest :: rest
         ∧ frameMetrics s' = rest ++ [m]).
Proof.
  intros es t d s s' ft m sampled.
  assert (Hs : length (frameMetrics s) ≤ 100).
  { apply frameMetrics_run_bounded. cbn. lia. }
  assert (Hshape : frameMetrics s'
      = (if sampled
         then if length (frameMetrics s) <? 100
              then frameMetrics s ++ [m]
              else tail (frameMetrics s) ++ [m]
         else frameMetrics s)).
  { subst s' sampled. cbn [step]. unfold animationFrame.
    destruct (run_loop_consistent es init init_loop_consistent)
      as [Hon Hoff].
    fold s in Hon, Hoff.
    destruct (enabled s) eqn:Hen.
    - destruct (Hon eq_refl) as (id & _ & ->).
      rewrite frameMetrics_measureFrame by done. cbn.
      fold ft m. rewrite pushBounded_shape.
      destruct (isScrolling s && PrimFloat.ltb 0%float ft); [|done].
      change (length (frameMetrics s) <=? 99)
        with (length (frameMetrics s) <? 100).
      by destruct (length (frameMetrics s) <? 100).
    - by rewrite (Hoff eq_refl). }
  split_and!; [done|by apply frameMetrics_step_bounded|done|].
  intros Hsampled Hfull. rewrite Hshape, Hsampled.
  destruct (frameMetrics s) as [|oldest rest] eqn:Hbuf; [discriminate|].
  exists oldest, rest. split; [done|].
  assert (Hge : (length (oldest :: rest) <? 100) = false)
    by (apply Nat.ltb_ge; lia).
  by rewrite Hge.
Qed.

(** The 101st frame of a scroll gesture: the buffer was full, and it now
    holds the samples of frames 2 to 101. *)
Lemma frameMetrics_capacity_witness :
  length (frameMetrics (run init full_buffer_trace)) = 100
  ∧ map timestamp
      (frameMetrics (step (run init full_buffer_trace)
                       (AnimationFrame 101%float at_top)))
    = map JS.of_nat (seq 2 100).
Proof.
  destruct (frameMetrics_capacity_fifo full_buffer_trace 101%float at_top)
    as (_ & _ & Hshape & _).
  split; [vm_compute; reflexivity|].
  rewrite Hshape. vm_compute. reflexivity.
Defined.

End DiagnosticsInvariants.

(** * Further properties of the scroll-activity singleton *)

Module ScrollStateEdges.

Import GlobalScrollState ScrollStateProperties.

(** ** Unbalanced use *)

Lemma wired_unsubscribe_detached c s :
  wired false c s → wired false (c - 1) (removeScrollListener s).
Proof.
  intros (W1 & W2 & W3 & W4). unfold removeScrollListener. cbn.
  rewrite W1, andb_false_r. unfold wired. cbn. by rewrite W4.
Qed.

Lemma wired_subscribe b c s :
  wired b c s → wired true (c + 1) (addScrollListener s).
Proof.
  intros (W1 & W2 & W3 & W4). unfold addScrollListener. cbn. rewrite W1.
  destruct b; unfold wired; cbn; rewrite ?W2, ?W3, W4; done.
Qed.

Lemma wired_unsubscribe_attached c s :
  wired true c s →
  wired (bool_decide (1 < c)%Z) (if bool_decide (1 < c)%Z then c - 1 else 0)
    (removeScrollListener s).
Proof.
  intros (W1 & W2 & W3 & W4). unfold removeScrollListener. cbn.
  rewrite W1, W4, andb_true_r.
  case_bool_decide as Hc.
  - assert (Hle : (c - 1 <=? 0)%Z = false) by (apply Z.leb_gt; lia).
    rewrite Hle. unfold wired. cbn. by rewrite W1, W2, W3.
  - assert (Hle : (c - 1 <=? 0)%Z = true) by (apply Z.leb_le; lia).
    rewrite Hle. unfold wired.
    destruct (scrollTimeout s) as [[|t]|] eqn:Ht;
      destruct (scrollRAF s) eqn:Hr;
      repeat (cbn; rewrite ?Ht, ?Hr, ?W3); done.
Qed.

Lemma run_unsubscribes_detached k :
  ∀ c s, wired false c s →
         wired false (c - Z.of_nat k) (run s (replicate k Unsubscribe)).
Proof.
  induction k as [|k IH]; intros c s Hw.
  - cbn. by rewrite Z.sub_0_r.
  - cbn [replicate]. rewrite run_scroll_cons.
    replace (c - Z.of_nat (S k))%Z with (c - 1 - Z.of_nat k)%Z by lia.
    apply IH. by apply wired_unsubscribe_detached.
Qed.

Lemma run_subscribes_attached n :
  ∀ c s, wired true c s →
         wired true (c + Z.of_nat n) (run s (replicate n Subscribe)).
Proof.
  induction n as [|n IH]; intros c s Hw.
  - cbn. by rewrite Z.add_0_r.
  - cbn [replicate]. rewrite run_scroll_cons.
    replace (c + Z.of_nat (S n))%Z with (c + 1 + Z.of_nat n)%Z by lia.
    apply IH. by apply (wired_subscribe true).
Qed.

(** X11.  Unsubscribing more often than subscribing is not absorbed: [k]
    stray [removeScrollListener] calls on the fresh module leave the count
    at [-k].  [n] subscriptions then attach the listeners with a count of
    [n - k] only, so that the very next unsubscription already detaches
    them when [n <= k + 1], although [n - 1] consumers are still
    subscribed; it resets the count to 0.  When [n > k + 1] the listeners
    stay attached. *)
Theorem stray_unsubscribe_detaches_early :
  ∀ k n : nat,
    0 < n →
    let s0 := run init (replicate k Unsubscribe) in
    let s := run s0 (replicate n Subscribe) in
    let s' := step s Unsubscribe in
    (listenersDetached s0 ∧ listenerCount s0 = (- Z.of_nat k)%Z)
    ∧ (listenersAttached s
       ∧ listenerCount s = (Z.of_nat n - Z.of_nat k)%Z)
    ∧ (n ≤ S k → listenersDetached s' ∧ listenerCount s' = 0%Z)
    ∧ (S k < n → listenersAttached s'
                 ∧ listenerCount s' = (Z.of_nat n - Z.of_nat k - 1)%Z).
Proof.
  intros k n Hn s0 s s'.
  assert (W0 : wired false (- Z.of_nat k) s0).
  { replace (- Z.of_nat k)%Z with (0 - Z.of_nat k)%Z by lia.
    by apply run_unsubscribes_detached. }
  assert (W : wired true (Z.of_nat n - Z.of_nat k) s).
  { subst s. destruct n as [|n]; [lia|].
    cbn [replicate]. rewrite run_scroll_cons.
    replace (Z.of_nat (S n) - Z.of_nat k)%Z
      with (- Z.of_nat k + 1 + Z.of_nat n)%Z by lia.
    apply run_subscribes_attached. by apply (wired_subscribe false). }
  pose proof (wired_unsubscribe_attached _ s W) as W'.
  fold s' in W'. change (removeScrollListener s) with s' in W'.
  unfold listenersDetached, listenersAttached.
  destruct W0 as (_ & A2 & A3 & A4). destruct W as (_ & B2 & B3 & B4).
  split_and!; try done.
  - intros Hle. rewrite bool_decide_eq_false_2 in W' by lia.
    by destruct W' as (_ & C2 & C3 & C4).
  - intros Hlt. rewrite bool_decide_eq_true_2 in W' by lia.
    by destruct W' as (_ & C2 & C3 & C4).
Qed.

(** One stray unsubscription, then two consumers: when the first of them
    unmounts the listeners are detached. *)
Lemma stray_unsubscribe_witness :
  listenersDetached
    (run init [Unsubscribe; Subscribe; Subscribe; Unsubscribe]).
Proof.
  destruct (stray_unsubscribe_detaches_early 1 2) as (_ & _ & Hearly & _);
    [lia|].
  destruct Hearly as [Hdet _]; [lia|]. exact Hdet.
Defined.

(** ** After the last unsubscription *)

Lemma removeScrollListener_isScrolling s :
  isScrolling (removeScrollListener s) = isScrolling s.
Proof.
  unfold removeScrollListener. cbn.
  destruct (_ && _); [|done].
  destruct (scrollTimeout s) as [[|t]|] eqn:Ht;
    destruct (scrollRAF s) eqn:Hr;
    repeat (cbn; rewrite ?Ht, ?Hr); done.
Qed.

Lemma step_activity_detached s e :
  consistent 0 s → activity e = true →
  isScrolling (step s e) = isScrolling s.
Proof.
  intros (_ & C2 & C3 & C4 & _ & _ & _ & C8 & C9) He.
  destruct (C9 eq_refl) as [Htm Hraf]. rewrite Hraf in C8.
  rewrite C2 in C3, C4. cbn in C3, C4.
  destruct e; try discriminate; cbn.
  - unfold nativeScroll. by rewrite C3.
  - unfold overlayScroll. by rewrite C4.
  - unfold paint. by rewrite C8, size_empty.
  - unfold elapse. by rewrite Htm, due_empty, map_size_empty.
Qed.

(** X12.  Unsubscribing never touches the shared boolean, and once the
    last consumer has unsubscribed nothing does: scroll events, paints and
    the passing of time leave it at the value it had.  If the consumers
    unmount while it is true, it stays true. *)
Theorem boolean_frozen_while_detached :
  (∀ s, isScrolling (removeScrollListener s) = isScrolling s)
  ∧ ∀ es l : list event,
      balanced es = true → held es = 0 →
      forallb activity l = true →
      isScrolling (run (run init es) l) = isScrolling (run init es).
Proof.
  split; [exact removeScrollListener_isScrolling|].
  intros es l Hbal Hheld Hl.
  pose proof (run_consistent es 0 init init_consistent Hbal) as Hc.
  fold (held es) in Hc. rewrite Hheld in Hc.
  revert Hc. generalize (run init es). intros s Hc.
  induction l as [|e l IH] in s, Hc, Hl |- *; [done|].
  cbn in Hl. apply andb_true_iff in Hl as [He Hl].
  assert (Hc' : consistent 0 (step s e)).
  { replace 0 with (held_after 0 e) at 1 by (by destruct e).
    apply step_consistent; [done|]. intros ->. discriminate. }
  rewrite run_scroll_cons, (IH Hl (step s e)) by done.
  by apply step_activity_detached.
Qed.

(** The consumer unmounts after the paint that set the boolean: a second
    later, and after another scroll, it is still true. *)
Lemma boolean_frozen_witness :
  isScrolling
    (run (run init [Subscribe; NativeScroll; Paint; Unsubscribe])
       [Elapse 1000; NativeScroll; Paint]) = true.
Proof.
  destruct boolean_frozen_while_detached as [_ H].
  rewrite (H [Subscribe; NativeScroll; Paint; Unsubscribe]
             [Elapse 1000; NativeScroll; Paint]); reflexivity.
Defined.

End ScrollStateEdges.

(** * The scrolling marker follows the shared boolean *)

Module MarkerProperties.

Import DPRPerformanceFix ScrollingOptimization.

(** One call of the watcher's callback. *)
Lemma onScrollingChange_marker new d :
  let d' := onScrollingChange new d in
  writes d' = writes d ++ [marker_write new]
  ∧ head d' = head d ∧ cards d' = cards d
  ∧ (scrolling_class ∈ body_classList d' ↔ new = true)
  ∧ (∀ c, c ≠ scrolling_class →
          (c ∈ body_classList d' ↔ c ∈ body_classList d)).
Proof.
  unfold onScrollingChange, body_classList_add, body_classList_remove,
    marker_write.
  destruct new; cbn.
  - split_and!; try done.
    + split; [done | intros _].
      case_bool_decide; [done|]. apply elem_of_app. right. by left.
    + intros c Hc. case_bool_decide; [done|].
      rewrite elem_of_app, list_elem_of_singleton.
      split; [intros [? | ?]; [done | congruence] | by left].
  - split_and!; try done.
    + rewrite list_elem_of_filter. split; [intros [? _]; done | done].
    + intros c Hc. rewrite list_elem_of_filter.
      split; [by intros [_ ?] | by split].
Qed.

(** [k] watchers after a task that left the boolean as it was, and after
    one that changed it. *)
Lemma flush_unchanged k b d : flush k b b d = d.
Proof.
  unfold flush. induction k as [|k IH]; [done|].
  change (Nat.iter (S k) ?f ?x) with (f (Nat.iter k f x)).
  rewrite IH. unfold watch_isScrolling. by rewrite bool_decide_eq_true_2.
Qed.

Lemma flush_changed k old new d :
  old ≠ new →
  let d' := flush k old new d in
  writes d' = writes d ++ replicate k (marker_write new)
  ∧ head d' = head d ∧ cards d' = cards d
  ∧ (0 < k → (scrolling_class ∈ body_classList d' ↔ new = true))
  ∧ (∀ c, c ≠ scrolling_class →
          (c ∈ body_classList d' ↔ c ∈ body_classList d)).
Proof.
  intros Hne. cbv zeta. unfold flush.
  induction k as [|k (I1 & I2 & I3 & I4 & I5)].
  - cbn. rewrite app_nil_r. split_and!; try done. lia.
  - change (Nat.iter (S k) ?f ?x) with (f (Nat.iter k f x)).
    set (dk := Nat.iter k (watch_isScrolling old new) d) in *.
    unfold watch_isScrolling at 1 2 3 4 5.
    rewrite bool_decide_eq_false_2 by done.
    destruct (onScrollingChange_marker new dk) as (W1 & W2 & W3 & W4 & W5).
    rewrite W1, W2, W3, I1, I2, I3.
    split_and!; try done.
    + rewrite <- app_assoc. f_equal.
      change (marker_write new :: replicate k (marker_write new))
        with (replicate (S k) (marker_write new)).
      by rewrite replicate_S_end.
    + intros c Hc. by rewrite (W5 c Hc), (I5 c Hc).
Qed.

Lemma addScrollListener_isScrolling s :
  GlobalScrollState.isScrolling (GlobalScrollState.addScrollListener s)
  = GlobalScrollState.isScrolling s.
Proof.
  unfold GlobalScrollState.addScrollListener. cbn.
  by destruct (GlobalScrollState.isListenerAttached s).
Qed.




(** X24.  The cost of a task on a page with [k] active watchers: if the
    task changes the shared boolean, every watcher issues one write, the
    same [classList] call on [<body>], so [k] writes whatever the number of
    cards, after which (when [k > 0]) the class is present exactly when the
    boolean is true; if it does not, or if no watcher is active, the
    document is not written at all.  In no case are the children of
    [<head>], the attributes of the cards or the other classes of [<body>]
    touched. *)
Theorem marker_written_once_per_watcher_per_transition :
  ∀ (p : page) (ev : event),
    let p' := step p ev in
    let old := GlobalScrollState.isScrolling (scroll p) in
    let new := GlobalScrollState.isScrolling (scroll p') in
    let k := watchers p' in
    k = watchers_after (watchers p) ev
    ∧ writes (document p')
      = writes (document p)
        ++ (if bool_decide (old = new) then []
            else replicate k (marker_write new))
    ∧ (old = new ∨ k = 0 → document p' = document p)
    ∧ (old ≠ new → 0 < k →
       (scrolling_class ∈ body_classList (document p') ↔ new = true))
    ∧ head (document p') = head (document p)
    ∧ cards (document p') = cards (document p)
    ∧ (∀ c, c ≠ scrolling_class →
            (c ∈ body_classList (document p')
             ↔ c ∈ body_classList (document p))).
Proof.
  intros p ev. cbv zeta. cbn [step document scroll watchers].
  set (old := GlobalScrollState.isScrolling (scroll p)).
  set (new := GlobalScrollState.isScrolling
                (GlobalScrollState.step (scroll p) (to_scroll ev))).
  set (k := watchers_after (watchers p) ev).
  split; [done|].
  case_bool_decide as Hsame.
  - rewrite <- Hsame, flush_unchanged, app_nil_r. by split_and!.
  - destruct (flush_changed k old new (document p) Hsame)
      as (F1 & F2 & F3 & F4 & F5).
    split_and!; try done.
    intros [? | Hk]; [done|]. rewrite Hk. done.
Qed.

(** The marker is left behind when the last watcher stops while another
    consumer keeps the shared state alive: a plain consumer subscribes, a
    component with the hook mounts, the page scrolls and is painted, the
    component unmounts, and 150 ms later the boolean is false while
    [<body>] still carries the class. *)
Example marker_left_behind_without_watcher :
  let p := run (init (blank_document 2))
             [Page GlobalScrollState.Subscribe; HookMount;
              Page GlobalScrollState.NativeScroll; Page GlobalScrollState.Paint;
              HookUnmount; Page (GlobalScrollState.Elapse 150)] in
  GlobalScrollState.isScrolling (scroll p) = false
  ∧ body_classList (document p) = [scrolling_class]
  ∧ watchers p = 0.
Proof. vm_compute. done. Qed.

End MarkerProperties.

(** * Further properties of the DPR controller *)

Module DPREdges.

Import DPRPerformanceFix DPRProperties.

Lemma filter_foreign (l : list element) n0 k :
  Forall (λ x, node x < n0) l → n0 ≤ k →
  filter (λ x, node x ≠ k) l = l.
Proof.
  intros Hl Hk. induction Hl as [|x l Hx _ IH]; [done|].
  rewrite filter_cons_True by lia. by rewrite IH.
Qed.

Lemma remove_keeps_to_itself d0 r d :
  Forall (λ x, node x < nextNode d0) (head d0) →
  tracks_injected r d → keeps_to_itself d0 r d →
  let d1 := match styleElement r with
            | Some el => remove el d
            | None => d
            end in
  head d1 = head d0 ∧ nextNode d1 = nextNode d
  ∧ cards d1 = cards d ∧ body_classList d1 = body_classList d.
Proof.
  intros H0 Htr (K1 & K2 & K3 & _).
  pose proof (injected_after_remove r d Htr) as Hgone.
  cbv zeta. destruct (styleElement r) as [el|] eqn:Hel.
  - split_and!; try done.
    rewrite injected_remove in Hgone. unfold remove. cbn.
    rewrite K1, filter_app, (filter_foreign _ (nextNode d0));
      [|done|by apply K3].
    by rewrite Hgone, app_nil_r.
  - split_and!; try done. by rewrite K1, Hgone, app_nil_r.
Qed.

Lemma inject_keeps_to_itself d0 r d :
  Forall (λ x, node x < nextNode d0) (head d0) →
  tracks_injected r d → keeps_to_itself d0 r d →
  keeps_to_itself d0 (injectOptimizationCSS r d).1
    (injectOptimizationCSS r d).2.
Proof.
  intros H0 Htr Hk.
  pose proof (remove_keeps_to_itself d0 r d H0 Htr Hk) as (R1 & R2 & R3 & R4).
  pose proof (injectOptimizationCSS_spec r d Htr) as (_ & _ & S1 & S2 & S3).
  destruct Hk as (K1 & K2 & K3 & K4 & K5).
  unfold keeps_to_itself. rewrite S1, S2, S3. clear S1 S2 S3.
  unfold injectOptimizationCSS.
  set (d1 := match styleElement r with
             | Some el => remove el d
             | None => d
             end) in *.
  cbn -[head_appendChild isDPR1 isLowDPR]. rewrite R2.
  destruct (isDPR1 r); [|destruct (isLowDPR r)]; cbn;
    rewrite ?R1, ?(filter_foreign _ (nextNode d0)), ?R2, ?app_nil_r;
    try done; try lia;
    split_and!; try done; try lia;
    intros el [= <-]; cbn; lia.
Qed.

Lemma step_keeps_to_itself d0 s e :
  Forall (λ x, node x < nextNode d0) (head d0) →
  tracks_injected s.1 s.2 → keeps_to_itself d0 s.1 s.2 →
  keeps_to_itself d0 (step s e).1 (step s e).2.
Proof.
  destruct s as [r d]. cbn [fst snd]. intros H0 Htr Hk.
  destruct e as [| | dpr |]; unfold step; cbn [fst snd].
  - unfold watchEffect_body.
    destruct (JS.truthy (currentDPR r)); [|exact Hk].
    by apply inject_keeps_to_itself.
  - by apply inject_keeps_to_itself.
  - unfold handleChange. by apply inject_keeps_to_itself.
  - pose proof (remove_keeps_to_itself d0 r d H0 Htr Hk)
      as (R1 & R2 & R3 & R4).
    pose proof (injected_after_remove r d Htr) as Hgone.
    destruct Hk as (K1 & K2 & K3 & K4 & K5).
    unfold cleanup, keeps_to_itself.
    destruct (styleElement r) as [el|] eqn:Hel; cbn [fst snd] in *.
    + change (injected (body_classList_remove scrolling_class (remove el d)))
        with (injected (remove el d)).
      rewrite Hgone, app_nil_r. cbn -[remove]. rewrite R2.
      split_and!; try done.
      intros c Hc. rewrite list_elem_of_filter, R4. specialize (K5 c Hc).
      tauto.
    + change (injected (body_classList_remove scrolling_class d))
        with (injected d).
      rewrite Hgone, app_nil_r. cbn -[filter]. split_and!; try done.
      * intros x Hx. congruence.
      * intros c Hc. rewrite list_elem_of_filter. specialize (K5 c Hc).
        tauto.
Qed.

Lemma run_keeps_to_itself d0 es :
  Forall (λ x, node x < nextNode d0) (head d0) →
  ∀ s, tracks_injected s.1 s.2 → keeps_to_itself d0 s.1 s.2 →
       keeps_to_itself d0 (run s es).1 (run s es).2.
Proof.
  intros H0. induction es as [|e es IH]; intros s Htr Hk; [done|].
  change (run s (e :: es)) with (run (step s e) es).
  apply IH; [by apply step_tracks_injected | by apply step_keeps_to_itself].
Qed.

(** X14.  The controller never disturbs the rest of the document.  From a
    well-formed document that holds no element with its id, after any
    sequence of effect runs, mounts, DPR changes and unmounts, [<head>]
    consists of the children it had, in the same order, followed by the
    injected stylesheet if there is one; the attributes of the cards are
    unchanged; and every class of [<body>] other than [bewly-scrolling] is
    present exactly if it was. *)
Theorem controller_keeps_to_its_own_element :
  ∀ (dpr : JS.number) (d0 : dom) (es : list event),
    injected d0 = [] →
    Forall (λ x, node x < nextNode d0) (head d0) →
    let s := run (setup dpr, d0) es in
    head s.2 = head d0 ++ injected s.2
    ∧ cards s.2 = cards d0
    ∧ ∀ c, c ≠ scrolling_class →
           (c ∈ body_classList s.2 ↔ c ∈ body_classList d0).
Proof.
  intros dpr d0 es Hnone H0 s.
  destruct (run_keeps_to_itself d0 es H0 (setup dpr, d0))
    as (K1 & _ & _ & K4 & K5); [exact Hnone | | by split_and!].
  unfold keeps_to_itself. cbn [fst snd setup styleElement].
  rewrite Hnone, app_nil_r. by split_and!.
Qed.

(** At DPR 1, then 2, then unmounted: the title is still the first child
    of [<head>]. *)
Lemma controller_keeps_witness :
  let s := run (setup 1.0%float, themed_page)
             [RunEffect; Mounted; Change 2.0%float; Unmounted] in
  head s.2 = head themed_page ++ injected s.2.
Proof.
  intros s.
  destruct (controller_keeps_to_its_own_element 1.0%float themed_page
              [RunEffect; Mounted; Change 2.0%float; Unmounted])
    as (Hhead & _).
  - reflexivity.
  - repeat constructor.
  - exact Hhead.
Defined.

(** ** Teardown *)

(** X15.  Unmounting clears everything the controller and the scrolling
    hook put into the document: after [cleanup], whatever happened before,
    no element with the controller's id is in [<head>], the ref holds no
    element, and [<body>] does not carry the class [bewly-scrolling]. *)
Theorem cleanup_removes_stylesheet_and_marker :
  ∀ (dpr : JS.number) (d0 : dom) (es : list event),
    injected d0 = [] →
    let s := run (setup dpr, d0) (es ++ [Unmounted]) in
    injected s.2 = []
    ∧ styleElement s.1 = None
    ∧ scrolling_class ∉ body_classList s.2.
Proof.
  intros dpr d0 es Hnone s. subst s.
  unfold run. rewrite fold_left_app. fold (run (setup dpr, d0) es).
  assert (Htr : tracks_injected (run (setup dpr, d0) es).1
                  (run (setup dpr, d0) es).2)
    by (apply run_tracks_injected; exact Hnone).
  destruct (run (setup dpr, d0) es) as [r d]. cbn [fst snd] in Htr.
  pose proof (injected_after_remove r d Htr) as Hgone.
  cbn [fold_left step fst snd]. unfold cleanup.
  destruct (styleElement r) as [el|] eqn:Hel; cbn [fst snd].
  - split_and!; [exact Hgone | done |].
    cbn -[filter]. rewrite list_elem_of_filter. by intros [? _].
  - split_and!; [exact Hgone | done |].
    cbn -[filter]. rewrite list_elem_of_filter. by intros [? _].
Qed.

(** Unmounting a controller that had injected the DPR-1 stylesheet. *)
Lemma cleanup_witness :
  injected
    (run (setup 1.0%float, themed_page) ([RunEffect; Mounted] ++ [Unmounted])).2
  = [].
Proof.
  destruct (cleanup_removes_stylesheet_and_marker 1.0%float themed_page
              [RunEffect; Mounted]) as (Hinj & _); [reflexivity|].
  exact Hinj.
Defined.

(** ** No stale rules *)

Lemma rules_for_currentDPR r r' :
  currentDPR r' = currentDPR r → rules_for r' = rules_for r.
Proof. unfold rules_for, isDPR1, isLowDPR. by intros ->. Qed.

Lemma inject_rules r d :
  tracks_injected r d →
  map textContent (injected (injectOptimizationCSS r d).2)
  = rules_for (injectOptimizationCSS r d).1.
Proof.
  intros Htr.
  pose proof (injectOptimizationCSS_spec r d Htr) as (_ & Hdpr & _ & _ & ->).
  rewrite (rules_for_currentDPR r _ Hdpr). unfold rules_for.
  by destruct (isDPR1 r), (isLowDPR r).
Qed.

Lemma step_rules s e :
  tracks_injected s.1 s.2 →
  (map textContent (injected s.2) = rules_for s.1 ∨ injected s.2 = []) →
  map textContent (injected (step s e).2) = rules_for (step s e).1
  ∨ injected (step s e).2 = [].
Proof.
  destruct s as [r d]. cbn [fst snd]. intros Htr Hs.
  destruct e as [| | dpr |]; unfold step; cbn [fst snd].
  - unfold watchEffect_body.
    destruct (JS.truthy (currentDPR r)); [|exact Hs].
    left. by apply inject_rules.
  - left. by apply inject_rules.
  - left. unfold handleChange. by apply inject_rules.
  - right.
    pose proof (injected_after_remove r d Htr) as Hgone. unfold cleanup.
    by destruct (styleElement r).
Qed.

(** X16.  No stale rules.  Whenever a stylesheet of the controller is in
    the document, its rules are the ones that belong to the DPR the
    controller currently holds; and right after a mount or after a
    resolution or resize change the document holds exactly what belongs to
    that DPR: the aggressive rules, the lighter rules, or no stylesheet.
    This also holds for a change that arrives after the unmount, whose
    listeners [cleanup] does not remove. *)
Theorem stylesheet_matches_current_dpr :
  ∀ (dpr : JS.number) (d0 : dom) (es : list event),
    injected d0 = [] →
    let s := run (setup dpr, d0) es in
    (map textContent (injected s.2) = rules_for s.1 ∨ injected s.2 = [])
    ∧ (map textContent (injected (step s Mounted).2) = rules_for s.1)
    ∧ ∀ dpr',
        map textContent (injected (step s (Change dpr')).2)
        = rules_for (setup dpr').
Proof.
  intros dpr d0 es Hnone s.
  assert (Htr : tracks_injected s.1 s.2)
    by (apply run_tracks_injected; exact Hnone).
  split_and!.
  - assert (Hgen : ∀ es s1, tracks_injected s1.1 s1.2 →
      (map textContent (injected s1.2) = rules_for s1.1
       ∨ injected s1.2 = []) →
      map textContent (injected (run s1 es).2) = rules_for (run s1 es).1
      ∨ injected (run s1 es).2 = []).
    { clear. induction es as [|e' es IH]; intros s1 H1 H2; [done|].
      change (run s1 (e' :: es)) with (run (step s1 e') es).
      apply IH; [by apply step_tracks_injected | by apply step_rules]. }
    apply Hgen; [exact Hnone | by right].
  - unfold step. rewrite inject_rules by done.
    apply rules_for_currentDPR.
    by pose proof (injectOptimizationCSS_spec s.1 s.2 Htr) as (_ & -> & _).
  - intros dpr'. unfold step, handleChange. rewrite inject_rules by done.
    apply rules_for_currentDPR.
    by pose proof (injectOptimizationCSS_spec (updateDPR dpr' s.1) s.2 Htr)
      as (_ & -> & _).
Qed.

(** Zooming from DPR 1 to 1.25 after the unmount: the lighter rules are
    injected. *)
Lemma stylesheet_matches_witness :
  map textContent
    (injected
       (step (run (setup 1.0%float, themed_page) [RunEffect; Mounted; Unmounted])
          (Change 1.25%float)).2)
  = [css_lowDPR].
Proof.
  destruct (stylesheet_matches_current_dpr 1.0%float themed_page
              [RunEffect; Mounted; Unmounted]) as (_ & _ & Hchange);
    [reflexivity|].
  exact (Hchange 1.25%float).
Defined.

End DPREdges.

(** * Properties of the top bar's flags and of the cached DPR test *)

Module TopBarProperties.

Import TopBarInteraction.

(** X17.  Evaluating [showSearchBar] without settings throws a
    [TypeError]: unlike [forceWhiteIcon], which answers false there, it
    reads the settings without a guard.  With settings present it returns
    a boolean, and the search bar is hidden in exactly two situations: the
    plugin's search results page is switched off; or the page is the home
    page, not the original one, showing the [Home] page in search-page mode
    while scrolled to the top.  In particular the search-page URL test has
    no influence on the flag. *)
Theorem showSearchBar_hidden_iff :
  ∀ (loc : Location) (page : option AppPage) (reachTop : bool),
    showSearchBar None loc page reachTop = TypeError
    ∧ forceWhiteIcon None loc page = false
    ∧ ∀ st : Settings,
        (∃ b, showSearchBar (Some st) loc page reachTop = Returns b)
        ∧ (showSearchBar (Some st) loc page reachTop = Returns false
           ↔ usePluginSearchResultsPage st = false
             ∨ (isHomePage loc = true
                ∧ useOriginalBilibiliHomepage st = false
                ∧ page = Some Home
                ∧ useSearchPageModeOnHomePage st = true
                ∧ reachTop = true))
        ∧ ∀ b, showSearchBar (Some st)
                 {| isHomePage := isHomePage loc;
                    CHANNEL_PAGE_URL := CHANNEL_PAGE_URL loc;
                    VIDEO_PAGE_URL := VIDEO_PAGE_URL loc;
                    SPACE_URL := SPACE_URL loc;
                    ACCOUNT_URL := ACCOUNT_URL loc;
                    SEARCH_PAGE_URL := b |} page reachTop
               = showSearchBar (Some st) loc page reachTop.
Proof.
  intros loc page reachTop. split; [reflexivity|]. split; [reflexivity|].
  intros st. split_and!.
  - unfold showSearchBar.
    destruct (usePluginSearchResultsPage st), (isHomePage loc),
      (useOriginalBilibiliHomepage st), (useSearchPageModeOnHomePage st),
      reachTop, (SEARCH_PAGE_URL loc), page as [[| |name]|]; cbn;
      by eexists.
  - unfold showSearchBar.
    destruct (usePluginSearchResultsPage st), (isHomePage loc),
      (useOriginalBilibiliHomepage st), (useSearchPageModeOnHomePage st),
      reachTop, (SEARCH_PAGE_URL loc), page as [[| |name]|]; cbn;
      split; try done; try (by left); try (by intros [? | (? & ? & ? & ? & ?)]);
      try (intros _; right; by split_and!).
  - intros b. unfold showSearchBar. cbn.
    by destruct (SEARCH_PAGE_URL loc), b.
Qed.

(** X18.  With settings present, the icons are forced white exactly when:
    the transparent top bar is always on; or the location is the original
    home page, a channel page that is not a video page, a space page or an
    account page; or, on the home page, the activated page is [Search] and
    its own wallpaper (when set individually) or else the general wallpaper
    is set; or, on the home page, another page is activated and the general
    wallpaper is set, or search-page mode is on with an individually set
    search wallpaper.  Without settings they never are. *)
Theorem forceWhiteIcon_closed_form :
  ∀ (st : Settings) (loc : Location) (page : option AppPage),
    forceWhiteIcon None loc page = false
    ∧ forceWhiteIcon (Some st) loc page
      = (alwaysUseTransparentTopBar st
         || (isHomePage loc && useOriginalBilibiliHomepage st)
         || (CHANNEL_PAGE_URL loc && negb (VIDEO_PAGE_URL loc))
         || SPACE_URL loc
         || ACCOUNT_URL loc
         || (isHomePage loc
             && match page with
                | None => false
                | Some Search =>
                    if individuallySetSearchPageWallpaper st
                    then truthy (searchPageWallpaper st)
                    else truthy (wallpaper st)
                | Some _ =>
                    truthy (wallpaper st)
                    || (useSearchPageModeOnHomePage st
                        && individuallySetSearchPageWallpaper st
                        && truthy (searchPageWallpaper st))
                end)).
Proof.
  intros st loc page. split; [done|]. unfold forceWhiteIcon.
  destruct (alwaysUseTransparentTopBar st), (isHomePage loc),
    (useOriginalBilibiliHomepage st), (CHANNEL_PAGE_URL loc),
    (VIDEO_PAGE_URL loc), (SPACE_URL loc), (ACCOUNT_URL loc); cbn;
    try done;
    destruct page as [[| |name]|]; try done;
    destruct (individuallySetSearchPageWallpaper st),
      (truthy (searchPageWallpaper st)), (truthy (wallpaper st)),
      (useSearchPageModeOnHomePage st); done.
Qed.

(** X19.  [isLowDPREnvironment] decides once: every call answers with the
    comparison [dpr <= 1.0] made on the DPR of the first call, whatever the
    DPR is at the later calls. *)
Theorem isLowDPREnvironment_decided_at_first_call :
  ∀ (dpr : JS.number) (later : list JS.number),
    Transformer.calls (dpr :: later) None
    = replicate (S (length later)) (PrimFloat.leb dpr 1.0%float).
Proof.
  intros dpr later. cbn. f_equal.
  generalize (PrimFloat.leb dpr 1.0%float). intros v.
  induction later as [|d later IH]; [done|]. cbn. by rewrite IH.
Qed.

End TopBarProperties.

(** * Properties of the earlier per-card scrolling hook *)

Module LegacyScrollingProperties.

Import DPRPerformanceFix LegacyScrolling.

Lemma markScrolling_true_cards d :
  Forall marked (cards (Legacy.markScrolling true d))
  ∧ length (cards (Legacy.markScrolling true d)) = length (cards d)
  ∧ length (writes (Legacy.markScrolling true d))
    = length (writes d) + length (cards d).
Proof.
  unfold Legacy.markScrolling. cbn. split_and!.
  - apply Forall_forall. intros attrs [a [-> _]]%list_elem_of_fmap.
    unfold marked, Legacy.setAttribute. apply elem_of_app. right. by left.
  - by rewrite length_map.
  - by rewrite length_app, length_map, length_seq.
Qed.

Lemma markScrolling_false_cards d :
  Forall unmarked (cards (Legacy.markScrolling false d))
  ∧ length (cards (Legacy.markScrolling false d)) = length (cards d)
  ∧ length (writes (Legacy.markScrolling false d))
    = length (writes d) + length (cards d).
Proof.
  unfold Legacy.markScrolling. cbn. split_and!.
  - apply Forall_forall. intros attrs [a [-> _]]%list_elem_of_fmap.
    unfold unmarked, Legacy.removeAttribute. apply Forall_forall.
    by intros kv [? _]%list_elem_of_filter.
  - by rewrite length_map.
  - by rewrite length_app, length_map, length_seq.
Qed.

Lemma clear_scrollTimeout_keeps s :
  scrollTimeout (clear_scrollTimeout s) = scrollTimeout s
  ∧ isScrolling (clear_scrollTimeout s) = isScrolling s
  ∧ container (clear_scrollTimeout s) = container s
  ∧ document (clear_scrollTimeout s) = document s
  ∧ now (clear_scrollTimeout s) = now s
  ∧ nextTimer (clear_scrollTimeout s) = nextTimer s
  ∧ timers (clear_scrollTimeout s)
    = match scrollTimeout s with
      | Some (S _ as i) => delete i (timers s)
      | _ => timers s
      end.
Proof.
  unfold clear_scrollTimeout.
  destruct (scrollTimeout s) as [[|i]|] eqn:Hst; cbn; rewrite ?Hst; done.
Qed.

(** [handleScroll] after its first statement, which led to [s1]. *)
Lemma handleScroll_fields s :
  let s1 := if negb (isScrolling s) then markScrolling true s else s in
  scrollTimeout (handleScroll s) = Some (nextTimer s1)
  ∧ timers (handleScroll s)
    = <[nextTimer s1 := (now s1 + 150)%Z]> (timers (clear_scrollTimeout s1))
  ∧ nextTimer (handleScroll s) = S (nextTimer s1)
  ∧ now (handleScroll s) = now s1
  ∧ container (handleScroll s) = container s1
  ∧ isScrolling (handleScroll s) = isScrolling s1
  ∧ document (handleScroll s) = document s1.
Proof.
  cbv zeta. unfold handleScroll.
  generalize (if negb (isScrolling s) then markScrolling true s else s).
  intros s1.
  destruct (clear_scrollTimeout_keeps s1) as (K1 & K2 & K3 & K4 & K5 & K6 & _).
  cbn. by rewrite K2, K3, K4, K5, K6.
Qed.

Lemma markScrolling_fields b s :
  container s = true →
  scrollTimeout (markScrolling b s) = scrollTimeout s
  ∧ timers (markScrolling b s) = timers s
  ∧ nextTimer (markScrolling b s) = nextTimer s
  ∧ now (markScrolling b s) = now s
  ∧ container (markScrolling b s) = true
  ∧ isScrolling (markScrolling b s) = b
  ∧ document (markScrolling b s) = Legacy.markScrolling b (document s).
Proof. intros Hc. unfold markScrolling. rewrite Hc. cbn. by rewrite Hc. Qed.

Lemma handleScroll_starts_or_extends s :
  healthy s → in_gesture s ∨ at_rest s →
  healthy (handleScroll s) ∧ in_gesture (handleScroll s)
  ∧ length (cards (document (handleScroll s)))
    = length (cards (document s))
  ∧ length (writes (document (handleScroll s)))
    = length (writes (document s))
      + (if isScrolling s then 0 else length (cards (document s))).
Proof.
  intros [Hc Hnt] Hs.
  destruct (handleScroll_fields s) as (F1 & F2 & F3 & F4 & F5 & F6 & F7).
  unfold healthy, in_gesture. rewrite F1, F2, F3, F4, F5, F6, F7.
  clear F1 F2 F3 F4 F5 F6 F7.
  destruct (nextTimer s) as [|nt] eqn:Hnext; [lia|].
  destruct Hs as [(G1 & G2 & id & dl & G3 & G4 & G5) | (R1 & R2 & R3)].
  - rewrite G1. cbn [negb].
    destruct (clear_scrollTimeout_keeps s) as (_ & _ & _ & _ & _ & _ & ->).
    rewrite G3, G4, delete_singleton_eq, insert_empty, Hnext.
    split_and!; try done; try lia.
    exists nt, (now s + 150)%Z. split_and!; try done; lia.
  - rewrite R1. cbn [negb].
    destruct (markScrolling_fields true s Hc)
      as (M1 & M2 & M3 & M4 & M5 & M6 & M7).
    destruct (clear_scrollTimeout_keeps (markScrolling true s))
      as (_ & _ & _ & _ & _ & _ & ->).
    rewrite M1, M2, M3, M4, M5, M6, M7, R3, Hnext.
    destruct (markScrolling_true_cards (document s)) as (C1 & C2 & C3).
    assert (Hnone : match scrollTimeout s with
                    | Some (S _ as i) => delete i (∅ : timer_table)
                    | _ => ∅
                    end = ∅)
      by (destruct (scrollTimeout s) as [[|i]|]; by rewrite ?delete_empty).
    rewrite Hnone, insert_empty.
    split_and!; try done; try lia.
    exists nt, (now s + 150)%Z. split_and!; try done; lia.
Qed.

Lemma cleanup_rests s :
  healthy s → in_gesture s ∨ at_rest s →
  healthy (cleanup s) ∧ at_rest (cleanup s)
  ∧ length (cards (document (cleanup s))) = length (cards (document s)).
Proof.
  intros [Hc Hnt] Hs. unfold cleanup.
  destruct (clear_scrollTimeout_keeps s) as (K1 & K2 & K3 & K4 & K5 & K6 & K7).
  assert (Hc' : container (clear_scrollTimeout s) = true) by by rewrite K3.
  destruct (markScrolling_fields false _ Hc')
    as (M1 & M2 & M3 & M4 & M5 & M6 & M7).
  destruct (markScrolling_false_cards (document s)) as (C1 & C2 & C3).
  unfold healthy, at_rest. rewrite M2, M3, M5, M6, M7, K4, K6, K7.
  split_and!; try done.
  destruct Hs as [(G1 & G2 & id & dl & G3 & G4 & G5) | (R1 & R2 & R3)].
  - by rewrite G3, G4, delete_singleton_eq.
  - rewrite R3. destruct (scrollTimeout s) as [[|i]|]; by rewrite ?delete_empty.
Qed.

Lemma idleTimeout_rests s :
  healthy s → timers s = ∅ →
  healthy (idleTimeout s) ∧ at_rest (idleTimeout s)
  ∧ length (cards (document (idleTimeout s))) = length (cards (document s)).
Proof.
  intros [Hc Hnt] Htm. unfold idleTimeout.
  destruct (markScrolling_fields false s Hc)
    as (M1 & M2 & M3 & M4 & M5 & M6 & M7).
  destruct (markScrolling_false_cards (document s)) as (C1 & C2 & C3).
  unfold healthy, at_rest. cbn. by rewrite M2, M3, M5, M6, M7, Htm.
Qed.

(** A gesture outlives a pause shorter than the time left on its timer and
    ends with the pause that reaches the deadline. *)
Lemma elapse_in_gesture dt s id dl :
  healthy s → in_gesture s → timers s = {[ id := dl ]} →
  healthy (elapse dt s)
  ∧ length (cards (document (elapse dt s))) = length (cards (document s))
  ∧ if (dl <=? now s + Z.of_N dt)%Z then at_rest (elapse dt s)
    else in_gesture (elapse dt s).
Proof.
  intros [Hc Hnt] (G1 & G2 & id' & dl' & G3 & G4 & G5) Htm.
  assert (id = S id' ∧ dl = dl') as [-> ->].
  { rewrite G4 in Htm.
    assert (E : ({[S id' := dl']} : timer_table) !! id = Some dl)
      by (rewrite Htm; apply lookup_singleton_eq).
    by apply lookup_singleton_Some in E as [-> ->]. }
  unfold elapse. cbv zeta.
  destruct (dl' <=? now s + Z.of_N dt)%Z eqn:Hdue.
  - apply Z.leb_le in Hdue.
    rewrite (due_all _ (timers s)), (not_due_none _ (timers s)), G4,
      map_size_singleton;
      try (rewrite G4; by intros ? ? [_ <-]%lookup_singleton_Some).
    cbn [Nat.iter nat_rect].
    destruct (idleTimeout_rests (set_now (now s + Z.of_N dt) (set_timers ∅ s)))
      as (I1 & I2 & I3); [done|done|].
    by split_and!.
  - apply Z.leb_gt in Hdue.
    rewrite (due_none _ (timers s)), (not_due_all _ (timers s)), map_size_empty;
      try (rewrite G4; by intros ? ? [_ <-]%lookup_singleton_Some).
    cbn. unfold healthy, in_gesture. cbn. split_and!; try done.
    exists id', dl'. split_and!; try done; lia.
Qed.

Lemma elapse_at_rest dt s :
  healthy s → at_rest s →
  healthy (elapse dt s) ∧ at_rest (elapse dt s)
  ∧ document (elapse dt s) = document s.
Proof.
  intros [Hc Hnt] (R1 & R2 & R3). unfold elapse. cbv zeta.
  rewrite R3, due_empty, not_due_empty, map_size_empty. cbn.
  unfold healthy, at_rest. cbn. by split_and!.
Qed.

Lemma step_settled n s e : settled n s → settled n (step s e).
Proof.
  intros (Hh & Hs & Hn). destruct e as [|dt|]; cbn [step].
  - destruct (handleScroll_starts_or_extends s Hh Hs) as (H1 & H2 & H3 & _).
    split_and!; [done|by left|congruence].
  - destruct Hs as [Hg|Hr].
    + pose proof Hg as (_ & _ & id & dl & _ & Htm & _).
      destruct (elapse_in_gesture dt s _ _ Hh Hg Htm) as (H1 & H2 & H3).
      split_and!; [done| |congruence].
      destruct (dl <=? now s + Z.of_N dt)%Z; [by right|by left].
    + destruct (elapse_at_rest dt s Hh Hr) as (H1 & H2 & H3).
      split_and!; [done|by right|by rewrite H3].
  - destruct (cleanup_rests s Hh Hs) as (H1 & H2 & H3).
    split_and!; [done|by right|congruence].
Qed.

Lemma run_settled n es s : settled n s → settled n (run s es).
Proof.
  revert s. induction es as [|e es IH]; intros s Hs; [done|].
  change (run s (e :: es)) with (run (step s e) es).
  by apply IH, step_settled.
Qed.

Lemma init_settled d :
  Forall unmarked (cards d) → settled (length (cards d)) (init true d).
Proof.
  intros Hd. unfold settled, healthy, at_rest. cbn.
  split_and!; try done; try lia. by right.
Qed.

(** X20. With a container, the earlier per-card hook keeps the cards all
    alike: after any sequence of scroll events, pauses and cleanups on a page
    whose cards start without the attribute, either the hook is in a gesture,
    every card carries [data-scrolling=true] and exactly one idle timer is
    pending, or it is at rest, no card carries the attribute and no timer is
    pending. *)
Theorem legacy_cards_all_marked_or_none d es :
  Forall unmarked (cards d) →
  let s := run (init true d) es in
  (isScrolling s = true
   ∧ Forall marked (cards (document s))
   ∧ ∃ id dl, scrollTimeout s = Some (S id) ∧ timers s = {[ S id := dl ]}
              ∧ (now s < dl ≤ now s + 150)%Z)
  ∨ (isScrolling s = false
     ∧ Forall unmarked (cards (document s))
     ∧ timers s = ∅).
Proof.
  intros Hd s.
  by destruct (run_settled _ es _ (init_settled d Hd)) as (_ & Hs & _).
Qed.

Lemma legacy_cards_witness :
  let s := run (init true (blank_document 3)) [Scroll; Elapse 100; Scroll] in
  (isScrolling s = true
   ∧ Forall marked (cards (document s))
   ∧ ∃ id dl, scrollTimeout s = Some (S id) ∧ timers s = {[ S id := dl ]}
              ∧ (now s < dl ≤ now s + 150)%Z)
  ∨ (isScrolling s = false
     ∧ Forall unmarked (cards (document s))
     ∧ timers s = ∅).
Proof.
  apply (legacy_cards_all_marked_or_none (blank_document 3)
           [Scroll; Elapse 100; Scroll]).
  cbn. repeat constructor.
Defined.

(** X21. The cost of a scroll event in the earlier per-card hook: the event
    that starts a gesture writes one attribute per card, and every further
    event of the gesture writes nothing to the document. *)
Theorem legacy_scroll_event_writes_once_per_card_per_gesture d es :
  Forall unmarked (cards d) →
  let s := run (init true d) es in
  length (writes (document (handleScroll s)))
  = length (writes (document s))
    + (if isScrolling s then 0 else length (cards d)).
Proof.
  intros Hd s.
  destruct (run_settled _ es _ (init_settled d Hd)) as (Hh & Hs & Hn).
  destruct (handleScroll_starts_or_extends _ Hh Hs) as (_ & _ & _ & Hw).
  fold s in Hn, Hw. by rewrite Hw, Hn.
Qed.

Lemma legacy_scroll_event_witness :
  let s := run (init true (blank_document 3)) [Scroll; Elapse 200] in
  length (writes (document (handleScroll s)))
  = length (writes (document s))
    + (if isScrolling s then 0 else length (cards (blank_document 3))).
Proof.
  apply (legacy_scroll_event_writes_once_per_card_per_gesture
           (blank_document 3) [Scroll; Elapse 200]).
  cbn. repeat constructor.
Defined.

(** X22. The earlier hook debounces the end of a gesture: after a scroll
    event followed by a pause of [dt] ms the hook is still scrolling exactly
    when [dt] is below 150, and once the pause reaches 150 ms no card carries
    the attribute. *)
Theorem legacy_gesture_ends_150ms_after_last_scroll d es dt :
  Forall unmarked (cards d) →
  let s := run (init true d) (es ++ [Scroll; Elapse dt]) in
  isScrolling s = (dt <? 150)%N
  ∧ ((150 ≤ dt)%N → Forall unmarked (cards (document s))).
Proof.
  intros Hd s. subst s. unfold run. rewrite fold_left_app.
  fold (run (init true d) es).
  destruct (run_settled _ es _ (init_settled d Hd)) as (Hh & Hs & Hn).
  set (s := run (init true d) es) in *. cbn [fold_left step].
  destruct (handleScroll_starts_or_extends s Hh Hs) as (H1 & H2 & _).
  destruct (handleScroll_fields s) as (_ & F2 & _ & F4 & _).
  cbv zeta in F2, F4.
  pose proof H2 as (_ & _ & id & dl & _ & Htm & _).
  destruct (elapse_in_gesture dt _ _ _ H1 H2 Htm) as (_ & _ & E).
  assert (dl = now (handleScroll s) + 150)%Z as ->.
  { assert (L : timers (handleScroll s)
                 !! nextTimer (if negb (isScrolling s)
                               then markScrolling true s else s)
               = Some (now (if negb (isScrolling s)
                            then markScrolling true s else s) + 150)%Z)
      by (rewrite F2; apply lookup_insert_eq).
    rewrite Htm in L. apply lookup_singleton_Some in L as [_ L].
    by rewrite F4. }
  destruct (now (handleScroll s) + 150 <=? now (handleScroll s) + Z.of_N dt)%Z
    eqn:Hdue.
  - apply Z.leb_le in Hdue. destruct E as (R1 & R2 & _).
    split; [|done]. rewrite R1. symmetry. apply N.ltb_ge. lia.
  - apply Z.leb_gt in Hdue. destruct E as (G1 & _).
    split; [|lia]. rewrite G1. symmetry. apply N.ltb_lt. lia.
Qed.

Lemma legacy_gesture_ends_witness :
  let s := run (init true (blank_document 2)) ([Scroll] ++ [Scroll; Elapse 150]) in
  isScrolling s = (150 <? 150)%N
  ∧ ((150 ≤ 150)%N → Forall unmarked (cards (document s))).
Proof.
  apply (legacy_gesture_ends_150ms_after_last_scroll
           (blank_document 2) [Scroll] 150).
  cbn. repeat constructor.
Defined.

Lemma markScrolling_no_container b s :
  container s = false → markScrolling b s = s.
Proof. intros Hc. unfold markScrolling. by rewrite Hc. Qed.

Lemma step_no_container s e :
  container s = false → isScrolling s = false →
  container (step s e) = false ∧ isScrolling (step s e) = false
  ∧ document (step s e) = document s.
Proof.
  intros Hc Hs. destruct e as [|dt|]; cbn [step].
  - destruct (handleScroll_fields s) as (_ & _ & _ & _ & F5 & F6 & F7).
    cbv zeta in F5, F6, F7.
    rewrite (markScrolling_no_container true s Hc) in F5, F6, F7.
    rewrite F5, F6, F7. by destruct (negb (isScrolling s)).
  - unfold elapse. cbv zeta.
    generalize (size (due (now s + Z.of_N dt) (timers s))). intros n.
    induction n as [|n IH]; [done|].
    change (Nat.iter (S n) idleTimeout ?x) with (idleTimeout (Nat.iter n idleTimeout x)).
    set (x := Nat.iter n idleTimeout _) in *.
    destruct IH as (I1 & I2 & I3). unfold idleTimeout.
    rewrite (markScrolling_no_container false _ I1). cbn. by rewrite I1, I2, I3.
  - unfold cleanup.
    destruct (clear_scrollTimeout_keeps s) as (_ & K2 & K3 & K4 & _).
    rewrite markScrolling_no_container by by rewrite K3.
    by rewrite K2, K3, K4.
Qed.

(** X23. Without a container the earlier hook does nothing to the page:
    whatever events arrive, the document is the one it started with and the
    hook never considers itself scrolling. *)
Theorem legacy_hook_without_container_never_writes d es :
  document (run (init false d) es) = d
  ∧ isScrolling (run (init false d) es) = false.
Proof.
  assert (H : ∀ s, container s = false → isScrolling s = false →
                   document (run s es) = document s
                   ∧ isScrolling (run s es) = false).
  { induction es as [|e es IH]; intros s Hc Hs; [done|].
    change (run s (e :: es)) with (run (step s e) es).
    destruct (step_no_container s e Hc Hs) as (S1 & S2 & S3).
    destruct (IH _ S1 S2) as [I1 I2]. by rewrite I1, S3. }
  by apply H.
Qed.

End LegacyScrollingProperties.
